(** * pyIPATool: the App Store client (services/appstore.py, http_client.py,
      keychain.py, models.py) as Rocq definitions, and the properties of the
      specification that are about it.

    Layout: Python values and strings; errors; the world the service runs in
    (network, cookie jar, keychain, files) and the monad of its effects; the
    transport; the models and the keychain; the service operations and the
    archive transform; what the properties observe and a concrete setting;
    the properties, and their examples. *)

From Stdlib Require Import String Ascii ZArith List Bool Lia SpecFloat.
From stdpp Require Import gmap strings pretty.
Import ListNotations.

Set Warnings "-register-all".

Local Open Scope string_scope.
Local Open Scope Z_scope.

(** ** Python values

    What [json.loads] and [plistlib.loads] return, and what the dataclasses
    hold at run time: Python does not enforce annotations, so a field declared
    [str] holds whatever was stored in it. A [float] is an IEEE 754 number. *)

Inductive Value : Type :=
| VNone
| VBool (b : bool)
| VInt (z : Z)
| VFloat (f : spec_float)
| VStr (s : string)
| VBytes (s : string)
| VDate (seconds : Z)
| VList (items : list Value)
| VDict (items : list (string * Value)).

(** [0.0] *)
Definition float_zero : spec_float := S754_zero false.

(** Truth value of an object, as [if x:], [not x], [x or y] use it. *)
Definition truthy (v : Value) : bool :=
  match v with
  | VNone => false
  | VBool b => b
  | VInt z => negb (z =? 0)
  | VFloat f => negb (SFeqb f float_zero)
  | VStr s => negb (String.eqb s "")
  | VBytes s => negb (String.eqb s "")
  | VDate _ => true
  | VList l => match l with [] => false | _ => true end
  | VDict d => match d with [] => false | _ => true end
  end.

(** [x or y] *)
Definition py_or (x y : Value) : Value := if truthy x then x else y.

(** [v == "literal"]: only a [str] equals a [str]. *)
Definition eq_str (v : Value) (s : string) : bool :=
  match v with
  | VStr s' => String.eqb s' s
  | _ => false
  end.

(** [v == 0]: numbers compare by value, and [False == 0]. *)
Definition eq_zero (v : Value) : bool :=
  match v with
  | VInt z => z =? 0
  | VBool b => negb b
  | VFloat f => SFeqb f float_zero
  | _ => false
  end.

(** Lookup in a dict kept in insertion order. *)
Fixpoint dict_find (d : list (string * Value)) (k : string) : option Value :=
  match d with
  | [] => None
  | (k', v) :: d' => if String.eqb k' k then Some v else dict_find d' k
  end.

(** [d.get(k, default)] on a dict. *)
Definition dict_get (d : list (string * Value)) (k : string) (default : Value) : Value :=
  match dict_find d k with
  | Some v => v
  | None => default
  end.

(** ** Strings *)

Definition ascii_upper (c : ascii) : ascii :=
  let n := N_of_ascii c in
  if ((97 <=? n) && (n <=? 122))%N then ascii_of_N (n - 32) else c.

Definition ascii_lower (c : ascii) : ascii :=
  let n := N_of_ascii c in
  if ((65 <=? n) && (n <=? 90))%N then ascii_of_N (n + 32) else c.

Fixpoint string_map (f : ascii -> ascii) (s : string) : string :=
  match s with
  | EmptyString => EmptyString
  | String c s' => String (f c) (string_map f s')
  end.

(** [s.upper()] and [s.lower()], on ASCII text (header names, hex digits). *)
Definition upper (s : string) : string := string_map ascii_upper s.
Definition lower (s : string) : string := string_map ascii_lower s.

(** [s.replace(c, "")] for a one-character [c]. *)
Fixpoint remove_char (c : ascii) (s : string) : string :=
  match s with
  | EmptyString => EmptyString
  | String c' s' =>
      if Ascii.eqb c' c then remove_char c s' else String c' (remove_char c s')
  end.

(** [s.endswith(suffix)] *)
Fixpoint endswith (s suffix : string) : bool :=
  String.eqb s suffix ||
  match s with
  | EmptyString => false
  | String _ s' => endswith s' suffix
  end.

(** [sub in s] *)
Fixpoint contains (sub s : string) : bool :=
  String.prefix sub s ||
  match s with
  | EmptyString => false
  | String _ s' => contains sub s'
  end.

(** [s.split(c)] for a one-character separator: the pieces, at least one. *)
Fixpoint split_on (c : ascii) (s : string) : list string :=
  match s with
  | EmptyString => [EmptyString]
  | String c' s' =>
      if Ascii.eqb c' c then EmptyString :: split_on c s'
      else match split_on c s' with
           | [] => [String c' EmptyString]
           | piece :: pieces => String c' piece :: pieces
           end
  end.

(** [sep.join(pieces)] *)
Fixpoint join (sep : string) (pieces : list string) : string :=
  match pieces with
  | [] => ""
  | [p] => p
  | p :: ps => p ++ sep ++ join sep ps
  end.

(** The components of a POSIX path as [pathlib] keeps them: empty pieces and
    ["."] are dropped. *)
Definition path_parts (p : string) : list string :=
  List.filter (fun piece => negb (String.eqb piece "" || String.eqb piece ".")) (split_on "/" p).

(** [Path(p).parent.name]: the last component of the parent, [""] when the
    parent has none. *)
Definition parent_name (p : string) : string :=
  match rev (path_parts p) with
  | _ :: dir :: _ => dir
  | _ => ""
  end.

(** [s[:n]] *)
Definition take_prefix (n : nat) (s : string) : string := substring 0 n s.

(** ** Errors

    The exception classes of services/errors.py and http_client.py, and the
    library exceptions the service lets through. *)

Inductive ErrorClass : Type :=
| AppStoreError
| AuthCodeRequiredError
| PasswordTokenExpiredError
| LicenseRequiredError
| TemporarilyUnavailableError
| SubscriptionRequiredError
| InvalidCredentialsError
| HTTPClientResponseError
| RequestException
| KeyError
| IndexError
| AttributeError
| TypeError
| InvalidFileException
| FileNotFoundError
| BadZipFile.

Definition ErrorClass_eqb (c1 c2 : ErrorClass) : bool :=
  match c1, c2 with
  | AppStoreError, AppStoreError
  | AuthCodeRequiredError, AuthCodeRequiredError
  | PasswordTokenExpiredError, PasswordTokenExpiredError
  | LicenseRequiredError, LicenseRequiredError
  | TemporarilyUnavailableError, TemporarilyUnavailableError
  | SubscriptionRequiredError, SubscriptionRequiredError
  | InvalidCredentialsError, InvalidCredentialsError
  | HTTPClientResponseError, HTTPClientResponseError
  | RequestException, RequestException
  | KeyError, KeyError
  | IndexError, IndexError
  | AttributeError, AttributeError
  | TypeError, TypeError
  | InvalidFileException, InvalidFileException
  | FileNotFoundError, FileNotFoundError
  | BadZipFile, BadZipFile => true
  | _, _ => false
  end.

(** [issubclass(c, base)]: every error of errors.py derives from
    [AppStoreError]. *)
Definition issubclass (c base : ErrorClass) : bool :=
  ErrorClass_eqb c base ||
  match base, c with
  | AppStoreError, (AuthCodeRequiredError | PasswordTokenExpiredError | LicenseRequiredError
                   | TemporarilyUnavailableError | SubscriptionRequiredError
                   | InvalidCredentialsError) => true
  | _, _ => false
  end.

(** What an error carries besides its message: the [metadata] of an
    [AppStoreError], or the status, headers and body of an
    [HTTPClientResponseError]. *)
Inductive Metadata : Type :=
| NoMetadata
| MetaValue (v : Value)
| MetaHeaders (hs : list (string * string))
| MetaResponse (status : Z) (hs : list (string * string)) (body : string).

Record Error : Type := mkError {
  err_class : ErrorClass;
  err_message : string;
  err_metadata : Metadata
}.

Inductive outcome (A : Type) : Type :=
| Ok (a : A)
| Raise (e : Error).
Arguments Ok {A} a.
Arguments Raise {A} e.

#[global] Instance outcome_ret : MRet outcome := fun A a => Ok a.
#[global] Instance outcome_bind : MBind outcome := fun A B f o =>
  match o with
  | Ok a => f a
  | Raise e => Raise e
  end.

(** The class of the error an outcome raises, if it raises. *)
Definition raised_class {A} (o : outcome A) : option ErrorClass :=
  match o with Ok _ => None | Raise e => Some (err_class e) end.

(** [d.get(k, default)] on whatever [d] is: only a dict has [get]. *)
Definition py_get (v : Value) (k : string) (default : Value) : outcome Value :=
  match v with
  | VDict d => Ok (dict_get d k default)
  | _ => Raise (mkError AttributeError "object has no attribute 'get'" NoMetadata)
  end.

(** ** The world of the service

    The network answers the successive [session.request] calls; the session
    owns a cookie jar, saved to a file by the cookie store; the keychain keeps
    a dict and rewrites its file on every change; archives live in files. *)

Record Response : Type := {
  resp_status : Z;
  resp_headers : list (string * string);
  resp_content : string;
  resp_cookies : list string       (* the cookies the response sets *)
}.

Inductive NetOutcome : Type :=
| NetResponse (r : Response)
| NetFailure (reason : string).     (* DNS, TLS, timeout, reset *)

(** One call of [session.request]. *)
Record WireRequest : Type := {
  w_method : string;
  w_url : string;
  w_headers : list (string * Value);
  w_data : option string;
  w_allow_redirects : bool
}.

Record ZipInfo : Type := {
  filename : string;
  compress_type : Z;
  external_attr : Z;
  date_time : Z * Z * Z * Z * Z * Z;
  comment : string;
  extra : string
}.

Record ZipEntry : Type := { zinfo : ZipInfo; zdata : string }.

Inductive File : Type :=
| FileZip (entries : list ZipEntry)
| FileBytes (bytes : string).

Record World : Type := mkWorld {
  network : list NetOutcome;
  session_cookies : list string;
  cookie_file : option (list string);
  keychain_data : gmap string string;
  keychain_file : option (gmap string string);
  files : gmap string File
}.

Inductive Event : Type :=
| EvRequest (r : WireRequest)
| EvCookieSave (jar : list string)
| EvKeychainPersist (d : gmap string string)
| EvFile (path : string) (now : option File).

(** ** The monad of effects: the events in order, the world after, and the
    value returned or the exception raised. An exception keeps the effects
    that happened before it. *)

Record Run (A : Type) : Type := mkRun {
  trace : list Event;
  final : World;
  result : outcome A
}.
Arguments mkRun {A} trace final result.
Arguments trace {A} r.
Arguments final {A} r.
Arguments result {A} r.

Definition M (A : Type) : Type := World -> Run A.

#[global] Instance M_ret : MRet M := fun A a w => mkRun [] w (Ok a).
#[global] Instance M_bind : MBind M := fun A B f m w =>
  let r := m w in
  match result r with
  | Ok a => let r' := f a (final r) in
            mkRun (trace r ++ trace r')%list (final r') (result r')
  | Raise e => mkRun (trace r) (final r) (Raise e)
  end.

Definition raise {A} (e : Error) : M A := fun w => mkRun [] w (Raise e).

(** A computation without effects. *)
Definition lift {A} (o : outcome A) : M A := fun w => mkRun [] w o.

(** [try: m  except <classes>: handler] *)
Definition try_except {A} (m : M A) (caught : ErrorClass -> bool) (handler : Error -> M A) : M A :=
  fun w =>
    let r := m w in
    match result r with
    | Ok a => r
    | Raise e =>
        if caught (err_class e)
        then let r' := handler e (final r) in
             mkRun (trace r ++ trace r')%list (final r') (result r')
        else r
    end.

Definition error (c : ErrorClass) (msg : string) (meta : Metadata) : Error := mkError c msg meta.

(** *** Primitive effects *)

(** [session.request(...)]: the request goes out, the network answers; a
    response updates the session's cookie jar. One call is one request on
    the wire: [login] asks the library not to follow redirects. *)
Definition session_request (rq : WireRequest) : M Response := fun w =>
  match network w with
  | NetResponse r :: rest =>
      mkRun [EvRequest rq]
            (mkWorld rest (resp_cookies r ++ session_cookies w)%list (cookie_file w)
                     (keychain_data w) (keychain_file w) (files w))
            (Ok r)
  | NetFailure reason :: rest =>
      mkRun [EvRequest rq]
            (mkWorld rest (session_cookies w) (cookie_file w)
                     (keychain_data w) (keychain_file w) (files w))
            (Raise (error RequestException reason NoMetadata))
  | [] =>
      mkRun [EvRequest rq] w (Raise (error RequestException "no answer" NoMetadata))
  end.

(** [CookieStore.save]: the jar of the session is written to the cookie file. *)
Definition cookie_store_save : M unit := fun w =>
  mkRun [EvCookieSave (session_cookies w)]
        (mkWorld (network w) (session_cookies w) (Some (session_cookies w))
                 (keychain_data w) (keychain_file w) (files w))
        (Ok tt).

Definition set_keychain (d : gmap string string) (f : option (gmap string string)) (w : World) : World :=
  mkWorld (network w) (session_cookies w) (cookie_file w) d f (files w).

Definition set_files (fs : gmap string File) (w : World) : World :=
  mkWorld (network w) (session_cookies w) (cookie_file w) (keychain_data w) (keychain_file w) fs.

(** Reading a path. *)
Definition read_file (path : string) : M (option File) := fun w =>
  mkRun [] w (Ok (files w !! path)).

(** Writing a whole file, and removing one; each is one event. *)
Definition write_file (path : string) (f : File) : M unit := fun w =>
  mkRun [EvFile path (Some f)] (set_files (<[path := f]> (files w)) w) (Ok tt).

Definition remove_file (path : string) : M unit := fun w =>
  mkRun [EvFile path None] (set_files (delete path (files w)) w) (Ok tt).

(** ** What the code takes from elsewhere

    services/constants.py is not part of the sources at hand: its names are
    parameters. So are the library functions the code calls and the machine
    identity. *)

Class Constants : Type := {
  PRIVATE_APPSTORE_HOST : string;
  PRIVATE_HOST_PREFIX_WITHOUT_CODE : string;
  PRIVATE_AUTH_PATH : string;
  PRIVATE_PURCHASE_PATH : string;
  PRIVATE_DOWNLOAD_PATH : string;
  ITUNES_API_DOMAIN : string;
  ITUNES_API_SEARCH_PATH : string;
  ITUNES_API_LOOKUP_PATH : string;
  ResponseFormatJSON : string;
  ResponseFormatXML : string;
  HTTP_HEADER_STOREFRONT : string;
  DEFAULT_USER_AGENT : string;
  FAILURE_INVALID_CREDENTIALS : string;
  FAILURE_PASSWORD_TOKEN_EXPIRED : string;
  FAILURE_LICENSE_NOT_FOUND : string;
  FAILURE_TEMPORARILY_UNAVAILABLE : string;
  CUSTOMER_MESSAGE_BAD_LOGIN : string;
  CUSTOMER_MESSAGE_ACCOUNT_DISABLED : string;
  CUSTOMER_MESSAGE_SUBSCRIPTION_REQUIRED : string;
  PRICING_PARAM_APPSTORE : string;
  PRICING_PARAM_ARCADE : string;
  STORE_FRONTS : list (string * string)     (* country code, storefront prefix *)
}.

Class Library : Type := {
  (* [json.loads], [plistlib.loads]: [None] when they raise the decoding
     errors ([ValueError], [InvalidFileException]) *)
  json_loads : string -> option Value;
  plist_loads : string -> option Value;
  (* [plistlib.dumps(d, fmt=FMT_XML)] *)
  plist_dumps : list (string * Value) -> string;
  (* [json.dumps(v, indent=2)]: [None] when a value is not serialisable *)
  json_dumps : Value -> option string;
  (* [urllib.parse.urlencode] *)
  urlencode : list (string * Value) -> string;
  (* [base64.b64encode] *)
  b64encode : string -> string;
  (* the builtins [int(v)], [float(v)], [str(v)] *)
  py_int : Value -> outcome Z;
  py_float : Value -> outcome spec_float;
  py_str : Value -> string;
  (* [Machine.mac_address()] *)
  mac_address : string
}.

(** ** http_client.py *)

Inductive Payload : Type :=
| XMLPayload (content : list (string * Value))
| FormURLEncodedPayload (content : list (string * Value)).

Record HTTPRequest : Type := {
  method : string;
  url : string;
  request_headers : list (string * Value);
  payload : option Payload;
  response_format : string;
  follow_redirects : bool
}.

Record HTTPResult : Type := {
  status_code : Z;
  headers : list (string * string);
  data : Value
}.

Fixpoint find_header (lowered : string) (hs : list (string * string)) : option string :=
  match hs with
  | [] => None
  | (header_key, value) :: hs' =>
      if String.eqb (lower header_key) lowered then Some value else find_header lowered hs'
  end.

(** [HTTPResult.get_header]: the first header whose name matches without
    regard to case, [KeyError] when there is none. *)
Definition get_header (r : HTTPResult) (key : string) : outcome string :=
  match find_header (lower key) (headers r) with
  | Some value => Ok value
  | None => Raise (error KeyError key NoMetadata)
  end.

(** [name not in headers and name.lower() not in {k.lower() for k in headers}] *)
Definition header_unset (name : string) (hs : list (string * Value)) : bool :=
  negb (existsb (fun kv => String.eqb (fst kv) name) hs) &&
  negb (existsb (fun kv => String.eqb (lower (fst kv)) (lower name)) hs).

Section Transport.
Context `{Constants} `{Library}.

Definition serialize (p : Payload) : string * string :=
  match p with
  | XMLPayload content => (plist_dumps content, "application/x-apple-plist")
  | FormURLEncodedPayload content => (urlencode content, "application/x-www-form-urlencoded")
  end.

(** The [try] block of [send]: the body decoded as the request asks. *)
Definition parse_body (response : Response) (format : string) : outcome Value :=
  let failure msg :=
    Raise (error HTTPClientResponseError msg
             (MetaResponse (resp_status response) (resp_headers response) (resp_content response))) in
  if String.eqb format ResponseFormatJSON then
    match json_loads (resp_content response) with
    | Some parsed => Ok parsed
    | None => failure "Failed to parse server response"
    end
  else if String.eqb format ResponseFormatXML then
    match plist_loads (resp_content response) with
    | Some parsed => Ok parsed
    | None => failure "Failed to parse server response"
    end
  else failure ("Unsupported response format: " ++ format).

(** The arguments [send] gives [session.request]: the headers of the
    request, with the defaults for [User-Agent] and, when there is a payload,
    [Content-Type]; the payload serialised. *)
Definition wire_request (request : HTTPRequest) : WireRequest :=
  let headers0 := request_headers request in
  let headers1 :=
    if header_unset "User-Agent" headers0
    then (headers0 ++ [("User-Agent", VStr DEFAULT_USER_AGENT)])%list else headers0 in
  let '(body, headers2) :=
    match payload request with
    | None => (None, headers1)
    | Some p =>
        let '(bytes, default_content_type) := serialize p in
        (Some bytes,
         if header_unset "Content-Type" headers1
         then (headers1 ++ [("Content-Type", VStr default_content_type)])%list else headers1)
    end in
  {| w_method := method request;
     w_url := url request;
     w_headers := headers2;
     w_data := body;
     w_allow_redirects := follow_redirects request |}.

(** [parsed] of [send]: empty for a status from 300 to 399, the decoded
    body otherwise. *)
Definition parsed_payload (response : Response) (format : string) : outcome Value :=
  if (300 <=? resp_status response) && (resp_status response <? 400)
  then Ok (VDict [])
  else parse_body response format.

Definition send (request : HTTPRequest) : M HTTPResult :=
  response ← session_request (wire_request request);
  _ ← cookie_store_save;
  parsed ← lift (parsed_payload response (response_format request));
  mret {| status_code := resp_status response;
          headers := resp_headers response;
          data := parsed |}.

Definition raw_request (method url : string) (hs : list (string * Value)) : M Response :=
  response ← session_request {| w_method := method;
                                w_url := url;
                                w_headers := hs;
                                w_data := None;
                                w_allow_redirects := true |};
  _ ← cookie_store_save;
  mret response.

End Transport.

(** ** models.py *)

Module Account.
Record t : Type := {
  email : Value;
  password_token : Value;
  directory_services_id : Value;
  name : Value;
  store_front : Value;
  password : Value                 (* [Optional[str]], [VNone] by default *)
}.

Definition from_dict (data : list (string * Value)) : t :=
  {| email := dict_get data "email" (VStr "");
     password_token := dict_get data "passwordToken" (VStr "");
     directory_services_id := dict_get data "directoryServicesIdentifier" (VStr "");
     name := dict_get data "name" (VStr "");
     store_front := dict_get data "storeFront" (VStr "");
     password := dict_get data "password" VNone |}.

Definition to_dict (self : t) : list (string * Value) :=
  [ ("email", email self);
    ("passwordToken", password_token self);
    ("directoryServicesIdentifier", directory_services_id self);
    ("name", name self);
    ("storeFront", store_front self);
    ("password", password self) ].
End Account.

Module App.
Record t : Type := {
  id : Z;
  bundle_id : Value;
  name : Value;
  version : Value;
  price : spec_float
}.

Section FromDict.
Context `{Library}.

Definition from_dict (data : list (string * Value)) : outcome t :=
  id ← py_int (py_or (dict_get data "trackId" VNone) (dict_get data "id" (VInt 0)));
  price ← py_float (py_or (dict_get data "price" (VFloat float_zero)) (VFloat float_zero));
  mret {| id := id;
          bundle_id := dict_get data "bundleId" (VStr "");
          name := dict_get data "trackName" (VStr "");
          version := dict_get data "version" (VStr "");
          price := price |}.

(** [from_dict] on a value that need not be a dict. *)
Definition from_value (v : Value) : outcome t :=
  match v with
  | VDict d => from_dict d
  | _ => Raise (mkError AttributeError "object has no attribute 'get'" NoMetadata)
  end.
End FromDict.

(** [App(id=n)]: the other fields at their defaults. *)
Definition of_id (n : Z) : t :=
  {| id := n; bundle_id := VStr ""; name := VStr ""; version := VStr ""; price := float_zero |}.
End App.

(** A signature blob; [data] is [bytes], as [ZipFile.writestr] needs it. *)
Record Sinf : Type := { sinf_id : Z; sinf_data : string }.

(** ** keychain.py: [FileKeychain] *)

Module FileKeychain.
Section Keychain.
Context `{Library}.

(** [_persist]: the file is rewritten from [_data]. *)
Definition _persist : M unit := fun w =>
  mkRun [EvKeychainPersist (keychain_data w)]
        (set_keychain (keychain_data w) (Some (keychain_data w)) w)
        (Ok tt).

Definition set (key : string) (bytes : string) : M unit :=
  _ ← (fun w => mkRun [] (set_keychain (<[key := b64encode bytes]> (keychain_data w))
                                       (keychain_file w) w) (Ok tt));
  _persist.

Definition remove (key : string) : M unit := fun w =>
  match keychain_data w !! key with
  | Some _ =>
      (_ ← (fun w => mkRun [] (set_keychain (delete key (keychain_data w))
                                            (keychain_file w) w) (Ok tt));
       _persist) w
  | None => mkRun [] w (Ok tt)
  end.
End Keychain.
End FileKeychain.

(** ** appstore.py: [AppStoreService] *)

(** [str(v)] and [f"{v}"]: a [str] is itself, the builtin does the rest. *)
Definition to_str `{Library} (v : Value) : string :=
  match v with
  | VStr s => s
  | _ => py_str v
  end.

(** [not auth_code] for [auth_code: str | None] *)
Definition no_auth_code (auth_code : option string) : bool :=
  match auth_code with
  | None => true
  | Some code => String.eqb code ""
  end.

(** [redirect_url or default] *)
Definition url_or (redirect_url : option string) (default : string) : string :=
  match redirect_url with
  | Some u => if String.eqb u "" then default else u
  | None => default
  end.

Definition redirect_statuses : list Z := [301; 302; 303; 307; 308].

(** [for x in v]: the items a value yields when iterated. *)
Definition iterate (v : Value) : outcome (list Value) :=
  match v with
  | VList items => Ok items
  | VDict d => Ok (map (fun kv => VStr (fst kv)) d)
  | VStr s => Ok (map (fun c => VStr (String c EmptyString)) (list_ascii_of_string s))
  | VBytes s => Ok (map (fun c => VInt (Z.of_N (N_of_ascii c))) (list_ascii_of_string s))
  | _ => Raise (error TypeError "object is not iterable" NoMetadata)
  end.

(** [v[0]] on a value that is truthy. *)
Definition first_item (v : Value) : outcome Value :=
  match v with
  | VList (x :: _) => Ok x
  | VStr (String c _) => Ok (VStr (String c EmptyString))
  | VBytes (String c _) => Ok (VInt (Z.of_N (N_of_ascii c)))
  | VDict _ => Raise (error KeyError "0" NoMetadata)
  | VList [] | VStr EmptyString | VBytes EmptyString =>
      Raise (error IndexError "index out of range" NoMetadata)
  | _ => Raise (error TypeError "object is not subscriptable" NoMetadata)
  end.

(** A list comprehension whose body may raise. *)
Fixpoint map_outcome {A B} (f : A -> outcome B) (l : list A) : outcome (list B) :=
  match l with
  | [] => Ok []
  | x :: rest => y ← f x; ys ← map_outcome f rest; Ok (y :: ys)
  end.

(** [sep.join(items)]: every item must be a [str]. *)
Definition join_values (sep : string) (items : list Value) : outcome string :=
  pieces ← map_outcome (fun item => match item with
                                    | VStr s => Ok s
                                    | _ => Raise (error TypeError
                                                    "sequence item: expected str instance"
                                                    NoMetadata)
                                    end) items;
  Ok (join sep pieces).

Record SearchOutput : Type := { count : Z; results : list App.t }.

Record DownloadOutput : Type := { destination_path : string; sinfs : list Sinf }.

Section AppStoreService.
Context `{Constants} `{Library}.

Definition _guid : string := upper (remove_char ":" mac_address).

Definition _send_request (request : HTTPRequest) : M HTTPResult :=
  try_except (send request)
    (fun c => issubclass c HTTPClientResponseError || issubclass c RequestException)
    (fun exc =>
       match err_class exc, err_metadata exc with
       | HTTPClientResponseError, MetaResponse status hs body =>
           raise (error AppStoreError "unexpected response from Apple"
                    (MetaResponse status hs (take_prefix 2048 body)))
       | _, _ =>
           raise (error AppStoreError "network request failed"
                    (MetaValue (VDict [("error", VStr (err_message exc))])))
       end).

Definition _persist_account (account : Account.t) : M unit :=
  match json_dumps (VDict (Account.to_dict account)) with
  | Some payload => FileKeychain.set "account" payload
  | None => raise (error TypeError "Object is not JSON serializable" NoMetadata)
  end.

Definition _parse_login_response (result : HTTPResult) (attempt : Z) (auth_code : option string)
  : outcome (bool * option string) :=
  let status := status_code result in
  let data := data result in
  failure_type ← py_get data "failureType" (VStr "");
  customer_message ← py_get data "customerMessage" (VStr "");
  if existsb (Z.eqb status) redirect_statuses then
    match get_header result "Location" with
    | Ok location => Ok (true, Some location)
    | Raise _ => Ok (true, None)
    end
  else if (attempt =? 1) && eq_str failure_type FAILURE_INVALID_CREDENTIALS then
    Ok (true, None)
  else if negb (truthy failure_type) && no_auth_code auth_code
          && eq_str customer_message CUSTOMER_MESSAGE_BAD_LOGIN then
    Raise (error AuthCodeRequiredError "two-factor auth code required" (MetaValue data))
  else if negb (truthy failure_type)
          && eq_str customer_message CUSTOMER_MESSAGE_ACCOUNT_DISABLED then
    Raise (error AppStoreError "account is disabled" (MetaValue data))
  else if truthy failure_type && truthy customer_message then
    Raise (error AppStoreError (to_str customer_message) (MetaValue data))
  else if truthy failure_type then
    Raise (error AppStoreError "authentication failed" (MetaValue data))
  else
    password_token ← py_get data "passwordToken" VNone;
    ds_person_id ← py_get data "dsPersonId" VNone;
    if negb (status =? 200) || negb (truthy password_token) || negb (truthy ds_person_id) then
      Raise (error AppStoreError "invalid authentication response" (MetaValue data))
    else Ok (false, None).

Definition auth_endpoint : string :=
  "https://" ++ PRIVATE_APPSTORE_HOST ++ PRIVATE_AUTH_PATH.

(** The request of one attempt of the loop of [login]. *)
Definition login_request (email password : string) (auth_code : option string)
    (guid : string) (attempt : Z) (redirect_url : option string) : HTTPRequest :=
  {| method := "POST";
     url := url_or redirect_url auth_endpoint;
     request_headers := [("Content-Type", VStr "application/x-www-form-urlencoded")];
     payload := Some (XMLPayload
       [ ("appleId", VStr email);
         ("attempt", VStr (pretty attempt));
         ("guid", VStr guid);
         ("password", VStr (password ++ remove_char " " (default "" auth_code)));
         ("rmp", VStr "0");
         ("why", VStr "signIn") ]);
     response_format := ResponseFormatXML;
     follow_redirects := false |}.

(** [for attempt in range(1, 5): ... if not retry: break], from the state
    the loop is in; it returns [last_result] and [retry]. *)
Fixpoint login_attempts (email password : string) (auth_code : option string) (guid : string)
    (attempts : list Z) (redirect_url : option string)
    (last_result : option HTTPResult) (retry : bool) : M (option HTTPResult * bool) :=
  match attempts with
  | [] => mret (last_result, retry)
  | attempt :: later =>
      result ← _send_request (login_request email password auth_code guid attempt redirect_url);
      '(retry, redirect_url) ← lift (_parse_login_response result attempt auth_code);
      if negb retry then mret (Some result, retry)
      else login_attempts email password auth_code guid later redirect_url (Some result) retry
  end.

(** The account [login] builds from the last response. *)
Definition account_of_result (last_result : HTTPResult) (email password store_front : string)
  : outcome Account.t :=
  account_info ← py_get (data last_result) "accountInfo" (VDict []);
  address ← py_get account_info "address" (VDict []);
  apple_id ← py_get account_info "appleId" (VStr email);
  first_name ← py_get address "firstName" VNone;
  last_name ← py_get address "lastName" VNone;
  full_name ← join_values " " (List.filter truthy [first_name; last_name]);
  password_token ← py_get (data last_result) "passwordToken" (VStr "");
  ds_person_id ← py_get (data last_result) "dsPersonId" (VStr "");
  mret {| Account.email := apple_id;
          Account.name := VStr full_name;
          Account.password_token := password_token;
          Account.directory_services_id := ds_person_id;
          Account.store_front := VStr store_front;
          Account.password := VStr password |}.

Definition login (email password : string) (auth_code : option string) : M Account.t :=
  let guid := _guid in
  '(last_result, retry) ← login_attempts email password auth_code guid [1; 2; 3; 4] None None false;
  match last_result with
  | None => raise (error AppStoreError "login attempt did not produce a response" NoMetadata)
  | Some last_result =>
      if (retry : bool) then
        raise (error AppStoreError "too many login attempts" (MetaValue (data last_result)))
      else
        match get_header last_result HTTP_HEADER_STOREFRONT with
        | Raise _ =>
            raise (error AppStoreError "missing storefront header"
                     (MetaHeaders (headers last_result)))
        | Ok store_front =>
            account ← lift (account_of_result last_result email password store_front);
            _ ← _persist_account account;
            mret account
        end
  end.

Definition revoke : M unit := FileKeychain.remove "account".

(** *** App discovery *)

Definition _country_code_from_storefront (store_front : Value) : outcome string :=
  match store_front with
  | VStr s =>
      let prefix := hd "" (split_on "-" s) in
      match find (fun entry => String.eqb (snd entry) prefix) STORE_FRONTS with
      | Some (code, _) => Ok code
      | None => Raise (error AppStoreError ("unknown storefront: " ++ s) NoMetadata)
      end
  | VBytes _ => Raise (error TypeError "a bytes-like object is required, not 'str'" NoMetadata)
  | _ => Raise (error AttributeError "object has no attribute 'split'" NoMetadata)
  end.

Definition _build_query_url (path : string) (params : list (string * Value)) : string :=
  "https://" ++ ITUNES_API_DOMAIN ++ path ++ "?" ++ urlencode params.

Definition catalog_request (path : string) (params : list (string * Value)) : HTTPRequest :=
  {| method := "GET";
     url := _build_query_url path params;
     request_headers := [];
     payload := None;
     response_format := ResponseFormatJSON;
     follow_redirects := true |}.

Definition search_params (term : string) (limit : Z) (include_tvos : bool) (country : string)
  : list (string * Value) :=
  [ ("entity", VStr ("software,iPadSoftware" ++ (if include_tvos then ",tvSoftware" else "")));
    ("limit", VStr (pretty limit));
    ("media", VStr "software");
    ("term", VStr term);
    ("country", VStr country) ].

Definition search (account : Account.t) (term : string) (limit : Z) (include_tvos : bool)
  : M SearchOutput :=
  country ← lift (_country_code_from_storefront (Account.store_front account));
  result ← _send_request
             (catalog_request ITUNES_API_SEARCH_PATH (search_params term limit include_tvos country));
  lift (found ← py_get (data result) "results" (VList []);
        items ← iterate found;
        apps ← map_outcome App.from_value items;
        declared ← py_get (data result) "resultCount" (VInt (Z.of_nat (length apps)));
        count ← py_int declared;
        mret {| count := count; results := apps |}).

Definition lookup_params (bundle_id country : string) : list (string * Value) :=
  [ ("entity", VStr "software,iPadSoftware");
    ("limit", VStr "1");
    ("media", VStr "software");
    ("bundleId", VStr bundle_id);
    ("country", VStr country) ].

Definition lookup (account : Account.t) (bundle_id : string) : M App.t :=
  country ← lift (_country_code_from_storefront (Account.store_front account));
  result ← _send_request (catalog_request ITUNES_API_LOOKUP_PATH (lookup_params bundle_id country));
  found ← lift (py_get (data result) "results" (VList []));
  if negb (truthy found) then
    raise (error AppStoreError "app not found" (MetaValue (data result)))
  else lift (first ← first_item found; App.from_value first).

(** *** Purchasing and downloading *)

Definition purchase_request (account : Account.t) (app : App.t) (guid pricing : string)
  : HTTPRequest :=
  {| method := "POST";
     url := "https://" ++ PRIVATE_APPSTORE_HOST ++ PRIVATE_PURCHASE_PATH;
     request_headers :=
       [ ("iCloud-DSID", Account.directory_services_id account);
         ("X-Dsid", Account.directory_services_id account);
         ("X-Apple-Store-Front", Account.store_front account);
         ("X-Token", Account.password_token account) ];
     payload := Some (XMLPayload
       [ ("appExtVrsId", VStr "0");
         ("hasAskedToFulfillPreorder", VStr "true");
         ("buyWithoutAuthorization", VStr "true");
         ("hasDoneAgeCheck", VStr "true");
         ("guid", VStr guid);
         ("needDiv", VStr "0");
         ("origPage", VStr ("Software-" ++ pretty (App.id app)));
         ("origPageLocation", VStr "Buy");
         ("price", VStr "0");
         ("pricingParameters", VStr pricing);
         ("productType", VStr "C");
         ("salableAdamId", VInt (App.id app)) ]);
     response_format := ResponseFormatXML;
     follow_redirects := true |}.

Definition _purchase_with_params (account : Account.t) (app : App.t) (guid pricing : string)
  : M unit :=
  result ← _send_request (purchase_request account app guid pricing);
  lift (failure_type ← py_get (data result) "failureType" (VStr "");
        customer_message ← py_get (data result) "customerMessage" (VStr "");
        let meta := MetaValue (data result) in
        if eq_str failure_type FAILURE_TEMPORARILY_UNAVAILABLE then
          Raise (error TemporarilyUnavailableError "item temporarily unavailable" meta)
        else if eq_str customer_message CUSTOMER_MESSAGE_SUBSCRIPTION_REQUIRED then
          Raise (error SubscriptionRequiredError "subscription required" meta)
        else if eq_str failure_type FAILURE_PASSWORD_TOKEN_EXPIRED then
          Raise (error PasswordTokenExpiredError "password token expired" meta)
        else if truthy failure_type then
          Raise (error AppStoreError (to_str (py_or customer_message (VStr "purchase failed"))) meta)
        else if status_code result =? 500 then
          Raise (error AppStoreError "license already exists" meta)
        else
          doc_type ← py_get (data result) "jingleDocType" VNone;
          status ← py_get (data result) "status" VNone;
          if negb (eq_str doc_type "purchaseSuccess") || negb (eq_zero status) then
            Raise (error AppStoreError "failed to complete purchase" meta)
          else Ok tt).

Definition purchase (account : Account.t) (app : App.t) : M unit :=
  if truthy (VFloat (App.price app)) && SFltb float_zero (App.price app) then
    raise (error AppStoreError "purchasing paid apps is not supported" NoMetadata)
  else
    let guid := _guid in
    try_except (_purchase_with_params account app guid PRICING_PARAM_APPSTORE)
      (fun c => issubclass c TemporarilyUnavailableError)
      (fun _ => _purchase_with_params account app guid PRICING_PARAM_ARCADE).

Definition download_request (account : Account.t) (app : App.t) (guid : string)
    (external_version_id : option string) : HTTPRequest :=
  let host := PRIVATE_HOST_PREFIX_WITHOUT_CODE ++ "-" ++ PRIVATE_APPSTORE_HOST in
  {| method := "POST";
     url := "https://" ++ host ++ PRIVATE_DOWNLOAD_PATH ++ "?guid=" ++ guid;
     request_headers :=
       [ ("iCloud-DSID", Account.directory_services_id account);
         ("X-Dsid", Account.directory_services_id account) ];
     payload := Some (XMLPayload
       ([ ("creditDisplay", VStr ""); ("guid", VStr guid); ("salableAdamId", VInt (App.id app)) ]
        ++ match external_version_id with
           | Some v => if String.eqb v "" then [] else [("externalVersionId", VStr v)]
           | None => []
           end)%list);
     response_format := ResponseFormatXML;
     follow_redirects := true |}.

Definition _send_download_request (account : Account.t) (app : App.t) (guid : string)
    (external_version_id : option string) : M HTTPResult :=
  _send_request (download_request account app guid external_version_id).

Definition _validate_download_result (result : HTTPResult) : outcome unit :=
  failure_type ← py_get (data result) "failureType" (VStr "");
  customer_message ← py_get (data result) "customerMessage" (VStr "");
  let meta := MetaValue (data result) in
  if eq_str failure_type FAILURE_PASSWORD_TOKEN_EXPIRED then
    Raise (error PasswordTokenExpiredError "password token expired" meta)
  else if eq_str failure_type FAILURE_LICENSE_NOT_FOUND then
    Raise (error LicenseRequiredError "license required" meta)
  else if truthy failure_type && truthy customer_message then
    Raise (error AppStoreError (to_str customer_message) meta)
  else if truthy failure_type then
    Raise (error AppStoreError ("download failed (" ++ to_str failure_type ++ ")") meta)
  else Ok tt.

(** [download] from its first statement to the validated descriptor. What
    follows in the source (the destination path, the streaming of the
    archive to a temporary file, [_apply_patches], the list of [Sinf]) is the
    parameter [fetch_and_patch]: the properties stated here are about what a
    call does before and with its first request. *)
Variable fetch_and_patch :
  Account.t -> App.t -> option string -> HTTPResult -> M DownloadOutput.

Definition download (account : Account.t) (app : App.t) (output_path : option string)
    (external_version_id : option string) : M DownloadOutput :=
  let guid := _guid in
  result ← _send_download_request account app guid external_version_id;
  _ ← lift (_validate_download_result result);
  fetch_and_patch account app output_path result.

End AppStoreService.

(** ** appstore.py: the archive transform *)

Definition ZIP_STORED : Z := 0.
Definition ZIP_DEFLATED : Z := 8.

(** [ZipInfo(filename)]: the other attributes at their defaults. The name is
    kept as given (a name with a NUL byte, which [ZipInfo] cuts, is not
    modelled). *)
Definition new_ZipInfo (fname : string) : ZipInfo :=
  {| filename := fname;
     compress_type := ZIP_STORED;
     external_attr := 0;
     date_time := (1980, 1, 1, 0, 0, 0);
     comment := "";
     extra := "" |}.

(** [ZipFile.infolist()] *)
Definition infolist (archive : list ZipEntry) : list ZipInfo := map zinfo archive.

(** [ZipFile.read(name)] and [ZipFile.open(name).read()]: the member is found
    by its name; of several members with one name the archive's name table
    keeps the last. *)
Fixpoint zip_read (archive : list ZipEntry) (fname : string) : option string :=
  match archive with
  | [] => None
  | entry :: later =>
      match zip_read later fname with
      | Some bytes => Some bytes
      | None => if String.eqb (filename (zinfo entry)) fname then Some (zdata entry) else None
      end
  end.

(** The members written so far to the archive open for writing at [dst]. *)
Definition written (dst : string) (w : World) : list ZipEntry :=
  match files w !! dst with
  | Some (FileZip entries) => entries
  | _ => []
  end.

(** [ZipFile.writestr(info, data)] on the archive open for writing at [dst]. *)
Definition writestr (dst : string) (zi : ZipInfo) (bytes : string) : M unit := fun w =>
  write_file dst (FileZip (written dst w ++ [{| zinfo := zi; zdata := bytes |}])%list) w.

(** [Path.rename]: the file moves to [dst], replacing what was there. *)
Definition rename_file (src dst : string) : M unit := fun w =>
  match files w !! src with
  | Some f =>
      mkRun [EvFile src None; EvFile dst (Some f)]
            (set_files (<[dst := f]> (delete src (files w))) w) (Ok tt)
  | None => mkRun [] w (Raise (error FileNotFoundError src NoMetadata))
  end.

(** [for x in l: body(x)] *)
Fixpoint for_each {A} (l : list A) (body : A -> M unit) : M unit :=
  match l with
  | [] => mret tt
  | x :: rest => _ ← body x; for_each rest body
  end.

Definition is_manifest_name (fname : string) : bool :=
  endswith fname ".app/SC_Info/Manifest.plist".

Definition is_info_plist_name (fname : string) : bool :=
  endswith fname ".app/Info.plist" && negb (contains "/Watch/" fname).

Section Repackager.
Context `{Library}.

Definition _replicate_zip (src_zip : list ZipEntry) (dst_zip : string) : M unit :=
  for_each (infolist src_zip) (fun zi =>
    match zip_read src_zip (filename zi) with
    | None => raise (error KeyError (filename zi) NoMetadata)
    | Some bytes =>
        writestr dst_zip
          {| filename := filename zi;
             compress_type := compress_type zi;
             external_attr := external_attr zi;
             date_time := date_time zi;
             comment := comment (new_ZipInfo (filename zi));
             extra := extra (new_ZipInfo (filename zi)) |}
          bytes
    end).

(** The plist of the first member whose name [wanted] accepts; [VNone]
    when there is none. *)
Definition read_plist (wanted : string -> bool) (zip_file : list ZipEntry) : outcome Value :=
  match find (fun zi => wanted (filename zi)) (infolist zip_file) with
  | None => Ok VNone
  | Some zi =>
      match zip_read zip_file (filename zi) with
      | None => Raise (error KeyError (filename zi) NoMetadata)
      | Some bytes =>
          match plist_loads bytes with
          | Some parsed => Ok parsed
          | None => Raise (error InvalidFileException "Invalid file" NoMetadata)
          end
      end
  end.

Definition _read_manifest_plist (zip_file : list ZipEntry) : outcome Value :=
  read_plist is_manifest_name zip_file.

Definition _read_info_plist (zip_file : list ZipEntry) : outcome Value :=
  read_plist is_info_plist_name zip_file.

Definition _read_bundle_name (zip_file : list ZipEntry) : outcome string :=
  match find (fun zi => is_info_plist_name (filename zi)) (infolist zip_file) with
  | Some zi => Ok (parent_name (filename zi))
  | None => Raise (error AppStoreError "could not determine bundle name" NoMetadata)
  end.

(** The member [_replicate_sinf_from_manifest] and [_replicate_sinf_from_info]
    write: [ZipInfo(full_path)] with [compress_type = ZIP_DEFLATED]. *)
Definition sinf_info (full_path : string) : ZipInfo :=
  {| filename := full_path;
     compress_type := ZIP_DEFLATED;
     external_attr := external_attr (new_ZipInfo full_path);
     date_time := date_time (new_ZipInfo full_path);
     comment := comment (new_ZipInfo full_path);
     extra := extra (new_ZipInfo full_path) |}.

Definition _replicate_sinf_from_manifest (zip_file : string) (manifest : Value)
    (sinfs : list Sinf) (bundle_name : string) : M unit :=
  listed ← lift (py_get manifest "SinfPaths" (VList []));
  paths ← lift (iterate listed);
  for_each (zip sinfs paths) (fun pair =>
    let '(sinf, relative_path) := pair in
    let full_path := "Payload/" ++ bundle_name ++ ".app/" ++ to_str relative_path in
    writestr zip_file (sinf_info full_path) (sinf_data sinf)).

Definition _replicate_sinf_from_info (zip_file : string) (info_plist : Value)
    (sinfs : list Sinf) (bundle_name : string) : M unit :=
  match sinfs with
  | [] => raise (error AppStoreError "missing sinf payloads" NoMetadata)
  | first :: _ =>
      executable ← lift (py_get info_plist "CFBundleExecutable" VNone);
      if negb (truthy executable) then
        raise (error AppStoreError "missing CFBundleExecutable" NoMetadata)
      else
        let full_path :=
          "Payload/" ++ bundle_name ++ ".app/SC_Info/" ++ to_str executable ++ ".sinf" in
        writestr zip_file (sinf_info full_path) (sinf_data first)
  end.

(** [source.with_suffix(source.suffix + ".tmp")] *)
Definition temp_path (package_path : string) : string := package_path ++ ".tmp".

(** The body of the [with] statement of [replicate_sinf]: what is written
    to the archive open at [dst_zip] from the archive read. *)
Definition replicate_into (src_zip : list ZipEntry) (dst_zip : string) (sinfs : list Sinf)
  : M unit :=
  _ ← _replicate_zip src_zip dst_zip;
  bundle_name ← lift (_read_bundle_name src_zip);
  manifest ← lift (_read_manifest_plist src_zip);
  info_plist ← lift (_read_info_plist src_zip);
  if truthy manifest then
    _replicate_sinf_from_manifest dst_zip manifest sinfs bundle_name
  else if truthy info_plist then
    _replicate_sinf_from_info dst_zip info_plist sinfs bundle_name
  else raise (error AppStoreError "failed to find manifest or info plist" NoMetadata).

Definition replicate_sinf (package_path : string) (sinfs : list Sinf) : M unit :=
  let temp := temp_path package_path in
  source ← read_file package_path;
  match source with
  | None => raise (error FileNotFoundError package_path NoMetadata)
  | Some (FileBytes _) => raise (error BadZipFile "File is not a zip file" NoMetadata)
  | Some (FileZip src_zip) =>
      _ ← write_file temp (FileZip []);
      _ ← replicate_into src_zip temp sinfs;
      _ ← remove_file package_path;
      rename_file temp package_path
  end.

End Repackager.

(** * What the properties observe *)

(** The world once the network has answered with [r] and the jar was saved. *)
Definition answered (r : Response) (rest : list NetOutcome) (w : World) : World :=
  let jar := (resp_cookies r ++ session_cookies w)%list in
  mkWorld rest jar (Some jar) (keychain_data w) (keychain_file w) (files w).

(** The world once the network has failed to answer. *)
Definition unanswered (w : World) : World :=
  mkWorld (tl (network w)) (session_cookies w) (cookie_file w)
          (keychain_data w) (keychain_file w) (files w).

Definition transport_failure (w : World) : Error :=
  match network w with
  | NetFailure reason :: _ => error RequestException reason NoMetadata
  | _ => error RequestException "no answer" NoMetadata
  end.

(** The requests a run issued, in order, and the number of times it saved the
    cookie jar. *)
Definition requests_of (t : list Event) : list WireRequest :=
  omap (fun e => match e with EvRequest rq => Some rq | _ => None end) t.

Definition cookie_saves (t : list Event) : nat :=
  length (List.filter (fun e => match e with EvCookieSave _ => true | _ => false end) t).

(** The changes a run made to the file at [path], in order. *)
Definition changes_of (path : string) (t : list Event) : list (option File) :=
  omap (fun e => match e with
                 | EvFile p now => if String.eqb p path then Some now else None
                 | _ => None
                 end) t.

(** The words of the specification of the transport: a body can be decoded
    in the requested encoding when the encoding is JSON or property-list and
    its decoder accepts the body. *)
Definition decodes_to `{Constants} `{Library} (format body : string) (v : Value) : Prop :=
  (format = ResponseFormatJSON /\ json_loads body = Some v) \/
  (format <> ResponseFormatJSON /\ format = ResponseFormatXML /\ plist_loads body = Some v).

Definition undecodable `{Constants} `{Library} (format body : string) : Prop :=
  forall v, ~ decodes_to format body v.

(** A status the specification calls a redirect: 300 to 399. *)
Definition is_3xx (status : Z) : Prop := 300 <= status < 400.

(** The result [send] returns for a response whose payload is [parsed]. *)
Definition result_of (r : Response) (parsed : Value) : HTTPResult :=
  {| status_code := resp_status r; headers := resp_headers r; data := parsed |}.

(** A response [login] takes for a redirect. *)
Definition is_redirect (r : Response) : Prop := In (resp_status r) redirect_statuses.

(** The member [_replicate_zip] writes for [zi] when the archive yields
    [bytes] for its name, and the copy of a member with its own bytes. *)
Definition replica (zi : ZipInfo) (bytes : string) : ZipEntry :=
  {| zinfo := {| filename := filename zi;
                 compress_type := compress_type zi;
                 external_attr := external_attr zi;
                 date_time := date_time zi;
                 comment := "";
                 extra := "" |};
     zdata := bytes |}.

Definition copy_of (entry : ZipEntry) : ZipEntry := replica (zinfo entry) (zdata entry).

(** The member [_replicate_zip] writes for [zi]: the bytes are those the
    archive yields for its name. *)
Definition read_replica (src_zip : list ZipEntry) (zi : ZipInfo) : ZipEntry :=
  replica zi (default "" (zip_read src_zip (filename zi))).

(** What the specification asks of a copy: the same name, bytes, compression
    mode, external attributes and timestamp. *)
Definition same_member (original copied : ZipEntry) : Prop :=
  filename (zinfo copied) = filename (zinfo original)
  /\ zdata copied = zdata original
  /\ compress_type (zinfo copied) = compress_type (zinfo original)
  /\ external_attr (zinfo copied) = external_attr (zinfo original)
  /\ date_time (zinfo copied) = date_time (zinfo original).

(** An archive is open for writing at [dst]. *)
Definition is_zip_at (dst : string) (w : World) : Prop :=
  exists entries, files w !! dst = Some (FileZip entries).

(** A computation writes to the archive at [dst] and to no other file. *)
Definition writes_zip_at {A} (dst : string) (m : M A) : Prop :=
  forall w,
    is_zip_at dst w ->
    is_zip_at dst (final (m w))
    /\ (forall p, p <> dst -> files (final (m w)) !! p = files w !! p)
    /\ (forall p, p <> dst -> changes_of p (trace (m w)) = []).

(** The member written for a signature paired with a path of the manifest:
    at [Payload/{bundle_name}.app/{relative_path}], deflated, holding the
    bytes of the signature. *)
Definition sinf_member `{Library} (bundle_name : string) (pair : Sinf * Value) : ZipEntry :=
  {| zinfo := sinf_info ("Payload/" ++ bundle_name ++ ".app/" ++ to_str (snd pair));
     zdata := sinf_data (fst pair) |}.

(** * A concrete setting

    Values for the names of constants.py, stand-ins for the library functions
    that know a few bodies, and small worlds. The theorems hold for every
    choice of constants and library; this setting is where their examples run. *)

Module Sample.
#[export] Instance constants : Constants := {|
  PRIVATE_APPSTORE_HOST := "buy.itunes.apple.com";
  PRIVATE_HOST_PREFIX_WITHOUT_CODE := "p25";
  PRIVATE_AUTH_PATH := "/WebObjects/MZFinance.woa/wa/authenticate";
  PRIVATE_PURCHASE_PATH := "/WebObjects/MZFinance.woa/wa/buyProduct";
  PRIVATE_DOWNLOAD_PATH := "/WebObjects/MZFinance.woa/wa/volumeStoreDownloadProduct";
  ITUNES_API_DOMAIN := "itunes.apple.com";
  ITUNES_API_SEARCH_PATH := "/search";
  ITUNES_API_LOOKUP_PATH := "/lookup";
  ResponseFormatJSON := "json";
  ResponseFormatXML := "xml";
  HTTP_HEADER_STOREFRONT := "X-Set-Apple-Store-Front";
  DEFAULT_USER_AGENT := "Configurator/2.15";
  FAILURE_INVALID_CREDENTIALS := "-5000";
  FAILURE_PASSWORD_TOKEN_EXPIRED := "2034";
  FAILURE_LICENSE_NOT_FOUND := "9610";
  FAILURE_TEMPORARILY_UNAVAILABLE := "2059";
  CUSTOMER_MESSAGE_BAD_LOGIN := "MZFinance.BadLogin.Configurator_message";
  CUSTOMER_MESSAGE_ACCOUNT_DISABLED := "Your account is disabled.";
  CUSTOMER_MESSAGE_SUBSCRIPTION_REQUIRED := "Subscription Required";
  PRICING_PARAM_APPSTORE := "STDQ";
  PRICING_PARAM_ARCADE := "GAME";
  STORE_FRONTS := [("US", "143441"); ("GB", "143444")]
|}.

(** The payloads the sample decoder knows, by the body that stands for them. *)
Definition login_payload : Value :=
  VDict [ ("passwordToken", VStr "token-1");
          ("dsPersonId", VStr "4242");
          ("accountInfo",
           VDict [ ("appleId", VStr "ada@example.com");
                   ("address", VDict [("firstName", VStr "Ada"); ("lastName", VStr "Byron")]) ]) ].

Definition purchase_payload : Value :=
  VDict [("jingleDocType", VStr "purchaseSuccess"); ("status", VInt 0)].

Definition manifest_payload : list (string * Value) :=
  [("SinfPaths", VList [VStr "SC_Info/Foo.sinf"; VStr "PlugIns/Bar.appex/SC_Info/Bar.sinf"])].

Definition info_payload : Value := VDict [("CFBundleExecutable", VStr "Foo")].

Definition known_plist (body : string) : option Value :=
  if String.eqb body "login" then Some login_payload
  else if String.eqb body "purchase" then Some purchase_payload
  else if String.eqb body "manifest" then Some (VDict manifest_payload)
  else if String.eqb body "info" then Some info_payload
  else if String.eqb body "empty" then Some (VDict [])
  else None.

#[export] Instance library : Library := {|
  json_loads := fun _ => None;
  plist_loads := known_plist;
  plist_dumps := fun _ => "<plist/>";
  json_dumps := fun _ => Some "{}";
  urlencode := fun _ => "";
  b64encode := fun bytes => bytes;
  py_int := fun v => match v with
                     | VInt z => Ok z
                     | _ => Raise (error TypeError "int()" NoMetadata)
                     end;
  py_float := fun v => match v with
                       | VFloat f => Ok f
                       | _ => Raise (error TypeError "float()" NoMetadata)
                       end;
  py_str := fun _ => "";
  mac_address := "AA:BB:CC:00:11:22"
|}.

Definition redirect_to (location : string) : Response :=
  {| resp_status := 302; resp_headers := [("Location", location)];
     resp_content := "<html>moved</html>"; resp_cookies := ["session=1"] |}.

Definition redirect_bare : Response :=
  {| resp_status := 302; resp_headers := []; resp_content := ""; resp_cookies := [] |}.

Definition not_modified : Response :=
  {| resp_status := 304; resp_headers := []; resp_content := ""; resp_cookies := [] |}.

Definition login_success : Response :=
  {| resp_status := 200; resp_headers := [("x-set-apple-store-front", "143441-1,29")];
     resp_content := "login"; resp_cookies := [] |}.

Definition purchase_success : Response :=
  {| resp_status := 200; resp_headers := []; resp_content := "purchase"; resp_cookies := [] |}.

Definition garbled : Response :=
  {| resp_status := 200; resp_headers := []; resp_content := "<html>"; resp_cookies := [] |}.

Definition world (net : list NetOutcome) : World := mkWorld net [] None ∅ None ∅.

Definition detour : string := "http://mirror.example/authenticate".

(** redirect, redirect, success, and one more answer that is not asked for *)
Definition three_answers : World :=
  world [NetResponse (redirect_to detour); NetResponse redirect_bare;
         NetResponse login_success; NetResponse login_success].

(** four redirects, and one more answer that is not asked for *)
Definition five_redirects : World :=
  world [NetResponse (redirect_to detour); NetResponse redirect_bare;
         NetResponse redirect_bare; NetResponse redirect_bare; NetResponse redirect_bare].

Definition account : Account.t :=
  {| Account.email := VStr "ada@example.com";
     Account.password_token := VStr "token-1";
     Account.directory_services_id := VStr "4242";
     Account.name := VStr "Ada Byron";
     Account.store_front := VStr "143441-1,29";
     Account.password := VStr "secret" |}.

(** An account whose password token is the empty string. *)
Definition signed_out : Account.t :=
  {| Account.email := VStr "ada@example.com";
     Account.password_token := VStr "";
     Account.directory_services_id := VStr "4242";
     Account.name := VStr "Ada Byron";
     Account.store_front := VStr "143441-1,29";
     Account.password := VNone |}.

Definition member (fname bytes : string) : ZipEntry :=
  {| zinfo := {| filename := fname; compress_type := ZIP_DEFLATED; external_attr := 33188;
                 date_time := (2024, 5, 17, 9, 30, 0); comment := ""; extra := "" |};
     zdata := bytes |}.

Definition package : string := "Foo_1.0.ipa".

Definition on_disk (archive : list ZipEntry) : World :=
  mkWorld [] [] None ∅ None {[ package := FileZip archive ]}.

(** An archive with neither manifest nor [Info.plist]. *)
Definition bare_archive : list ZipEntry := [member "Payload/Foo.app/Foo" "MACHO"].

(** An archive with an [Info.plist] and no manifest. *)
Definition plain_archive : list ZipEntry :=
  [member "Payload/Foo.app/Foo" "MACHO"; member "Payload/Foo.app/Info.plist" "info"].

(** An archive whose [Info.plist] holds an empty dict, and no manifest. *)
Definition hollow_archive : list ZipEntry :=
  [member "Payload/Foo.app/Foo" "MACHO"; member "Payload/Foo.app/Info.plist" "empty"].

(** An archive with a manifest. *)
Definition signed_archive : list ZipEntry :=
  [ member "Payload/Foo.app/Foo" "MACHO";
    member "Payload/Foo.app/Info.plist" "info";
    member "Payload/Foo.app/SC_Info/Manifest.plist" "manifest" ].

(** The same with a name that occurs twice. *)
Definition doubled_archive : list ZipEntry :=
  [ member "Payload/Foo.app/Foo" "FIRST";
    member "Payload/Foo.app/Foo" "SECOND";
    member "Payload/Foo.app/Info.plist" "info";
    member "Payload/Foo.app/SC_Info/Manifest.plist" "manifest" ].

Definition two_sinfs : list Sinf :=
  [{| sinf_id := 0; sinf_data := "SINF-A" |}; {| sinf_id := 1; sinf_data := "SINF-B" |}].

(** One signature more than the manifest has paths. *)
Definition three_sinfs : list Sinf :=
  (two_sinfs ++ [{| sinf_id := 2; sinf_data := "SINF-C" |}])%list.
End Sample.

(** * More of the code

    The rest of keychain.py and models.py, machine.py, and the operations of
    appstore.py that read the keychain, list versions and patch a downloaded
    archive. *)

(** What this part of the code decodes and encodes with. Their failures are
    the library's own exceptions ([binascii.Error], [UnicodeDecodeError],
    [json.JSONDecodeError], [TypeError]); no handler of the code names them. *)
Class Decoders : Type := {
  (* [base64.b64decode(encoded.encode("ascii"))] *)
  b64decode : string -> outcome string;
  (* [json.loads(data.decode("utf-8"))] *)
  json_loads_bytes : string -> outcome Value;
  (* [plistlib.dumps(d, fmt=FMT_BINARY)] *)
  plist_dumps_binary : list (string * Value) -> outcome string
}.

(** [d[k] = v] on a dict kept in insertion order: a key that is there keeps
    its place, a new key goes last. *)
Fixpoint dict_set (d : list (string * Value)) (k : string) (v : Value) : list (string * Value) :=
  match d with
  | [] => [(k, v)]
  | (k', v') :: d' => if String.eqb k' k then (k, v) :: d' else (k', v') :: dict_set d' k v
  end.

(** ** machine.py *)

Module Machine.
Definition hex_digit (d : N) : ascii :=
  match d with
  | 0 => "0" | 1 => "1" | 2 => "2" | 3 => "3" | 4 => "4" | 5 => "5" | 6 => "6" | 7 => "7"
  | 8 => "8" | 9 => "9" | 10 => "a" | 11 => "b" | 12 => "c" | 13 => "d" | 14 => "e"
  | _ => "f"
  end%N%char.

(** The hexadecimal digits of [n], most significant first, before [acc]. *)
Fixpoint hex_digits (fuel : nat) (n : N) (acc : string) : string :=
  match fuel with
  | O => acc
  | S fuel' =>
      if (n =? 0)%N then acc
      else hex_digits fuel' (n / 16)%N (String (hex_digit (n mod 16)%N) acc)
  end.

(** [format(n, "x")] *)
Definition format_x (n : N) : string :=
  if (n =? 0)%N then "0" else hex_digits (N.to_nat (N.size n)) n "".

(** Padding with zeros on the left, up to [width] characters. *)
Definition zfill (width : nat) (s : string) : string :=
  string_of_list_ascii (repeat "0"%char (width - String.length s)) ++ s.

(** [mac_address], from the value of [uuid.getnode()]. *)
Definition mac_address (node : N) : string :=
  let mac := zfill 12 (format_x node) in
  upper (join ":" (map (fun i => substring i 2 mac) [0; 2; 4; 6; 8; 10]%nat)).
End Machine.

(** ** models.py: [App.to_dict] *)

Definition App_to_dict (self : App.t) : list (string * Value) :=
  [ ("trackId", VInt (App.id self));
    ("bundleId", App.bundle_id self);
    ("trackName", App.name self);
    ("version", App.version self);
    ("price", VFloat (App.price self)) ].

Record ListVersionsOutput : Type := {
  external_version_identifiers : list string;
  latest_external_version_id : string
}.

(** ** keychain.py: [FileKeychain.get] *)

Module Keychain.
Section Get.
Context `{Decoders}.

Definition get (key : string) : M string := fun w =>
  match keychain_data w !! key with
  | None => mkRun [] w (Raise (error KeyError key NoMetadata))
  | Some encoded => mkRun [] w (b64decode encoded)
  end.
End Get.
End Keychain.

(** ** appstore.py, further *)

Section MoreOfTheService.
Context `{Constants} `{Library} `{Decoders}.

Definition account_info : M Account.t :=
  data ← try_except (Keychain.get "account")
           (fun c => issubclass c KeyError)
           (fun _ => raise (error AppStoreError "no active account" NoMetadata));
  payload ← lift (json_loads_bytes data);
  match payload with
  | VDict d => mret (Account.from_dict d)
  | _ => raise (error AttributeError "object has no attribute 'get'" NoMetadata)
  end.

Definition _extract_first_item (result : HTTPResult) : outcome Value :=
  items ← py_get (data result) "songList" (VList []);
  if negb (truthy items) then
    Raise (error AppStoreError "invalid response payload" (MetaValue (data result)))
  else first_item items.

Definition list_versions (account : Account.t) (app : App.t)
    (external_version_id : option string) : M ListVersionsOutput :=
  let guid := _guid in
  result ← _send_download_request account app guid external_version_id;
  _ ← lift (_validate_download_result result);
  lift (item ← _extract_first_item result;
        metadata ← py_get item "metadata" (VDict []);
        identifiers ← py_get metadata "softwareVersionExternalIdentifiers" VNone;
        match identifiers with
        | VList values =>
            latest ← py_get metadata "softwareVersionExternalIdentifier" VNone;
            Ok {| external_version_identifiers := map to_str values;
                  latest_external_version_id := to_str latest |}
        | _ => Raise (error AppStoreError "invalid version identifiers" (MetaValue metadata))
        end).

(** [_write_metadata]: the descriptor's metadata with the account's e-mail
    under two keys, as a binary plist, in a deflated member. *)
Definition _write_metadata (zip_file : string) (metadata : list (string * Value))
    (account : Account.t) : M unit :=
  let metadata := dict_set metadata "apple-id" (Account.email account) in
  let metadata := dict_set metadata "userName" (Account.email account) in
  bytes ← lift (plist_dumps_binary metadata);
  writestr zip_file (sinf_info "iTunesMetadata.plist") bytes.

(** [_apply_patches]: the source is opened, the destination is opened for
    writing (which empties it), the source is read as an archive and the
    archive at the destination is started; then the members are copied and
    the metadata is added. *)
Definition _apply_patches (source_path destination_path : string)
    (metadata : list (string * Value)) (account : Account.t) : M unit :=
  opened ← read_file source_path;
  match opened with
  | None => raise (error FileNotFoundError source_path NoMetadata)
  | Some _ =>
      _ ← write_file destination_path (FileBytes "");
      source ← read_file source_path;
      match source with
      | Some (FileZip src_zip) =>
          _ ← write_file destination_path (FileZip []);
          _ ← _replicate_zip src_zip destination_path;
          _write_metadata destination_path metadata account
      | _ => raise (error BadZipFile "File is not a zip file" NoMetadata)
      end
  end.
End MoreOfTheService.

(** ** routes/api.py: the download route, from its loop on

    What the route does once it has the account, the app and the options of
    the request: up to three downloads, with a new login after an expired
    token and a purchase after a missing licence; then [replicate_sinf] on
    what was downloaded, from which the response is made. The route passes the e-mail and the password of the
    stored account to [login] as they are; [login_values] is [login] on
    values that need not be [str]. *)

Section DownloadRoute.
Context `{Constants} `{Library}.
Variable fetch_and_patch :
  Account.t -> App.t -> option string -> HTTPResult -> M DownloadOutput.
Variable login_values : Value -> Value -> M Account.t.

(** One turn of the loop: the download found, if any, and the account the
    next turn uses. *)
Definition download_try (account : Account.t) (app : App.t) (output_path : option string)
    (external_version_id : option string) (auto_purchase : bool)
  : M (option DownloadOutput * Account.t) :=
  try_except
    (download_result ← download fetch_and_patch account app output_path external_version_id;
     mret (Some download_result, account))
    (fun c => issubclass c PasswordTokenExpiredError || issubclass c LicenseRequiredError)
    (fun exc =>
       if issubclass (err_class exc) PasswordTokenExpiredError then
         if negb (truthy (Account.password account)) then raise exc
         else
           account ← login_values (Account.email account) (Account.password account);
           mret (None, account)
       else
         if negb auto_purchase then raise exc
         else
           _ ← purchase account app;
           mret (None, account)).

(** [for _ in range(3): ...; break] *)
Fixpoint download_attempts (tries : nat) (account : Account.t) (app : App.t)
    (output_path : option string) (external_version_id : option string)
    (auto_purchase : bool) : M (option DownloadOutput) :=
  match tries with
  | O => mret None
  | S later =>
      '(found, account) ← download_try account app output_path external_version_id
                            auto_purchase;
      match found with
      | Some download_result => mret (Some download_result)
      | None =>
          download_attempts later account app output_path external_version_id auto_purchase
      end
  end.

Definition download_route (account : Account.t) (app : App.t) (output_path : option string)
    (external_version_id : option string) (auto_purchase : bool) : M DownloadOutput :=
  found ← download_attempts 3 account app output_path external_version_id auto_purchase;
  match found with
  | None => raise (error AppStoreError "failed to download app" NoMetadata)
  | Some download_result =>
      _ ← replicate_sinf (destination_path download_result) (sinfs download_result);
      mret download_result
  end.
End DownloadRoute.

(** * What the further properties observe *)

(** The value an outcome returns, if it returns. *)
Definition returned {A} (o : outcome A) : option A :=
  match o with Ok a => Some a | Raise _ => None end.

(** The names of headers, as a lookup compares them. *)
Definition header_names {V} (hs : list (string * V)) : list string :=
  map (fun kv => lower (fst kv)) hs.

(** A run that leaves the network, the cookies and the keychain alone, and
    whose events are all changes of files. *)
Definition is_file_event (e : Event) : bool :=
  match e with EvFile _ _ => true | _ => false end.

Definition same_outside_files (w w' : World) : Prop :=
  network w' = network w
  /\ session_cookies w' = session_cookies w
  /\ cookie_file w' = cookie_file w
  /\ keychain_data w' = keychain_data w
  /\ keychain_file w' = keychain_file w.

Definition offline {A} (m : M A) : Prop :=
  forall w, same_outside_files w (final (m w)) /\ forallb is_file_event (trace (m w)) = true.

(** A computation only adds members to the archive open at [dst]. *)
Definition appends_at {A} (dst : string) (m : M A) : Prop :=
  forall w, exists extra, written dst (final (m w)) = (written dst w ++ extra)%list.

(** The member [_replicate_sinf_from_info] writes: the first signature, at
    the path made from the bundle name and the executable. *)
Definition info_member `{Library} (bundle_name : string) (executable : Value) (first : Sinf)
  : ZipEntry :=
  {| zinfo := sinf_info ("Payload/" ++ bundle_name ++ ".app/SC_Info/"
                         ++ to_str executable ++ ".sinf");
     zdata := sinf_data first |}.

(** The metadata [_write_metadata] serialises, and the member it writes. *)
Definition patched_metadata (metadata : list (string * Value)) (account : Account.t)
  : list (string * Value) :=
  dict_set (dict_set metadata "apple-id" (Account.email account))
           "userName" (Account.email account).

Definition metadata_member (blob : string) : ZipEntry :=
  {| zinfo := {| filename := "iTunesMetadata.plist";
                 compress_type := ZIP_DEFLATED;
                 external_attr := 0;
                 date_time := (1980, 1, 1, 0, 0, 0);
                 comment := "";
                 extra := "" |};
     zdata := blob |}.

(** A predicate on every character of a text, and the hexadecimal digits. *)
Fixpoint string_forall (p : ascii -> bool) (s : string) : bool :=
  match s with
  | EmptyString => true
  | String c s' => p c && string_forall p s'
  end.

Definition is_hex (c : ascii) : bool :=
  existsb (Ascii.eqb c) (list_ascii_of_string "0123456789abcdef").

Definition is_upper_hex (c : ascii) : bool :=
  existsb (Ascii.eqb c) (list_ascii_of_string "0123456789ABCDEF").

(** [App(...)] after [from_dict] of a price that is a zero of either sign. *)
Definition with_price (a : App.t) (p : spec_float) : App.t :=
  {| App.id := App.id a;
     App.bundle_id := App.bundle_id a;
     App.name := App.name a;
     App.version := App.version a;
     App.price := p |}.

(** Answers of the store, by what the service makes of them: a download
    refused for want of a licence, and a purchase confirmed. *)
Definition refuses_for_licence `{Constants} `{Library} (r : Response) : Prop :=
  exists d,
    parsed_payload r ResponseFormatXML = Ok (VDict d)
    /\ eq_str (dict_get d "failureType" (VStr "")) FAILURE_PASSWORD_TOKEN_EXPIRED = false
    /\ eq_str (dict_get d "failureType" (VStr "")) FAILURE_LICENSE_NOT_FOUND = true.

Definition confirms_purchase `{Constants} `{Library} (r : Response) : Prop :=
  exists d,
    parsed_payload r ResponseFormatXML = Ok (VDict d)
    /\ eq_str (dict_get d "failureType" (VStr "")) FAILURE_TEMPORARILY_UNAVAILABLE = false
    /\ eq_str (dict_get d "customerMessage" (VStr "")) CUSTOMER_MESSAGE_SUBSCRIPTION_REQUIRED
       = false
    /\ eq_str (dict_get d "failureType" (VStr "")) FAILURE_PASSWORD_TOKEN_EXPIRED = false
    /\ truthy (dict_get d "failureType" (VStr "")) = false
    /\ resp_status r <> 500
    /\ dict_get d "jingleDocType" VNone = VStr "purchaseSuccess"
    /\ eq_zero (dict_get d "status" VNone) = true.

(** * A second setting

    The decoders of the first setting know a few more bodies here, and there
    are decoders for what the keychain stores. *)
Module Sample2.
#[export] Instance constants : Constants := Sample.constants.

Definition bad_login_payload : list (string * Value) :=
  [("customerMessage", VStr "MZFinance.BadLogin.Configurator_message")].

Definition wrong_password_payload : list (string * Value) :=
  [("failureType", VStr "-5000"); ("customerMessage", VStr "Your Apple ID or password is incorrect.")].

Definition licence_payload : list (string * Value) := [("failureType", VStr "9610")].

Definition unavailable_payload : list (string * Value) := [("failureType", VStr "2059")].

Definition versions_payload : list (string * Value) :=
  [ ("songList",
     VList [ VDict [ ("metadata",
                      VDict [ ("softwareVersionExternalIdentifiers",
                               VList [VStr "801"; VStr "802"]);
                              ("softwareVersionExternalIdentifier", VStr "802") ]) ] ]) ].

Definition lookup_payload : list (string * Value) :=
  [ ("resultCount", VInt 2);
    ("results",
     VList [ VDict [ ("trackId", VInt 42); ("bundleId", VStr "com.example.foo");
                     ("trackName", VStr "Foo"); ("version", VStr "1.0");
                     ("price", VFloat float_zero) ];
             VDict [ ("trackId", VInt 43) ] ]) ].

Definition known_plist (body : string) : option Value :=
  if String.eqb body "bad-login" then Some (VDict bad_login_payload)
  else if String.eqb body "wrong-password" then Some (VDict wrong_password_payload)
  else if String.eqb body "licence" then Some (VDict licence_payload)
  else if String.eqb body "unavailable" then Some (VDict unavailable_payload)
  else if String.eqb body "versions" then Some (VDict versions_payload)
  else Sample.known_plist body.

Definition known_json (body : string) : option Value :=
  if String.eqb body "lookup" then Some (VDict lookup_payload) else None.

#[export] Instance library : Library := {|
  json_loads := known_json;
  plist_loads := known_plist;
  plist_dumps := fun _ => "<plist/>";
  json_dumps := fun _ => Some "{}";
  urlencode := fun _ => "";
  b64encode := fun bytes => bytes;
  py_int := fun v => match v with
                     | VInt z => Ok z
                     | _ => Raise (error TypeError "int()" NoMetadata)
                     end;
  py_float := fun v => match v with
                       | VFloat f => Ok f
                       | _ => Raise (error TypeError "float()" NoMetadata)
                       end;
  py_str := fun _ => "";
  mac_address := Machine.mac_address 187723558162722
|}.

(** The one text the sample [json.dumps] produces stands for the sample
    account. *)
#[export] Instance decoders : Decoders := {|
  b64decode := fun encoded => Ok encoded;
  json_loads_bytes := fun text =>
    if String.eqb text "{}" then Ok (VDict (Account.to_dict Sample.account))
    else Raise (error TypeError "not the sample text" NoMetadata);
  plist_dumps_binary := fun _ => Ok "bplist00"
|}.

Definition answer (body : string) : Response :=
  {| resp_status := 200; resp_headers := []; resp_content := body; resp_cookies := [] |}.

(** An account of a storefront the table does not have. *)
Definition stranger : Account.t :=
  {| Account.email := VStr "ada@example.com";
     Account.password_token := VStr "token-1";
     Account.directory_services_id := VStr "4242";
     Account.name := VStr "Ada Byron";
     Account.store_front := VStr "999999-1,29";
     Account.password := VNone |}.

Definition foo : App.t :=
  {| App.id := 42; App.bundle_id := VStr "com.example.foo"; App.name := VStr "Foo";
     App.version := VStr "1.0"; App.price := float_zero |}.

Definition found : SearchOutput := {| count := 2; results := [foo; App.of_id 43] |}.

Definition descriptor_metadata : list (string * Value) :=
  [("bundleShortVersionString", VStr "1.0"); ("apple-id", VStr "someone@example.com")].

(** Stand-ins for what the route does after a download and for a login on
    values: neither is reached in the examples. *)
Definition no_fetch (_ : Account.t) (_ : App.t) (_ : option string) (_ : HTTPResult)
  : M DownloadOutput :=
  raise (error AppStoreError "not reached" NoMetadata).

Definition no_login (_ _ : Value) : M Account.t :=
  raise (error AppStoreError "not reached" NoMetadata).

Definition refused_thrice : World :=
  Sample.world [ NetResponse (answer "licence"); NetResponse (answer "purchase");
                 NetResponse (answer "licence"); NetResponse (answer "purchase");
                 NetResponse (answer "licence"); NetResponse (answer "purchase") ].
End Sample2.

(** * Properties *)

(** ** The monad *)

Lemma trace_bind {A B} (m : M A) (f : A -> M B) (w : World) :
  trace ((m ≫= f) w)
  = (trace (m w) ++ match result (m w) with
                    | Ok a => trace (f a (final (m w)))
                    | Raise _ => []
                    end)%list.
Proof.
  unfold mbind, M_bind. destruct (result (m w)); cbn; [reflexivity|].
  symmetry. apply app_nil_r.
Qed.

Lemma result_bind {A B} (m : M A) (f : A -> M B) (w : World) :
  result ((m ≫= f) w)
  = match result (m w) with
    | Ok a => result (f a (final (m w)))
    | Raise e => Raise e
    end.
Proof. unfold mbind, M_bind. destruct (result (m w)); reflexivity. Qed.

Lemma final_bind {A B} (m : M A) (f : A -> M B) (w : World) :
  final ((m ≫= f) w)
  = match result (m w) with
    | Ok a => final (f a (final (m w)))
    | Raise _ => final (m w)
    end.
Proof. unfold mbind, M_bind. destruct (result (m w)); reflexivity. Qed.

Lemma requests_of_app (t1 t2 : list Event) :
  requests_of (t1 ++ t2) = (requests_of t1 ++ requests_of t2)%list.
Proof. unfold requests_of. apply omap_app. Qed.

(** ** Transport *)

Section TransportFacts.
Context `{Constants} `{Library}.

Lemma send_answered request w r rest :
  network w = NetResponse r :: rest ->
  send request w =
    mkRun [EvRequest (wire_request request);
           EvCookieSave (resp_cookies r ++ session_cookies w)%list]
          (answered r rest w)
          (parsed ← parsed_payload r (response_format request);
           Ok {| status_code := resp_status r; headers := resp_headers r; data := parsed |}).
Proof.
  intros Hnet. unfold send, mbind, M_bind, session_request. rewrite Hnet. cbn.
  destruct (parsed_payload r (response_format request)); reflexivity.
Qed.

Lemma send_unanswered request w :
  (forall r rest, network w <> NetResponse r :: rest) ->
  send request w =
    mkRun [EvRequest (wire_request request)] (unanswered w) (Raise (transport_failure w)).
Proof.
  intros Hnet. unfold send, mbind, M_bind, session_request, unanswered, transport_failure.
  destruct w as [net jar cf kd kf fs]. cbn in *.
  destruct net as [|[r|reason] rest]; cbn; try reflexivity.
  exfalso. eapply Hnet. reflexivity.
Qed.

Lemma parse_body_ok_iff response format v :
  parse_body response format = Ok v <-> decodes_to format (resp_content response) v.
Proof.
  unfold parse_body, decodes_to.
  destruct (String.eqb_spec format ResponseFormatJSON) as [Hj|Hj].
  - destruct (json_loads (resp_content response)) as [parsed|] eqn:Hl; split.
    + intros [= <-]. left. auto.
    + intros [[_ Hv]|[Hn _]]; [congruence | contradiction].
    + discriminate.
    + intros [[_ Hv]|[Hn _]]; [congruence | contradiction].
  - destruct (String.eqb_spec format ResponseFormatXML) as [Hx|Hx].
    + destruct (plist_loads (resp_content response)) as [parsed|] eqn:Hl; split.
      * intros [= <-]. right. auto.
      * intros [[Hn _]|(_ & _ & Hv)]; [contradiction | congruence].
      * discriminate.
      * intros [[Hn _]|(_ & _ & Hv)]; [contradiction | congruence].
    + split; [discriminate|].
      intros [[Hn _]|(_ & Hn & _)]; contradiction.
Qed.

Lemma parse_body_raises response format e :
  parse_body response format = Raise e -> err_class e = HTTPClientResponseError.
Proof.
  unfold parse_body.
  destruct (String.eqb format ResponseFormatJSON).
  - destruct (json_loads _); [discriminate|]. intros [= <-]. reflexivity.
  - destruct (String.eqb format ResponseFormatXML).
    + destruct (plist_loads _); [discriminate|]. intros [= <-]. reflexivity.
    + intros [= <-]. reflexivity.
Qed.

Lemma is_3xx_test status :
  (300 <=? status) && (status <? 400) = true <-> is_3xx status.
Proof. unfold is_3xx. rewrite andb_true_iff, Z.leb_le, Z.ltb_lt. tauto. Qed.


Lemma raw_request_answered method url hs w r rest :
  network w = NetResponse r :: rest ->
  raw_request method url hs w =
    mkRun [EvRequest {| w_method := method; w_url := url; w_headers := hs;
                        w_data := None; w_allow_redirects := true |};
           EvCookieSave (resp_cookies r ++ session_cookies w)%list]
          (answered r rest w) (Ok r).
Proof.
  intros Hnet. unfold raw_request, mbind, M_bind, session_request. rewrite Hnet.
  reflexivity.
Qed.

Lemma raw_request_unanswered method url hs w :
  (forall r rest, network w <> NetResponse r :: rest) ->
  raw_request method url hs w =
    mkRun [EvRequest {| w_method := method; w_url := url; w_headers := hs;
                        w_data := None; w_allow_redirects := true |}]
          (unanswered w) (Raise (transport_failure w)).
Proof.
  intros Hnet. unfold raw_request, mbind, M_bind, session_request, unanswered, transport_failure.
  destruct w as [net jar cf kd kf fs]. cbn in *.
  destruct net as [|[r|reason] rest]; cbn; try reflexivity.
  exfalso. eapply Hnet. reflexivity.
Qed.

(** C8, as the code has it. An exchange the network answers saves the
    cookie jar, as it is after the response, before it returns: once, right
    after the request, whether the body then decodes or not. An exchange
    that ends in a transport failure returns without a save: the cookie
    file is as it was. This holds for [send] and for [raw_request]. *)
Theorem exchange_cookie_save (request : HTTPRequest) (method url : string)
    (hs : list (string * Value)) (w : World) :
  let sent := send request w in
  let raw := raw_request method url hs w in
  match network w with
  | NetResponse r :: _ =>
      let jar := (resp_cookies r ++ session_cookies w)%list in
      trace sent = [EvRequest (wire_request request); EvCookieSave jar]
      /\ session_cookies (final sent) = jar /\ cookie_file (final sent) = Some jar
      /\ (exists rq, trace raw = [EvRequest rq; EvCookieSave jar])
      /\ session_cookies (final raw) = jar /\ cookie_file (final raw) = Some jar
  | _ =>
      raised_class (result sent) = Some RequestException
      /\ cookie_saves (trace sent) = 0%nat /\ cookie_file (final sent) = cookie_file w
      /\ raised_class (result raw) = Some RequestException
      /\ cookie_saves (trace raw) = 0%nat /\ cookie_file (final raw) = cookie_file w
  end.
Proof.
  intros sent raw. subst sent raw.
  destruct (network w) as [|[r|reason] rest] eqn:Hnet.
  - rewrite send_unanswered, raw_request_unanswered by (intros; congruence).
    unfold transport_failure. rewrite Hnet. cbn. auto 10.
  - rewrite (send_answered _ _ _ _ Hnet), (raw_request_answered _ _ _ _ _ _ Hnet). cbn.
    eauto 10.
  - rewrite send_unanswered, raw_request_unanswered by (intros; congruence).
    unfold transport_failure. rewrite Hnet. cbn. auto 10.
Qed.
End TransportFacts.

(** ** models.py and keychain.py *)

(** C9. An account read back from its own dict is the account: each of the
    six fields is stored under its key and read from that key. *)
Theorem account_dict_roundtrip (a : Account.t) :
  Account.from_dict (Account.to_dict a) = a.
Proof. destruct a. reflexivity. Qed.

Lemma remove_absent (key : string) (w : World) :
  keychain_data w !! key = None -> FileKeychain.remove key w = mkRun [] w (Ok tt).
Proof. intros Hk. unfold FileKeychain.remove. rewrite Hk. reflexivity. Qed.

Lemma remove_removes (key : string) (w : World) :
  keychain_data (final (FileKeychain.remove key w)) !! key = None.
Proof.
  unfold FileKeychain.remove.
  destruct (keychain_data w !! key) eqn:Hk; cbn; [|exact Hk].
  apply lookup_delete_eq.
Qed.

(** C10. [revoke] never fails; with no account stored it changes nothing
    (the world after is the world before, nothing is written); and after one
    [revoke] no account is stored, so that a second one changes nothing and
    two in a row end in the world one leaves. *)
Theorem revoke_idempotent (w : World) :
  result (revoke w) = Ok tt
  /\ (keychain_data w !! "account" = None -> revoke w = mkRun [] w (Ok tt))
  /\ keychain_data (final (revoke w)) !! "account" = None
  /\ revoke (final (revoke w)) = mkRun [] (final (revoke w)) (Ok tt)
  /\ final ((revoke ≫= fun _ => revoke) w) = final (revoke w)
  /\ result ((revoke ≫= fun _ => revoke) w) = Ok tt.
Proof.
  assert (result (revoke w) = Ok tt) as Hres.
  { unfold revoke, FileKeychain.remove.
    destruct (keychain_data w !! "account"); reflexivity. }
  assert (revoke (final (revoke w)) = mkRun [] (final (revoke w)) (Ok tt)) as Hagain.
  { apply remove_absent, remove_removes. }
  split; [exact Hres|].
  split; [apply remove_absent|].
  split; [apply remove_removes|].
  split; [exact Hagain|].
  rewrite final_bind, result_bind, Hres, Hagain. split; reflexivity.
Qed.

(** ** Authentication *)

Section LoginFacts.
Context `{Constants} `{Library}.

Lemma parsed_payload_raises r format e :
  parsed_payload r format = Raise e ->
  exists msg, e = error HTTPClientResponseError msg
                    (MetaResponse (resp_status r) (resp_headers r) (resp_content r)).
Proof.
  unfold parsed_payload, parse_body.
  destruct ((300 <=? resp_status r) && (resp_status r <? 400)); [discriminate|].
  destruct (String.eqb format ResponseFormatJSON).
  - destruct (json_loads _); [discriminate|]. intros [= <-]. eauto.
  - destruct (String.eqb format ResponseFormatXML).
    + destruct (plist_loads _); [discriminate|]. intros [= <-]. eauto.
    + intros [= <-]. eauto.
Qed.

Lemma _send_request_answered request w r rest :
  network w = NetResponse r :: rest ->
  _send_request request w =
    mkRun [EvRequest (wire_request request);
           EvCookieSave (resp_cookies r ++ session_cookies w)%list]
          (answered r rest w)
          (match parsed_payload r (response_format request) with
           | Ok parsed => Ok (result_of r parsed)
           | Raise _ =>
               Raise (error AppStoreError "unexpected response from Apple"
                        (MetaResponse (resp_status r) (resp_headers r)
                           (take_prefix 2048 (resp_content r))))
           end).
Proof.
  intros Hnet. unfold _send_request, try_except.
  rewrite (send_answered request w r rest Hnet). cbn.
  destruct (parsed_payload r (response_format request)) as [parsed|e] eqn:Hp; cbn.
  - reflexivity.
  - destruct (parsed_payload_raises _ _ _ Hp) as [msg ->]. reflexivity.
Qed.

Lemma _send_request_unanswered request w :
  (forall r rest, network w <> NetResponse r :: rest) ->
  _send_request request w =
    mkRun [EvRequest (wire_request request)] (unanswered w)
          (Raise (error AppStoreError "network request failed"
                    (MetaValue (VDict [("error", VStr (err_message (transport_failure w)))])))).
Proof.
  intros Hnet. unfold _send_request, try_except.
  rewrite (send_unanswered request w Hnet). cbn.
  unfold transport_failure. destruct (network w) as [|[r|reason] rest]; reflexivity.
Qed.

(** Every call of [_send_request] issues one request, its own. *)
Lemma _send_request_requests request w :
  requests_of (trace (_send_request request w)) = [wire_request request].
Proof.
  destruct (network w) as [|[r|reason] rest] eqn:Hnet.
  - rewrite _send_request_unanswered by (intros; congruence). reflexivity.
  - rewrite (_send_request_answered _ _ _ _ Hnet). reflexivity.
  - rewrite _send_request_unanswered by (intros; congruence). reflexivity.
Qed.

Lemma login_attempts_cons email password auth_code guid attempt later url last retry :
  login_attempts email password auth_code guid (attempt :: later) url last retry
  = (result ← _send_request (login_request email password auth_code guid attempt url);
     '(retry, redirect_url) ← lift (_parse_login_response result attempt auth_code);
     if negb retry then mret (Some result, retry)
     else login_attempts email password auth_code guid later redirect_url (Some result) retry).
Proof. reflexivity. Qed.

(** The loop issues at most one request for each attempt left. *)
Lemma login_attempts_requests email password auth_code guid attempts :
  forall url last retry w,
    (length (requests_of
               (trace (login_attempts email password auth_code guid attempts url last retry w)))
     <= length attempts)%nat.
Proof.
  induction attempts as [|attempt later IH]; intros url last retry w.
  - cbn. lia.
  - rewrite login_attempts_cons, trace_bind, requests_of_app, length_app.
    rewrite _send_request_requests. cbn [length].
    destruct (result (_send_request _ w)) as [res|e]; [|cbn; lia].
    rewrite trace_bind. cbn [lift trace result final app].
    destruct (_parse_login_response res attempt auth_code) as [[again url']|e]; [|cbn; lia].
    destruct again; cbn [negb].
    + specialize (IH url' (Some res) true (final (_send_request
         (login_request email password auth_code guid attempt url) w))). lia.
    + cbn. lia.
Qed.

(** One turn of the loop on a response whose payload is [parsed]. *)
Lemma login_attempts_answered email password auth_code guid attempt later url last retry
    w r rest parsed :
  network w = NetResponse r :: rest ->
  parsed_payload r ResponseFormatXML = Ok parsed ->
  login_attempts email password auth_code guid (attempt :: later) url last retry w
  = let sent := [EvRequest (wire_request (login_request email password auth_code guid attempt url));
                 EvCookieSave (resp_cookies r ++ session_cookies w)%list] in
    match _parse_login_response (result_of r parsed) attempt auth_code with
    | Ok (true, url') =>
        let next := login_attempts email password auth_code guid later url'
                      (Some (result_of r parsed)) true (answered r rest w) in
        mkRun (sent ++ trace next)%list (final next) (result next)
    | Ok (false, _) => mkRun sent (answered r rest w) (Ok (Some (result_of r parsed), false))
    | Raise e => mkRun sent (answered r rest w) (Raise e)
    end.
Proof.
  intros Hnet Hp. rewrite login_attempts_cons.
  unfold mbind at 1. unfold M_bind at 1.
  rewrite (_send_request_answered _ w r rest Hnet).
  cbn [response_format login_request]. rewrite Hp. cbn [result final trace].
  unfold mbind at 1. unfold M_bind at 1. cbn [lift result final trace].
  destruct (_parse_login_response (result_of r parsed) attempt auth_code)
    as [[[|] url']|e]; cbn; reflexivity.
Qed.

(** A response resolves the login when its status is 200, its payload is a
    dict without failure type whose customer message is not one of the two
    sentinels, and it holds a password token and a person id. *)
Lemma resolved_response_parses r d attempt auth_code :
  resp_status r = 200 ->
  truthy (dict_get d "failureType" (VStr "")) = false ->
  eq_str (dict_get d "failureType" (VStr "")) FAILURE_INVALID_CREDENTIALS = false ->
  eq_str (dict_get d "customerMessage" (VStr "")) CUSTOMER_MESSAGE_BAD_LOGIN = false ->
  eq_str (dict_get d "customerMessage" (VStr "")) CUSTOMER_MESSAGE_ACCOUNT_DISABLED = false ->
  truthy (dict_get d "passwordToken" VNone) = true ->
  truthy (dict_get d "dsPersonId" VNone) = true ->
  _parse_login_response (result_of r (VDict d)) attempt auth_code = Ok (false, None).
Proof.
  intros Hstatus Hft Hcred Hbad Hdisabled Htoken Hperson.
  unfold _parse_login_response.
  cbn [result_of status_code data py_get mbind outcome_bind].
  rewrite Hstatus, Hft, Hcred, Hbad, Hdisabled, Htoken, Hperson.
  cbn. rewrite !andb_false_r. reflexivity.
Qed.

Lemma redirect_is_3xx r :
  is_redirect r -> (300 <=? resp_status r) && (resp_status r <? 400) = true.
Proof.
  unfold is_redirect, redirect_statuses. cbn.
  intros Hr. apply is_3xx_test. unfold is_3xx. lia.
Qed.

Lemma redirect_parses r attempt auth_code :
  is_redirect r ->
  _parse_login_response (result_of r (VDict [])) attempt auth_code
  = Ok (true, find_header (lower "Location") (resp_headers r)).
Proof.
  intros Hr. unfold _parse_login_response. cbn [result_of status_code data py_get mbind outcome_bind].
  assert (existsb (Z.eqb (resp_status r)) redirect_statuses = true) as ->.
  { apply existsb_exists. exists (resp_status r). split; [exact Hr | apply Z.eqb_refl]. }
  unfold get_header. cbn [headers result_of].
  destruct (find_header (lower "Location") (resp_headers r)); reflexivity.
Qed.

(** One turn of the loop on a redirect: the next attempt, if there is one,
    goes to the [Location] of the response, or to no URL of its own. *)
Lemma login_attempts_redirect email password auth_code guid attempt later url last retry
    w r rest :
  network w = NetResponse r :: rest ->
  is_redirect r ->
  login_attempts email password auth_code guid (attempt :: later) url last retry w
  = let next := login_attempts email password auth_code guid later
                  (find_header (lower "Location") (resp_headers r))
                  (Some (result_of r (VDict []))) true (answered r rest w) in
    mkRun (EvRequest (wire_request (login_request email password auth_code guid attempt url))
           :: EvCookieSave (resp_cookies r ++ session_cookies w)%list :: trace next)
          (final next) (result next).
Proof.
  intros Hnet Hr.
  rewrite (login_attempts_answered _ _ _ _ _ _ _ _ _ w r rest (VDict []) Hnet).
  - rewrite (redirect_parses r attempt auth_code Hr). reflexivity.
  - unfold parsed_payload. rewrite (redirect_is_3xx r Hr). reflexivity.
Qed.
End LoginFacts.

Section LoginTheorems.
Context `{Constants} `{Library}.

Lemma login_after_attempts email password auth_code w t w' last retry :
  login_attempts email password auth_code _guid [1; 2; 3; 4] None None false w
  = mkRun t w' (Ok (last, retry)) ->
  login email password auth_code w
  = let rest :=
      match last with
      | None => raise (error AppStoreError "login attempt did not produce a response" NoMetadata)
      | Some last_result =>
          if retry then
            raise (error AppStoreError "too many login attempts" (MetaValue (data last_result)))
          else
            match get_header last_result HTTP_HEADER_STOREFRONT with
            | Raise _ =>
                raise (error AppStoreError "missing storefront header"
                         (MetaHeaders (headers last_result)))
            | Ok store_front =>
                account ← lift (account_of_result last_result email password store_front);
                _ ← _persist_account account;
                mret account
            end
      end w' in
    mkRun (t ++ trace rest)%list (final rest) (result rest).
Proof.
  intros Hloop. unfold login. unfold mbind at 1. unfold M_bind at 1.
  rewrite Hloop. reflexivity.
Qed.

(** C1. A call of [login] issues at most four requests. When the network
    answers redirect, redirect, and then a response that resolves the login,
    [login] issues three requests and returns the account built from the third
    response, which it has stored in the keychain. When the network answers
    four redirects, [login] fails with the error of too many attempts after
    four requests, and the answer that comes next is left unasked. *)
Theorem login_attempt_bound (email password : string) (auth_code : option string) (w : World) :
  let run := login email password auth_code w in
  (length (requests_of (trace run)) <= 4)%nat
  /\ (forall r1 r2 r3 rest parsed store_front account payload,
        network w = NetResponse r1 :: NetResponse r2 :: NetResponse r3 :: rest ->
        is_redirect r1 -> is_redirect r2 ->
        parsed_payload r3 ResponseFormatXML = Ok parsed ->
        _parse_login_response (result_of r3 parsed) 3 auth_code = Ok (false, None) ->
        get_header (result_of r3 parsed) HTTP_HEADER_STOREFRONT = Ok store_front ->
        account_of_result (result_of r3 parsed) email password store_front = Ok account ->
        json_dumps (VDict (Account.to_dict account)) = Some payload ->
        result run = Ok account
        /\ length (requests_of (trace run)) = 3%nat
        /\ network (final run) = rest
        /\ keychain_data (final run) !! "account" = Some (b64encode payload))
  /\ (forall r1 r2 r3 r4 rest,
        network w = NetResponse r1 :: NetResponse r2 :: NetResponse r3 :: NetResponse r4 :: rest ->
        is_redirect r1 -> is_redirect r2 -> is_redirect r3 -> is_redirect r4 ->
        result run
        = Raise (error AppStoreError "too many login attempts" (MetaValue (VDict [])))
        /\ length (requests_of (trace run)) = 4%nat
        /\ network (final run) = rest).
Proof.
  intros run. subst run. split; [|split].
  - unfold login. rewrite trace_bind, requests_of_app, length_app.
    pose proof (login_attempts_requests email password auth_code _guid [1; 2; 3; 4]
                  None None false w) as Hloop.
    cbn [length] in Hloop.
    set (loop := login_attempts email password auth_code _guid [1; 2; 3; 4] None None false w) in *.
    assert (forall t : list Event,
              requests_of t = [] ->
              (length (requests_of (trace loop)) + length (requests_of t) <= 4)%nat) as Hdone.
    { intros t ->. cbn [length]. lia. }
    apply Hdone.
    destruct (result loop) as [[last retry]|e]; [|reflexivity].
    destruct last as [last|]; [|reflexivity].
    destruct retry; [reflexivity|].
    destruct (get_header last HTTP_HEADER_STOREFRONT) as [sf|e]; [|reflexivity].
    rewrite trace_bind. cbn [lift trace result final app].
    destruct (account_of_result last email password sf) as [account|e]; [|reflexivity].
    rewrite trace_bind. unfold _persist_account.
    destruct (json_dumps _); reflexivity.
  - intros r1 r2 r3 rest parsed store_front account payload Hnet Hr1 Hr2 Hp Hparse Hsf Hacc Hjson.
    erewrite login_after_attempts; cycle 1.
    { rewrite (login_attempts_redirect _ _ _ _ _ _ _ _ _ w r1 _ Hnet Hr1).
      rewrite (login_attempts_redirect _ _ _ _ _ _ _ _ _ (answered r1 _ w) r2 _ eq_refl Hr2).
      rewrite (login_attempts_answered _ _ _ _ _ _ _ _ _ (answered r2 _ (answered r1 _ w))
                 r3 rest parsed eq_refl Hp).
      rewrite Hparse. cbn. reflexivity. }
    cbv beta iota zeta. rewrite Hsf.
    unfold mbind, M_bind, lift, _persist_account. cbn [result final trace].
    rewrite Hacc. cbn [result final trace]. rewrite Hjson. cbn.
    repeat split; try reflexivity.
    apply lookup_insert_eq.
  - intros r1 r2 r3 r4 rest Hnet Hr1 Hr2 Hr3 Hr4.
    erewrite login_after_attempts; cycle 1.
    { rewrite (login_attempts_redirect _ _ _ _ _ _ _ _ _ w r1 _ Hnet Hr1).
      rewrite (login_attempts_redirect _ _ _ _ _ _ _ _ _ (answered r1 _ w) r2 _ eq_refl Hr2).
      rewrite (login_attempts_redirect _ _ _ _ _ _ _ _ _ (answered r2 _ (answered r1 _ w))
                 r3 _ eq_refl Hr3).
      rewrite (login_attempts_redirect _ _ _ _ _ _ _ _ _
                 (answered r3 _ (answered r2 _ (answered r1 _ w))) r4 _ eq_refl Hr4).
      cbn. reflexivity. }
    cbv beta iota zeta. cbn. repeat split; reflexivity.
Qed.

Lemma w_url_wire_request request : w_url (wire_request request) = url request.
Proof.
  unfold wire_request. destruct (payload request) as [p|]; [|reflexivity].
  destruct (serialize p). reflexivity.
Qed.

Lemma login_attempts_first_request email password auth_code guid attempt later url last retry w :
  exists more,
    requests_of (trace (login_attempts email password auth_code guid (attempt :: later)
                          url last retry w))
    = wire_request (login_request email password auth_code guid attempt url) :: more.
Proof.
  rewrite login_attempts_cons, trace_bind, requests_of_app, _send_request_requests.
  cbn [app]. eauto.
Qed.

(** C7, as the code has it. When a response of [login] has one of the
    statuses 301, 302, 303, 307, 308 and no [Location] header, the attempt
    asks for a retry with no URL, and the next attempt is sent to the
    authentication endpoint, whatever URL the answered request was sent to. *)
Theorem redirect_without_location (email password : string) (auth_code : option string)
    (guid : string) (attempt next : Z) (later : list Z) (url : option string)
    (last : option HTTPResult) (retry : bool) (w : World) (r : Response)
    (rest : list NetOutcome) :
  network w = NetResponse r :: rest ->
  is_redirect r ->
  find_header (lower "Location") (resp_headers r) = None ->
  let run := login_attempts email password auth_code guid (attempt :: next :: later)
               url last retry w in
  _parse_login_response (result_of r (VDict [])) attempt auth_code = Ok (true, None)
  /\ map w_url (take 2 (requests_of (trace run))) = [url_or url auth_endpoint; auth_endpoint].
Proof.
  intros Hnet Hr Hloc run. subst run. split.
  - rewrite (redirect_parses r attempt auth_code Hr), Hloc. reflexivity.
  - rewrite (login_attempts_redirect _ _ _ _ _ _ _ _ _ w r rest Hnet Hr), Hloc.
    cbv zeta. cbn [trace].
    destruct (login_attempts_first_request email password auth_code guid next later None
                (Some (result_of r (VDict []))) true (answered r rest w)) as [more Hmore].
    change (requests_of (EvRequest ?rq :: EvCookieSave ?jar :: ?t))
      with (rq :: requests_of t).
    rewrite Hmore. cbn [take map]. rewrite !w_url_wire_request. reflexivity.
Qed.
End LoginTheorems.

(** ** Catalog, purchase and download *)

Section CallFacts.
Context `{Constants} `{Library}.
Variable fetch_and_patch :
  Account.t -> App.t -> option string -> HTTPResult -> M DownloadOutput.

Lemma _send_request_first request w :
  exists more, trace (_send_request request w) = EvRequest (wire_request request) :: more.
Proof.
  destruct (network w) as [|[r|reason] rest] eqn:Hnet.
  - rewrite _send_request_unanswered by (intros; congruence). eauto.
  - rewrite (_send_request_answered _ _ _ _ Hnet). eauto.
  - rewrite _send_request_unanswered by (intros; congruence). eauto.
Qed.

(** What starts with [_send_request] starts with its request. *)
Lemma bind_send_request_head {A} request (k : HTTPResult -> M A) w :
  head (trace ((_send_request request ≫= k) w)) = Some (EvRequest (wire_request request)).
Proof.
  rewrite trace_bind. destruct (_send_request_first request w) as [more ->]. reflexivity.
Qed.

Lemma try_except_head {A} (m : M A) caught handler w e :
  head (trace (m w)) = Some e ->
  head (trace (try_except m caught handler w)) = Some e.
Proof.
  intros Hm. unfold try_except.
  destruct (result (m w)) as [a|err]; [exact Hm|].
  destruct (caught (err_class err)); [|exact Hm].
  cbn [trace]. destruct (trace (m w)); [discriminate|exact Hm].
Qed.

End CallFacts.

(** ** The archive transform *)

Lemma string_length_append (s1 s2 : string) :
  String.length (s1 ++ s2) = (String.length s1 + String.length s2)%nat.
Proof.
  induction s1 as [|c s1 IH]; [reflexivity|].
  change (S (String.length (s1 ++ s2)) = S (String.length s1 + String.length s2)).
  now rewrite IH.
Qed.

Lemma temp_path_fresh (package_path : string) : temp_path package_path <> package_path.
Proof.
  unfold temp_path. intros Heq.
  apply (f_equal String.length) in Heq. rewrite string_length_append in Heq.
  cbn in Heq. lia.
Qed.

Lemma changes_of_app (path : string) (t1 t2 : list Event) :
  changes_of path (t1 ++ t2) = (changes_of path t1 ++ changes_of path t2)%list.
Proof. unfold changes_of. apply omap_app. Qed.

Lemma changes_of_other (path p : string) (now : option File) :
  p <> path -> changes_of path [EvFile p now] = [].
Proof.
  intros Hne. cbn. destruct (String.eqb_spec p path); [contradiction | reflexivity].
Qed.

Section Frame.
Context {A B : Type} (dst : string).

Lemma writes_ret (a : A) : writes_zip_at dst (mret a : M A).
Proof. intros w Hz. cbn. auto. Qed.

Lemma writes_lift (o : outcome A) : writes_zip_at dst (lift o).
Proof. intros w Hz. cbn. auto. Qed.

Lemma writes_raise (e : Error) : writes_zip_at dst (raise e : M A).
Proof. intros w Hz. cbn. auto. Qed.

Lemma writes_bind (m : M A) (f : A -> M B) :
  writes_zip_at dst m -> (forall a, writes_zip_at dst (f a)) -> writes_zip_at dst (m ≫= f).
Proof.
  intros Hm Hf w Hz. destruct (Hm w Hz) as (Hz1 & Hfiles1 & Hch1).
  rewrite final_bind, trace_bind.
  destruct (result (m w)) as [a|e].
  - destruct (Hf a (final (m w)) Hz1) as (Hz2 & Hfiles2 & Hch2).
    split; [exact Hz2|]. split.
    + intros p Hp. rewrite Hfiles2, Hfiles1; auto.
    + intros p Hp. rewrite changes_of_app, Hch1, Hch2; auto.
  - split; [exact Hz1|]. split; [exact Hfiles1|].
    intros p Hp. rewrite app_nil_r. auto.
Qed.
End Frame.

Lemma writes_writestr (dst : string) (zi : ZipInfo) (bytes : string) :
  writes_zip_at dst (writestr dst zi bytes).
Proof.
  intros w Hz. unfold writestr, write_file. cbn. split; [|split].
  - eexists. apply lookup_insert_eq.
  - intros p Hp. apply lookup_insert_ne. congruence.
  - intros p Hp. destruct (String.eqb_spec dst p); [congruence | reflexivity].
Qed.

Lemma writes_for_each {A} (dst : string) (l : list A) (body : A -> M unit) :
  (forall x, writes_zip_at dst (body x)) -> writes_zip_at dst (for_each l body).
Proof.
  intros Hbody. induction l as [|x l IH]; cbn [for_each].
  - apply writes_ret.
  - apply writes_bind; [apply Hbody | intros _; exact IH].
Qed.

(** [writestr] adds one member to what was written. *)
Lemma written_writestr (dst : string) (zi : ZipInfo) (bytes : string) (w : World) :
  result (writestr dst zi bytes w) = Ok tt
  /\ written dst (final (writestr dst zi bytes w))
     = (written dst w ++ [{| zinfo := zi; zdata := bytes |}])%list.
Proof.
  unfold writestr, write_file. cbn. split; [reflexivity|].
  unfold written at 1. cbn. rewrite lookup_insert_eq. reflexivity.
Qed.

(** A loop of [writestr] adds the members of its turns, in order. *)
Lemma written_for_each {A} (dst : string) (member : A -> ZipEntry) (body : A -> M unit)
    (l : list A) :
  (forall x w, In x l -> body x w = writestr dst (zinfo (member x)) (zdata (member x)) w) ->
  forall w,
    result (for_each l body w) = Ok tt
    /\ written dst (final (for_each l body w)) = (written dst w ++ map member l)%list.
Proof.
  induction l as [|x l IH]; intros Hbody w.
  - cbn. rewrite app_nil_r. auto.
  - cbn [for_each]. rewrite result_bind, final_bind, (Hbody x w) by (left; reflexivity).
    destruct (written_writestr dst (zinfo (member x)) (zdata (member x)) w) as [Hres Hwr].
    rewrite Hres.
    destruct (IH (fun y w' Hy => Hbody y w' (or_intror Hy))
                 (final (writestr dst (zinfo (member x)) (zdata (member x)) w))) as [Hres' Hwr'].
    split; [exact Hres'|].
    rewrite Hwr', Hwr. cbn [map]. rewrite <- app_assoc.
    destruct (member x). reflexivity.
Qed.

(** Every name of the archive can be read. *)
Lemma zip_read_member (archive : list ZipEntry) (entry : ZipEntry) :
  In entry archive -> exists bytes, zip_read archive (filename (zinfo entry)) = Some bytes.
Proof.
  induction archive as [|e later IH]; [intros []|].
  intros [->|Hin]; cbn.
  - destruct (zip_read later _); [eauto|]. rewrite String.eqb_refl. eauto.
  - destruct (IH Hin) as [bytes ->]. eauto.
Qed.

Lemma zip_read_absent (archive : list ZipEntry) (fname : string) :
  ~ In fname (map filename (infolist archive)) -> zip_read archive fname = None.
Proof.
  induction archive as [|e later IH]; [reflexivity|].
  cbn. intros Hnot. rewrite IH by tauto.
  destruct (String.eqb_spec (filename (zinfo e)) fname); [tauto | reflexivity].
Qed.

(** With names that are all different, a name reads the bytes of its member. *)
Lemma zip_read_own (archive : list ZipEntry) (entry : ZipEntry) :
  NoDup (map filename (infolist archive)) ->
  In entry archive ->
  zip_read archive (filename (zinfo entry)) = Some (zdata entry).
Proof.
  induction archive as [|e later IH]; [intros _ []|].
  cbn [infolist map]. intros Hnd Hin. apply NoDup_cons in Hnd as [Hfresh Hnd]. cbn.
  destruct Hin as [->|Hin].
  - rewrite (zip_read_absent later (filename (zinfo entry))).
    + rewrite String.eqb_refl. reflexivity.
    + intros Hc. apply Hfresh. apply list_elem_of_In. exact Hc.
  - rewrite (IH Hnd Hin). reflexivity.
Qed.

Lemma find_all_false {A} (f : A -> bool) (l : list A) :
  (forall x, In x l -> f x = false) -> find f l = None.
Proof.
  induction l as [|x l IH]; [reflexivity|].
  intros Hall. cbn. rewrite (Hall x) by (left; reflexivity).
  apply IH. intros y Hy. apply Hall. right. exact Hy.
Qed.

Lemma run_ext {A} (r1 r2 : Run A) :
  trace r1 = trace r2 -> final r1 = final r2 -> result r1 = result r2 -> r1 = r2.
Proof. destruct r1, r2. cbn. intros -> -> ->. reflexivity. Qed.

Section RepackagerFacts.
Context `{Library}.

Lemma _replicate_zip_written src_zip dst w :
  result (_replicate_zip src_zip dst w) = Ok tt
  /\ written dst (final (_replicate_zip src_zip dst w))
     = (written dst w ++ map (read_replica src_zip) (infolist src_zip))%list.
Proof.
  unfold _replicate_zip. apply written_for_each.
  intros zi w' Hin. apply in_map_iff in Hin as (entry & <- & Hin).
  unfold read_replica.
  destruct (zip_read_member src_zip entry Hin) as [bytes ->]. reflexivity.
Qed.

Lemma writes__replicate_zip src_zip dst : writes_zip_at dst (_replicate_zip src_zip dst).
Proof.
  unfold _replicate_zip. apply writes_for_each. intros zi.
  destruct (zip_read src_zip (filename zi)); [apply writes_writestr | apply writes_raise].
Qed.

Lemma writes__replicate_sinf_from_manifest dst manifest sinfs bundle_name :
  writes_zip_at dst (_replicate_sinf_from_manifest dst manifest sinfs bundle_name).
Proof.
  unfold _replicate_sinf_from_manifest.
  apply writes_bind; [apply writes_lift|]. intros listed.
  apply writes_bind; [apply writes_lift|]. intros paths.
  apply writes_for_each. intros [sinf relative_path]. apply writes_writestr.
Qed.

Lemma writes__replicate_sinf_from_info dst info_plist sinfs bundle_name :
  writes_zip_at dst (_replicate_sinf_from_info dst info_plist sinfs bundle_name).
Proof.
  unfold _replicate_sinf_from_info. destruct sinfs as [|first others]; [apply writes_raise|].
  apply writes_bind; [apply writes_lift|]. intros executable.
  destruct (negb (truthy executable)); [apply writes_raise | apply writes_writestr].
Qed.

Lemma writes_replicate_into src_zip dst sinfs :
  writes_zip_at dst (replicate_into src_zip dst sinfs).
Proof.
  unfold replicate_into.
  apply writes_bind; [apply writes__replicate_zip|]. intros _.
  apply writes_bind; [apply writes_lift|]. intros bundle_name.
  apply writes_bind; [apply writes_lift|]. intros manifest.
  apply writes_bind; [apply writes_lift|]. intros info_plist.
  destruct (truthy manifest); [apply writes__replicate_sinf_from_manifest|].
  destruct (truthy info_plist); [apply writes__replicate_sinf_from_info | apply writes_raise].
Qed.

(** [replicate_sinf] on an archive, in terms of the run of its [with] body. *)
Lemma replicate_sinf_archive package_path sinfs w src_zip :
  files w !! package_path = Some (FileZip src_zip) ->
  let temp := temp_path package_path in
  let opened := set_files (<[temp := FileZip []]> (files w)) w in
  let body := replicate_into src_zip temp sinfs opened in
  replicate_sinf package_path sinfs w
  = match result body with
    | Raise e => mkRun (EvFile temp (Some (FileZip [])) :: trace body) (final body) (Raise e)
    | Ok _ =>
        mkRun (EvFile temp (Some (FileZip [])) :: trace body
               ++ [EvFile package_path None; EvFile temp None;
                   EvFile package_path (Some (FileZip (written temp (final body))))])%list
              (set_files (<[package_path := FileZip (written temp (final body))]>
                            (delete temp (delete package_path (files (final body)))))
                         (final body))
              (Ok tt)
    end.
Proof.
  intros Hsrc temp opened body.
  destruct (writes_replicate_into src_zip temp sinfs opened) as (Hzip & _ & _).
  { eexists. cbn. apply lookup_insert_eq. }
  fold body in Hzip. destruct Hzip as [entries Hentries].
  assert (forall e, result body = Raise e ->
            replicate_sinf package_path sinfs w
            = mkRun (EvFile temp (Some (FileZip [])) :: trace body) (final body) (Raise e))
    as Hfail.
  { intros e Hbody. unfold replicate_sinf. fold temp. apply run_ext.
    - rewrite trace_bind. cbn [read_file trace result final]. rewrite Hsrc.
      rewrite trace_bind. cbn [write_file trace result final]. fold opened.
      rewrite trace_bind. fold body. rewrite Hbody. cbn. now rewrite app_nil_r.
    - rewrite final_bind. cbn [read_file trace result final]. rewrite Hsrc.
      rewrite final_bind. cbn [write_file trace result final]. fold opened.
      rewrite final_bind. fold body. rewrite Hbody. reflexivity.
    - rewrite result_bind. cbn [read_file trace result final]. rewrite Hsrc.
      rewrite result_bind. cbn [write_file trace result final]. fold opened.
      rewrite result_bind. fold body. rewrite Hbody. reflexivity. }
  destruct (result body) as [[]|e] eqn:Hbody; [|apply Hfail; reflexivity].
  assert ((remove_file package_path ≫= fun _ => rename_file temp package_path) (final body)
          = mkRun [EvFile package_path None; EvFile temp None;
                   EvFile package_path (Some (FileZip (written temp (final body))))]
                  (set_files (<[package_path := FileZip (written temp (final body))]>
                                (delete temp (delete package_path (files (final body)))))
                             (final body))
                  (Ok tt)) as Hswap.
  { unfold mbind, M_bind, remove_file, rename_file. cbn [result final trace set_files files].
    rewrite lookup_delete_ne by (symmetry; apply temp_path_fresh).
    unfold written. rewrite Hentries. reflexivity. }
  unfold replicate_sinf. fold temp. apply run_ext.
  - rewrite trace_bind. cbn [read_file trace result final]. rewrite Hsrc.
    rewrite trace_bind. cbn [write_file trace result final]. fold opened.
    rewrite trace_bind. fold body. rewrite Hbody, Hswap. reflexivity.
  - rewrite final_bind. cbn [read_file trace result final]. rewrite Hsrc.
    rewrite final_bind. cbn [write_file trace result final]. fold opened.
    rewrite final_bind. fold body. rewrite Hbody, Hswap. reflexivity.
  - rewrite result_bind. cbn [read_file trace result final]. rewrite Hsrc.
    rewrite result_bind. cbn [write_file trace result final]. fold opened.
    rewrite result_bind. fold body. rewrite Hbody, Hswap. reflexivity.
Qed.

Lemma replicate_into_result src_zip dst sinfs w :
  result (replicate_into src_zip dst sinfs w)
  = (bundle_name ← _read_bundle_name src_zip;
     manifest ← _read_manifest_plist src_zip;
     info_plist ← _read_info_plist src_zip;
     let after := final (_replicate_zip src_zip dst w) in
     if truthy manifest then
       result (_replicate_sinf_from_manifest dst manifest sinfs bundle_name after)
     else if truthy info_plist then
       result (_replicate_sinf_from_info dst info_plist sinfs bundle_name after)
     else Raise (error AppStoreError "failed to find manifest or info plist" NoMetadata)).
Proof.
  unfold replicate_into. rewrite result_bind.
  destruct (_replicate_zip_written src_zip dst w) as [-> _].
  rewrite result_bind. cbn [lift result final].
  destruct (_read_bundle_name src_zip) as [bundle_name|e]; [|reflexivity].
  rewrite result_bind. cbn [lift result final mbind outcome_bind].
  destruct (_read_manifest_plist src_zip) as [manifest|e]; [|reflexivity].
  rewrite result_bind. cbn [lift result final mbind outcome_bind].
  destruct (_read_info_plist src_zip) as [info_plist|e]; [|reflexivity].
  cbn [mbind outcome_bind]. cbv zeta.
  destruct (truthy manifest); [reflexivity|].
  destruct (truthy info_plist); reflexivity.
Qed.

(** C2, as the code has it. An archive with no [Info.plist] of an
    application bundle outside [/Watch/], with a manifest or without, makes
    [replicate_sinf] fail when it looks for the bundle name, which it does
    before it looks for the manifest: the error is the one of the bundle
    name. *)
Theorem replicate_sinf_without_info_plist (package_path : string) (sinfs : list Sinf)
    (w : World) (src_zip : list ZipEntry) :
  files w !! package_path = Some (FileZip src_zip) ->
  (forall entry, In entry src_zip -> is_info_plist_name (filename (zinfo entry)) = false) ->
  result (replicate_sinf package_path sinfs w)
  = Raise (error AppStoreError "could not determine bundle name" NoMetadata).
Proof.
  intros Hsrc Hnone.
  assert (_read_bundle_name src_zip
          = Raise (error AppStoreError "could not determine bundle name" NoMetadata)) as Hname.
  { unfold _read_bundle_name. rewrite find_all_false; [reflexivity|].
    intros zi Hin. apply in_map_iff in Hin as (entry & <- & Hin). auto. }
  pose proof (replicate_sinf_archive package_path sinfs w src_zip Hsrc) as Hrun.
  cbv zeta in Hrun. rewrite replicate_into_result, Hname in Hrun.
  cbn [mbind outcome_bind] in Hrun. rewrite Hrun. reflexivity.
Qed.


Lemma _replicate_sinf_from_manifest_written dst manifest sinfs bundle_name paths w :
  dict_get manifest "SinfPaths" (VList []) = VList paths ->
  let run := _replicate_sinf_from_manifest dst (VDict manifest) sinfs bundle_name w in
  result run = Ok tt
  /\ written dst (final run)
     = (written dst w ++ map (sinf_member bundle_name) (zip sinfs paths))%list.
Proof.
  intros Hpaths run. subst run. unfold _replicate_sinf_from_manifest.
  unfold mbind at 1. unfold M_bind at 1. cbn [py_get lift result final trace].
  rewrite Hpaths.
  unfold mbind at 1. unfold M_bind at 1. cbn [iterate lift result final trace].
  destruct (written_for_each dst (sinf_member bundle_name)
              (fun pair : Sinf * Value =>
                 let '(sinf, relative_path) := pair in
                 writestr dst
                   (sinf_info ("Payload/" ++ bundle_name ++ ".app/" ++ to_str relative_path))
                   (sinf_data sinf))
              (zip sinfs paths)) with (w := w) as [Hres Hwr].
  { intros [sinf relative_path] w' _. reflexivity. }
  cbn [List.app]. split; [exact Hres | exact Hwr].
Qed.

Lemma replicate_into_manifest src_zip dst sinfs w bundle_name manifest info_plist paths :
  _read_bundle_name src_zip = Ok bundle_name ->
  _read_manifest_plist src_zip = Ok (VDict manifest) ->
  truthy (VDict manifest) = true ->
  _read_info_plist src_zip = Ok info_plist ->
  dict_get manifest "SinfPaths" (VList []) = VList paths ->
  let run := replicate_into src_zip dst sinfs w in
  result run = Ok tt
  /\ written dst (final run)
     = (written dst w ++ map (read_replica src_zip) (infolist src_zip)
        ++ map (sinf_member bundle_name) (zip sinfs paths))%list.
Proof.
  intros Hname Hmanifest Htruthy Hinfo Hpaths run. subst run.
  destruct (_replicate_zip_written src_zip dst w) as [Hzres Hzwr].
  destruct (_replicate_sinf_from_manifest_written dst manifest sinfs bundle_name paths
              (final (_replicate_zip src_zip dst w)) Hpaths) as [Hmres Hmwr].
  unfold replicate_into.
  rewrite result_bind, final_bind, Hzres.
  rewrite result_bind, final_bind. cbn [lift result final]. rewrite Hname.
  rewrite result_bind, final_bind. cbn [lift result final]. rewrite Hmanifest.
  rewrite result_bind, final_bind. cbn [lift result final]. rewrite Hinfo, Htruthy.
  split; [exact Hmres|]. rewrite Hmwr, Hzwr, <- app_assoc. reflexivity.
Qed.

Lemma read_replica_own src_zip :
  NoDup (map filename (infolist src_zip)) ->
  map (read_replica src_zip) (infolist src_zip) = map copy_of src_zip.
Proof.
  intros Hnd. unfold infolist. rewrite map_map. apply map_ext_in.
  intros entry Hin. unfold read_replica, copy_of.
  rewrite (zip_read_own src_zip entry Hnd Hin). reflexivity.
Qed.

Lemma copies_same (archive : list ZipEntry) : Forall2 same_member archive (map copy_of archive).
Proof.
  induction archive as [|entry later IH]; constructor; [|exact IH].
  unfold same_member. cbn. auto.
Qed.

End RepackagerFacts.

(** * The theorems at work, and the inputs on which the specification and the
    code part *)

Section Examples.
Import Sample.

Example parent_name_of_bundle : parent_name "Payload/Foo.app/Info.plist" = "Foo.app".
Proof. reflexivity. Qed.

Example watch_info_plist_is_skipped :
  is_info_plist_name "Payload/Foo.app/Watch/Bar.app/Info.plist" = false
  /\ is_info_plist_name "Payload/Foo.app/Info.plist" = true.
Proof. split; reflexivity. Qed.

Example guid_of_the_sample_machine : _guid = "AABBCC001122".
Proof. reflexivity. Qed.

Example country_of_the_sample_storefront :
  _country_code_from_storefront (Account.store_front signed_out) = Ok "US".
Proof. reflexivity. Qed.

(** A status from 300 to 399 that is not one of the five is not retried. *)
Example not_modified_is_not_retried :
  result (login "ada@example.com" "secret" None
            (world [NetResponse not_modified; NetResponse login_success]))
  = Raise (error AppStoreError "invalid authentication response" (MetaValue (VDict [])))
  /\ length (requests_of (trace (login "ada@example.com" "secret" None
                                   (world [NetResponse not_modified; NetResponse login_success]))))
     = 1%nat.
Proof. vm_compute. split; reflexivity. Qed.

(** The fallback path: one signature, at the path made from the executable. *)
Example fallback_path_output :
  match files (final (replicate_sinf package two_sinfs (on_disk plain_archive))) !! package with
  | Some (FileZip out) => map (fun entry => (filename (zinfo entry), zdata entry)) out
  | _ => []
  end
  = [ ("Payload/Foo.app/Foo", "MACHO");
      ("Payload/Foo.app/Info.plist", "info");
      ("Payload/Foo.app.app/SC_Info/Foo.sinf", "SINF-A") ].
Proof. vm_compute. reflexivity. Qed.

(** The error of the missing plists is the one of an archive whose
    [Info.plist] is there and holds an empty dict, with no manifest. *)
Example hollow_archive_fails :
  result (replicate_sinf package two_sinfs (on_disk hollow_archive))
  = Raise (error AppStoreError "failed to find manifest or info plist" NoMetadata).
Proof. vm_compute. reflexivity. Qed.

Lemma login_attempt_bound_witness :
  result (login "ada@example.com" "secret" None three_answers) = Ok account
  /\ length (requests_of (trace (login "ada@example.com" "secret" None three_answers))) = 3%nat
  /\ result (login "ada@example.com" "secret" None five_redirects)
     = Raise (error AppStoreError "too many login attempts" (MetaValue (VDict [])))
  /\ length (requests_of (trace (login "ada@example.com" "secret" None five_redirects))) = 4%nat
  /\ network (final (login "ada@example.com" "secret" None five_redirects))
     = [NetResponse redirect_bare].
Proof.
  destruct (login_attempt_bound "ada@example.com" "secret" None three_answers)
    as (_ & Hresolved & _).
  destruct (login_attempt_bound "ada@example.com" "secret" None five_redirects)
    as (_ & _ & Hexhausted).
  destruct (Hresolved (redirect_to detour) redirect_bare login_success
              [NetResponse login_success] login_payload "143441-1,29" account "{}"
              eq_refl (or_intror (or_introl eq_refl)) (or_intror (or_introl eq_refl))
              eq_refl eq_refl eq_refl eq_refl eq_refl)
    as (Hres & Hcount & _ & _).
  destruct (Hexhausted (redirect_to detour) redirect_bare redirect_bare redirect_bare
              [NetResponse redirect_bare] eq_refl
              (or_intror (or_introl eq_refl)) (or_intror (or_introl eq_refl))
              (or_intror (or_introl eq_refl)) (or_intror (or_introl eq_refl)))
    as (Hfail & Hfour & Hleft).
  repeat split; assumption.
Defined.

(** The archive with neither a manifest nor an [Info.plist] fails with the
    error of the bundle name, not with the one of the missing plists. *)
Lemma replicate_sinf_neither_counterexample :
  existsb is_manifest_name (map filename (infolist bare_archive)) = false
  /\ existsb is_info_plist_name (map filename (infolist bare_archive)) = false
  /\ result (replicate_sinf package two_sinfs (on_disk bare_archive))
     = Raise (error AppStoreError "could not determine bundle name" NoMetadata)
  /\ result (replicate_sinf package two_sinfs (on_disk bare_archive))
     <> Raise (error AppStoreError "failed to find manifest or info plist" NoMetadata).
Proof.
  split; [reflexivity|]. split; [reflexivity|].
  assert (result (replicate_sinf package two_sinfs (on_disk bare_archive))
          = Raise (error AppStoreError "could not determine bundle name" NoMetadata)) as Hrun
    by (vm_compute; reflexivity).
  split; [exact Hrun|]. rewrite Hrun. discriminate.
Qed.

Lemma replicate_sinf_without_info_plist_witness :
  result (replicate_sinf package two_sinfs (on_disk bare_archive))
  = Raise (error AppStoreError "could not determine bundle name" NoMetadata).
Proof.
  apply (replicate_sinf_without_info_plist package two_sinfs (on_disk bare_archive) bare_archive).
  - vm_compute. reflexivity.
  - intros entry [<-|[]]. reflexivity.
Defined.






(** After a redirect that named a URL, a redirect without [Location] sends
    the next attempt to the authentication endpoint, not to the URL of the
    request it answers. *)
Lemma second_redirect_counterexample :
  map w_url (requests_of (trace (login "ada@example.com" "secret" None three_answers)))
  = [ "https://buy.itunes.apple.com/WebObjects/MZFinance.woa/wa/authenticate";
      "http://mirror.example/authenticate";
      "https://buy.itunes.apple.com/WebObjects/MZFinance.woa/wa/authenticate" ].
Proof. vm_compute. reflexivity. Qed.

Lemma redirect_without_location_witness :
  map w_url
    (take 2 (requests_of
               (trace (login_attempts "ada@example.com" "secret" None _guid [2; 3; 4]
                         (Some detour) None true
                         (world [NetResponse redirect_bare; NetResponse login_success])))))
  = [detour; auth_endpoint].
Proof.
  apply (redirect_without_location "ada@example.com" "secret" None _guid 2 3 [4]
           (Some detour) None true
           (world [NetResponse redirect_bare; NetResponse login_success])
           redirect_bare [NetResponse login_success]).
  - reflexivity.
  - right. left. reflexivity.
  - reflexivity.
Defined.

(** An exchange that ends in a transport failure does not save the jar. *)
Lemma failed_exchange_counterexample :
  raised_class (result (send (catalog_request "/lookup" []) (world [NetFailure "timed out"])))
  = Some RequestException
  /\ cookie_saves (trace (send (catalog_request "/lookup" []) (world [NetFailure "timed out"])))
     = 0%nat
  /\ cookie_file (final (send (catalog_request "/lookup" []) (world [NetFailure "timed out"])))
     = None.
Proof. vm_compute. repeat split; reflexivity. Qed.

Lemma revoke_idempotent_witness :
  revoke (world []) = mkRun [] (world []) (Ok tt).
Proof.
  destruct (revoke_idempotent (world [])) as (_ & Habsent & _).
  apply Habsent. reflexivity.
Defined.
End Examples.

(** * Further properties of the code *)

(** ** Strings *)

Lemma ascii_lower_idempotent (c : ascii) : ascii_lower (ascii_lower c) = ascii_lower c.
Proof. destruct c as [[] [] [] [] [] [] [] []]; reflexivity. Qed.

Lemma ascii_lower_upper (c : ascii) : ascii_lower (ascii_upper c) = ascii_lower c.
Proof. destruct c as [[] [] [] [] [] [] [] []]; reflexivity. Qed.

Lemma ascii_upper_idempotent (c : ascii) : ascii_upper (ascii_upper c) = ascii_upper c.
Proof. destruct c as [[] [] [] [] [] [] [] []]; reflexivity. Qed.

Lemma lower_lower (s : string) : lower (lower s) = lower s.
Proof.
  unfold lower. induction s as [|c s IH]; [reflexivity|].
  cbn. now rewrite ascii_lower_idempotent, IH.
Qed.

Lemma lower_upper (s : string) : lower (upper s) = lower s.
Proof.
  unfold lower, upper. induction s as [|c s IH]; [reflexivity|].
  cbn. now rewrite ascii_lower_upper, IH.
Qed.

(** ** http_client.py: headers *)

Lemma find_header_first (lowered : string) (before after : list (string * string))
    (k v : string) :
  lower k = lowered ->
  (forall entry, In entry before -> lower (fst entry) <> lowered) ->
  find_header lowered (before ++ (k, v) :: after) = Some v.
Proof.
  intros Hk Hbefore. induction before as [|[k0 v0] before IH]; cbn.
  - rewrite Hk, String.eqb_refl. reflexivity.
  - destruct (String.eqb_spec (lower k0) lowered) as [Heq|_].
    + exfalso. apply (Hbefore (k0, v0)); [left; reflexivity | exact Heq].
    + apply IH. intros entry Hin. apply Hbefore. right. exact Hin.
Qed.

Lemma find_header_none (lowered : string) (hs : list (string * string)) :
  ~ In lowered (header_names hs) -> find_header lowered hs = None.
Proof.
  induction hs as [|[k v] hs IH]; [reflexivity|].
  cbn. intros Hnot.
  destruct (String.eqb_spec (lower k) lowered) as [Heq|_]; [tauto|].
  apply IH. tauto.
Qed.


Lemma header_unset_spec (name : string) (hs : list (string * Value)) :
  (header_unset name hs = true -> ~ In (lower name) (header_names hs))
  /\ (header_unset name hs = false -> In (lower name) (header_names hs)).
Proof.
  unfold header_unset, header_names. split.
  - intros Hunset Hin. apply andb_true_iff in Hunset as [_ Hlow].
    apply negb_true_iff in Hlow.
    apply in_map_iff in Hin as (kv & Hkv & Hin).
    assert (existsb (fun kv => String.eqb (lower (fst kv)) (lower name)) hs = true) as Hex.
    { apply existsb_exists. exists kv. split; [exact Hin|]. apply String.eqb_eq. exact Hkv. }
    congruence.
  - intros Hset. apply andb_false_iff in Hset as [Hexact|Hlow].
    + apply negb_false_iff, existsb_exists in Hexact as (kv & Hin & Hkv).
      apply String.eqb_eq in Hkv. apply in_map_iff. exists kv. split; [now rewrite Hkv | exact Hin].
    + apply negb_false_iff, existsb_exists in Hlow as (kv & Hin & Hkv).
      apply String.eqb_eq in Hkv. apply in_map_iff. exists kv. split; [exact Hkv | exact Hin].
Qed.

Lemma header_names_app {V} (hs1 hs2 : list (string * V)) :
  header_names (hs1 ++ hs2) = (header_names hs1 ++ header_names hs2)%list.
Proof. unfold header_names. apply map_app. Qed.

Section WireFacts.
Context `{Constants} `{Library}.

(** X2. What [send] puts on the wire: the headers of the caller, in their order
    and unchanged, followed by the defaults it adds; a default is added only
    for a name the caller did not give, in any case of letters; there is
    always a [User-Agent], and with a payload always a [Content-Type]; the
    method, the URL and the redirect flag are those of the request, and there
    is a body exactly when there is a payload. *)
Theorem wire_request_defaults (request : HTTPRequest) :
  let sent := wire_request request in
  (exists added,
     w_headers sent = (request_headers request ++ added)%list
     /\ (forall name, In name (header_names added) ->
           ~ In name (header_names (request_headers request)))
     /\ NoDup (header_names added)
     /\ (forall name, In name (header_names added) ->
           name = "user-agent" \/ (name = "content-type" /\ payload request <> None)))
  /\ In "user-agent" (header_names (w_headers sent))
  /\ (payload request <> None -> In "content-type" (header_names (w_headers sent)))
  /\ (w_data sent = None <-> payload request = None)
  /\ w_method sent = method request
  /\ w_url sent = url request
  /\ w_allow_redirects sent = follow_redirects request.
Proof.
  intros sent. subst sent. unfold wire_request.
  destruct (header_unset_spec "User-Agent" (request_headers request)) as [Hua_unset Hua_set].
  set (headers1 := if header_unset "User-Agent" (request_headers request)
                   then (request_headers request ++ [("User-Agent", VStr DEFAULT_USER_AGENT)])%list
                   else request_headers request).
  assert (In "user-agent" (header_names headers1)) as Hua.
  { subst headers1. destruct (header_unset "User-Agent" (request_headers request)).
    - rewrite header_names_app. apply in_or_app. right. left. reflexivity.
    - apply Hua_set. reflexivity. }
  destruct (payload request) as [p|] eqn:Hpayload.
  - destruct (serialize p) as [bytes content_type] eqn:Hser.
    destruct (header_unset_spec "Content-Type" headers1) as [Hct_unset Hct_set].
    cbn [w_headers w_data w_method w_url w_allow_redirects].
    split; [|split; [|split; [|split; [|auto]]]].
    + subst headers1.
      destruct (header_unset "User-Agent" (request_headers request)) eqn:Hua1;
        destruct (header_unset "Content-Type" _) eqn:Hct1.
      * exists [("User-Agent", VStr DEFAULT_USER_AGENT); ("Content-Type", VStr content_type)].
        rewrite <- app_assoc. split; [reflexivity|]. split; [|split].
        -- intros name [<-|[<-|[]]].
           ++ apply Hua_unset. reflexivity.
           ++ intros Hin. apply Hct_unset; [reflexivity|].
              rewrite header_names_app. apply in_or_app. left. exact Hin.
        -- cbn. apply NoDup_cons. split; [|apply NoDup_singleton].
           intros Hin. apply list_elem_of_singleton in Hin. discriminate.
        -- intros name [<-|[<-|[]]]; [left; reflexivity | right; split; [reflexivity|discriminate]].
      * exists [("User-Agent", VStr DEFAULT_USER_AGENT)].
        split; [reflexivity|]. split; [|split].
        -- intros name [<-|[]]. apply Hua_unset. reflexivity.
        -- cbn. apply NoDup_singleton.
        -- intros name [<-|[]]. left. reflexivity.
      * exists [("Content-Type", VStr content_type)].
        split; [reflexivity|]. split; [|split].
        -- intros name [<-|[]]. apply Hct_unset. reflexivity.
        -- cbn. apply NoDup_singleton.
        -- intros name [<-|[]]. right. split; [reflexivity|discriminate].
      * exists []. rewrite app_nil_r. split; [reflexivity|]. split; [|split].
        -- intros name [].
        -- constructor.
        -- intros name [].
    + destruct (header_unset "Content-Type" headers1); [|exact Hua].
      rewrite header_names_app. apply in_or_app. left. exact Hua.
    + intros _. destruct (header_unset "Content-Type" headers1) eqn:Hct1.
      * rewrite header_names_app. apply in_or_app. right. left. reflexivity.
      * apply Hct_set. reflexivity.
    + split; discriminate.
  - cbn [w_headers w_data w_method w_url w_allow_redirects].
    split; [|split; [|split; [|split; [|auto]]]].
    + subst headers1. destruct (header_unset "User-Agent" (request_headers request)).
      * exists [("User-Agent", VStr DEFAULT_USER_AGENT)].
        split; [reflexivity|]. split; [|split].
        -- intros name [<-|[]]. apply Hua_unset. reflexivity.
        -- cbn. apply NoDup_singleton.
        -- intros name [<-|[]]. left. reflexivity.
      * exists []. rewrite app_nil_r. split; [reflexivity|]. split; [|split].
        -- intros name [].
        -- constructor.
        -- intros name [].
    + exact Hua.
    + intros Hc. contradiction.
    + split; reflexivity.
Qed.
End WireFacts.

(** ** appstore.py: helpers *)

Lemma take_prefix_length (n : nat) (s : string) : (String.length (take_prefix n s) <= n)%nat.
Proof.
  unfold take_prefix. revert s. induction n as [|n IH]; intros s.
  - destruct s; cbn; lia.
  - destruct s as [|c s]; cbn; [lia|]. specialize (IH s). lia.
Qed.

Lemma take_prefix_is_prefix (n : nat) (s : string) : String.prefix (take_prefix n s) s = true.
Proof.
  unfold take_prefix. revert s. induction n as [|n IH]; intros s.
  - destruct s; reflexivity.
  - destruct s as [|c s]; cbn; [reflexivity|].
    rewrite IH. destruct (ascii_dec c c); [reflexivity | contradiction].
Qed.

Lemma remove_char_gone (c : ascii) (s : string) :
  ~ In c (list_ascii_of_string (remove_char c s)).
Proof.
  induction s as [|c' s IH]; cbn; [tauto|].
  destruct (Ascii.eqb_spec c' c) as [->|Hne]; [exact IH|].
  cbn. intros [Heq|Hin]; [congruence | contradiction].
Qed.

Lemma upper_characters (s : string) (c : ascii) :
  In c (list_ascii_of_string (upper s)) ->
  exists c0, In c0 (list_ascii_of_string s) /\ c = ascii_upper c0.
Proof.
  unfold upper. induction s as [|c' s IH]; cbn; [tauto|].
  intros [<-|Hin]; [eauto|].
  destruct (IH Hin) as (c0 & Hin0 & ->). eauto.
Qed.

Lemma ascii_upper_colon (c : ascii) : ascii_upper c = ":"%char -> c = ":"%char.
Proof.
  destruct c as [[] [] [] [] [] [] [] []]; vm_compute; intros Heq;
    first [reflexivity | discriminate Heq].
Qed.

Section HelperFacts.
Context `{Constants} `{Library}.

(** X3. Whatever the machine address is, the guid sent to the store has no colon
    and no lower-case letter: every character of it is its own upper case. *)
Theorem guid_is_bare (c : ascii) :
  In c (list_ascii_of_string _guid) -> c <> ":"%char /\ ascii_upper c = c.
Proof.
  unfold _guid. intros Hin.
  apply upper_characters in Hin as (c0 & Hin0 & ->). split.
  - intros Hcolon. apply ascii_upper_colon in Hcolon. subst c0.
    exact (remove_char_gone ":"%char mac_address Hin0).
  - apply ascii_upper_idempotent.
Qed.

End HelperFacts.

(** ** appstore.py: the storefront table *)

Lemma split_on_cons_other (c c' : ascii) (s : string) :
  c' <> c -> hd "" (split_on c (String c' s)) = String c' (hd "" (split_on c s)).
Proof.
  intros Hne. cbn [split_on]. destruct (Ascii.eqb_spec c' c) as [|_]; [contradiction|].
  destruct (split_on c s) as [|piece pieces] eqn:Hsplit; [|reflexivity].
  destruct s as [|c0 s0]; cbn in Hsplit; [discriminate|].
  destruct (Ascii.eqb c0 c); [discriminate|].
  destruct (split_on c s0); discriminate.
Qed.

Lemma split_on_head (c : ascii) (v rest : string) :
  ~ In c (list_ascii_of_string v) ->
  hd "" (split_on c v) = v /\ hd "" (split_on c (v ++ String c rest)) = v.
Proof.
  induction v as [|c' v IH]; intros Hfree.
  - split; [reflexivity|].
    change (EmptyString ++ String c rest) with (String c rest).
    cbn [split_on]. rewrite Ascii.eqb_refl. reflexivity.
  - cbn in Hfree.
    assert (c' <> c) as Hne by tauto.
    destruct IH as [IH1 IH2]; [tauto|].
    change (String c' v ++ String c rest) with (String c' (v ++ String c rest)).
    rewrite !split_on_cons_other by exact Hne. rewrite IH1, IH2. auto.
Qed.

Lemma find_first_value (table : list (string * string)) (before after : list (string * string))
    (code v : string) :
  table = (before ++ (code, v) :: after)%list ->
  (forall entry, In entry before -> snd entry <> v) ->
  find (fun entry => String.eqb (snd entry) v) table = Some (code, v).
Proof.
  intros -> Hbefore. induction before as [|[code0 v0] before IH]; cbn.
  - rewrite String.eqb_refl. reflexivity.
  - destruct (String.eqb_spec v0 v) as [Heq|_].
    + exfalso. apply (Hbefore (code0, v0)); [left; reflexivity | exact Heq].
    + apply IH. intros entry Hin. apply Hbefore. right. exact Hin.
Qed.

Section StorefrontFacts.
Context `{Constants} `{Library}.

(** X5. The country of a storefront is decided by what stands before its first
    hyphen: the code returned is paired with that prefix in the table; two
    storefronts with the same prefix get the same code or both none; and for
    an entry of the table whose value has no hyphen and is not the value of
    an earlier entry, the value alone or followed by a hyphen and anything
    gives the code of the entry. *)
Theorem country_code_by_prefix :
  (forall s code,
     _country_code_from_storefront (VStr s) = Ok code ->
     In (code, hd "" (split_on "-" s)) STORE_FRONTS)
  /\ (forall s s',
        hd "" (split_on "-" s) = hd "" (split_on "-" s') ->
        returned (_country_code_from_storefront (VStr s))
        = returned (_country_code_from_storefront (VStr s')))
  /\ (forall before after code v variant,
        STORE_FRONTS = (before ++ (code, v) :: after)%list ->
        (forall entry, In entry before -> snd entry <> v) ->
        ~ In "-"%char (list_ascii_of_string v) ->
        _country_code_from_storefront (VStr v) = Ok code
        /\ _country_code_from_storefront (VStr (v ++ "-" ++ variant)) = Ok code).
Proof.
  split; [|split].
  - intros s code. unfold _country_code_from_storefront.
    destruct (find _ STORE_FRONTS) as [[code0 v0]|] eqn:Hfind; [|discriminate].
    intros [= <-]. apply find_some in Hfind as [Hin Hv].
    apply String.eqb_eq in Hv. cbn in Hv. subst v0. exact Hin.
  - intros s s' Hprefix. unfold _country_code_from_storefront. rewrite Hprefix.
    destruct (find _ STORE_FRONTS) as [[code0 v0]|]; reflexivity.
  - intros before after code v variant Htable Hbefore Hfree.
    destruct (split_on_head "-"%char v variant Hfree) as [Hplain Hvariant].
    unfold _country_code_from_storefront.
    change (v ++ "-" ++ variant) with (v ++ String "-"%char variant).
    rewrite Hplain, Hvariant, (find_first_value _ _ _ _ _ Htable Hbefore). auto.
Qed.

(** X6. [_validate_download_result] lets a result through only when its payload
    is a dict whose failure type is absent or falsy; a failure type that is
    truthy always raises: the error of the expired token when it is that
    sentinel, else the error of the missing licence when it is that one, else
    a plain [AppStoreError]. *)
Theorem _validate_download_result_cases (result : HTTPResult) :
  (_validate_download_result result = Ok tt ->
   exists d, data result = VDict d /\ truthy (dict_get d "failureType" (VStr "")) = false)
  /\ (forall d,
        data result = VDict d ->
        truthy (dict_get d "failureType" (VStr "")) = true ->
        raised_class (_validate_download_result result)
        = Some (if eq_str (dict_get d "failureType" (VStr "")) FAILURE_PASSWORD_TOKEN_EXPIRED
                then PasswordTokenExpiredError
                else if eq_str (dict_get d "failureType" (VStr "")) FAILURE_LICENSE_NOT_FOUND
                     then LicenseRequiredError
                     else AppStoreError)).
Proof.
  unfold _validate_download_result. split.
  - destruct (data result) as [| | | | | | | |d]; try discriminate.
    cbn [py_get mbind outcome_bind]. intros Hok. exists d. split; [reflexivity|].
    destruct (eq_str _ FAILURE_PASSWORD_TOKEN_EXPIRED); [discriminate|].
    destruct (eq_str _ FAILURE_LICENSE_NOT_FOUND); [discriminate|].
    destruct (truthy (dict_get d "failureType" (VStr ""))); [|reflexivity].
    destruct (truthy (dict_get d "customerMessage" (VStr ""))); discriminate.
  - intros d -> Hft. cbn [py_get mbind outcome_bind].
    destruct (eq_str _ FAILURE_PASSWORD_TOKEN_EXPIRED); [reflexivity|].
    destruct (eq_str _ FAILURE_LICENSE_NOT_FOUND); [reflexivity|].
    rewrite Hft. destruct (truthy (dict_get d "customerMessage" (VStr ""))); reflexivity.
Qed.
End StorefrontFacts.

(** ** appstore.py: authentication *)

Section MoreLoginFacts.
Context `{Constants} `{Library}.

Lemma keychain_set_run (key bytes : string) (w : World) :
  FileKeychain.set key bytes w
  = let stored := <[key := b64encode bytes]> (keychain_data w) in
    mkRun [EvKeychainPersist stored] (set_keychain stored (Some stored) w) (Ok tt).
Proof. reflexivity. Qed.

Lemma _send_request_store request w :
  keychain_data (final (_send_request request w)) = keychain_data w
  /\ keychain_file (final (_send_request request w)) = keychain_file w
  /\ files (final (_send_request request w)) = files w.
Proof.
  destruct (network w) as [|[r|reason] rest] eqn:Hnet.
  - rewrite _send_request_unanswered by (intros; congruence). auto.
  - rewrite (_send_request_answered _ _ _ _ Hnet). auto.
  - rewrite _send_request_unanswered by (intros; congruence). auto.
Qed.

Lemma login_attempts_store email password auth_code guid attempts :
  forall url last retry w,
    let run := login_attempts email password auth_code guid attempts url last retry w in
    keychain_data (final run) = keychain_data w
    /\ keychain_file (final run) = keychain_file w
    /\ files (final run) = files w.
Proof.
  induction attempts as [|attempt later IH]; intros url last retry w run; subst run.
  - cbn. auto.
  - rewrite login_attempts_cons, final_bind.
    destruct (_send_request_store
                (login_request email password auth_code guid attempt url) w) as (Hd & Hf & Hfs).
    destruct (result (_send_request _ w)) as [res|e]; [|auto].
    rewrite final_bind. cbn [lift result final].
    destruct (_parse_login_response res attempt auth_code) as [[again url']|e]; [|auto].
    destruct again; cbn [negb].
    + destruct (IH url' (Some res) true
                  (final (_send_request
                            (login_request email password auth_code guid attempt url) w)))
        as (Hd' & Hf' & Hfs').
      rewrite Hd', Hf', Hfs'. auto.
    + cbn. auto.
Qed.

(** What [login] does to the keychain and to the files, by its result. *)
Lemma login_keychain email password auth_code w :
  let run := login email password auth_code w in
  files (final run) = files w
  /\ match result run with
     | Raise _ =>
         keychain_data (final run) = keychain_data w
         /\ keychain_file (final run) = keychain_file w
     | Ok account =>
         exists payload,
           json_dumps (VDict (Account.to_dict account)) = Some payload
           /\ keychain_data (final run) = <["account" := b64encode payload]> (keychain_data w)
           /\ keychain_file (final run) = Some (keychain_data (final run))
           /\ Account.password account = VStr password
     end.
Proof.
  intros run. subst run. unfold login.
  rewrite final_bind, result_bind.
  destruct (login_attempts_store email password auth_code _guid [1; 2; 3; 4] None None false w)
    as (Hd & Hf & Hfs).
  set (loop := login_attempts email password auth_code _guid [1; 2; 3; 4] None None false w) in *.
  clearbody loop.
  destruct (result loop) as [[last retry]|e]; [|auto].
  destruct last as [last|]; [|cbn; auto].
  destruct retry; [cbn; auto|].
  destruct (get_header last HTTP_HEADER_STOREFRONT) as [store_front|e]; [|cbn; auto].
  rewrite final_bind, result_bind. cbn [lift result final].
  destruct (account_of_result last email password store_front) as [account|e] eqn:Haccount;
    [|auto].
  rewrite final_bind, result_bind. unfold _persist_account.
  destruct (json_dumps (VDict (Account.to_dict account))) as [payload|] eqn:Hjson; [|cbn; auto].
  rewrite keychain_set_run. cbn. rewrite Hd, Hfs. split; [reflexivity|].
  exists payload. split; [exact Hjson|]. split; [reflexivity|]. split; [reflexivity|].
  unfold account_of_result in Haccount.
  destruct (py_get (data last) "accountInfo" (VDict [])) as [info|]; [|discriminate].
  cbn [mbind outcome_bind] in Haccount.
  destruct (py_get info "address" (VDict [])) as [address|]; [|discriminate].
  cbn [mbind outcome_bind] in Haccount.
  destruct (py_get info "appleId" (VStr email)) as [apple_id|]; [|discriminate].
  cbn [mbind outcome_bind] in Haccount.
  destruct (py_get address "firstName" VNone) as [first|]; [|discriminate].
  cbn [mbind outcome_bind] in Haccount.
  destruct (py_get address "lastName" VNone) as [lastn|]; [|discriminate].
  cbn [mbind outcome_bind] in Haccount.
  destruct (join_values " " _) as [full|]; [|discriminate].
  cbn [mbind outcome_bind] in Haccount.
  destruct (py_get (data last) "passwordToken" (VStr "")) as [token|]; [|discriminate].
  cbn [mbind outcome_bind] in Haccount.
  destruct (py_get (data last) "dsPersonId" (VStr "")) as [person|]; [|discriminate].
  cbn in Haccount. injection Haccount as <-. reflexivity.
Qed.


Lemma login_loop_raises email password auth_code w t w' e :
  login_attempts email password auth_code _guid [1; 2; 3; 4] None None false w
  = mkRun t w' (Raise e) ->
  login email password auth_code w = mkRun t w' (Raise e).
Proof.
  intros Hloop. unfold login. unfold mbind at 1. unfold M_bind at 1.
  rewrite Hloop. reflexivity.
Qed.

Lemma not_redirect_test r :
  ~ is_redirect r -> existsb (Z.eqb (resp_status r)) redirect_statuses = false.
Proof.
  intros Hnot. destruct (existsb _ redirect_statuses) eqn:Hex; [|reflexivity].
  exfalso. apply Hnot. apply existsb_exists in Hex as (status & Hin & Heq).
  apply Z.eqb_eq in Heq. unfold is_redirect. now rewrite Heq.
Qed.

(** X8. A first response that is no redirect, has no failure type and carries
    the message of a bad login, when the caller gave no auth code, makes
    [login] fail with [AuthCodeRequiredError] after that one request: nothing
    is retried and nothing is stored. *)
Theorem login_asks_for_auth_code (email password : string) (auth_code : option string)
    (w : World) (r : Response) (rest : list NetOutcome) (d : list (string * Value)) :
  network w = NetResponse r :: rest ->
  parsed_payload r ResponseFormatXML = Ok (VDict d) ->
  ~ is_redirect r ->
  no_auth_code auth_code = true ->
  truthy (dict_get d "failureType" (VStr "")) = false ->
  eq_str (dict_get d "failureType" (VStr "")) FAILURE_INVALID_CREDENTIALS = false ->
  eq_str (dict_get d "customerMessage" (VStr "")) CUSTOMER_MESSAGE_BAD_LOGIN = true ->
  let run := login email password auth_code w in
  result run
  = Raise (error AuthCodeRequiredError "two-factor auth code required" (MetaValue (VDict d)))
  /\ requests_of (trace run)
     = [wire_request (login_request email password auth_code _guid 1 None)]
  /\ network (final run) = rest
  /\ keychain_data (final run) = keychain_data w.
Proof.
  intros Hnet Hparsed Hnot Hcode Hft Hcred Hbad run. subst run.
  assert (_parse_login_response (result_of r (VDict d)) 1 auth_code
          = Raise (error AuthCodeRequiredError "two-factor auth code required"
                     (MetaValue (VDict d)))) as Hparse.
  { unfold _parse_login_response.
    cbn [result_of status_code data py_get mbind outcome_bind].
    rewrite (not_redirect_test r Hnot), Hcred, Hft, Hcode, Hbad.
    rewrite andb_false_r. reflexivity. }
  erewrite login_loop_raises; cycle 1.
  { rewrite (login_attempts_answered _ _ _ _ _ _ _ _ _ w r rest (VDict d) Hnet Hparsed).
    rewrite Hparse. reflexivity. }
  cbn. auto.
Qed.

(** X9. The quirk of the first attempt. A first response whose failure type is
    that of invalid credentials is not an error: [login] asks again, at the
    authentication endpoint, with attempt 2. A second response with a failure
    type, the same or another, ends the login with an [AppStoreError] that
    carries the message of the server, or "authentication failed" without
    one. Two requests were issued. *)
Theorem login_retries_invalid_credentials_once (email password : string)
    (auth_code : option string) (w : World) (r1 r2 : Response) (rest : list NetOutcome)
    (d1 d2 : list (string * Value)) :
  network w = NetResponse r1 :: NetResponse r2 :: rest ->
  parsed_payload r1 ResponseFormatXML = Ok (VDict d1) ->
  parsed_payload r2 ResponseFormatXML = Ok (VDict d2) ->
  ~ is_redirect r1 -> ~ is_redirect r2 ->
  eq_str (dict_get d1 "failureType" (VStr "")) FAILURE_INVALID_CREDENTIALS = true ->
  truthy (dict_get d2 "failureType" (VStr "")) = true ->
  let run := login email password auth_code w in
  result run
  = Raise (error AppStoreError
             (if truthy (dict_get d2 "customerMessage" (VStr ""))
              then to_str (dict_get d2 "customerMessage" (VStr ""))
              else "authentication failed")
             (MetaValue (VDict d2)))
  /\ requests_of (trace run)
     = [wire_request (login_request email password auth_code _guid 1 None);
        wire_request (login_request email password auth_code _guid 2 None)]
  /\ network (final run) = rest.
Proof.
  intros Hnet Hp1 Hp2 Hn1 Hn2 Hcred Hft2 run. subst run.
  assert (_parse_login_response (result_of r1 (VDict d1)) 1 auth_code = Ok (true, None))
    as Hparse1.
  { unfold _parse_login_response.
    cbn [result_of status_code data py_get mbind outcome_bind].
    rewrite (not_redirect_test r1 Hn1), Hcred. reflexivity. }
  assert (_parse_login_response (result_of r2 (VDict d2)) 2 auth_code
          = Raise (error AppStoreError
                     (if truthy (dict_get d2 "customerMessage" (VStr ""))
                      then to_str (dict_get d2 "customerMessage" (VStr ""))
                      else "authentication failed")
                     (MetaValue (VDict d2)))) as Hparse2.
  { unfold _parse_login_response.
    cbn [result_of status_code data py_get mbind outcome_bind].
    rewrite (not_redirect_test r2 Hn2), Hft2. cbn.
    destruct (truthy (dict_get d2 "customerMessage" (VStr ""))); reflexivity. }
  erewrite login_loop_raises; cycle 1.
  { rewrite (login_attempts_answered _ _ _ _ _ _ _ _ _ w r1 _ (VDict d1) Hnet Hp1).
    rewrite Hparse1. cbv zeta.
    rewrite (login_attempts_answered _ _ _ _ _ _ _ _ _ (answered r1 _ w) r2 rest (VDict d2)
               eq_refl Hp2).
    rewrite Hparse2. cbn. reflexivity. }
  cbn. auto.
Qed.
Lemma wire_request_keeps request :
  w_method (wire_request request) = method request
  /\ w_allow_redirects (wire_request request) = follow_redirects request.
Proof.
  unfold wire_request. destruct (payload request) as [p|]; [|auto].
  destruct (serialize p). auto.
Qed.

Lemma login_attempts_shape email password auth_code guid attempts :
  forall url last retry w,
    exists urls,
      (length urls <= length attempts)%nat
      /\ (attempts <> [] -> head urls = Some url)
      /\ requests_of (trace (login_attempts email password auth_code guid attempts
                               url last retry w))
         = zip_with (fun attempt target =>
                       wire_request (login_request email password auth_code guid attempt target))
                    attempts urls.
Proof.
  induction attempts as [|attempt later IH]; intros url last retry w.
  - exists []. cbn. split; [lia|]. split; [congruence|reflexivity].
  - rewrite login_attempts_cons, trace_bind, requests_of_app, _send_request_requests.
    destruct (result (_send_request _ w)) as [res|e].
    + rewrite trace_bind. cbn [lift trace result final List.app].
      destruct (_parse_login_response res attempt auth_code) as [[again url']|e].
      * destruct again; cbn [negb].
        -- destruct (IH url' (Some res) true
                       (final (_send_request
                                 (login_request email password auth_code guid attempt url) w)))
             as (urls & Hlen & _ & Hreq).
           exists (url :: urls). cbn [length zip_with head]. rewrite Hreq.
           split; [lia|]. split; reflexivity.
        -- exists [url]. split; [cbn [length]; lia|]. split; [reflexivity|].
      cbn [zip_with]. destruct later; reflexivity.
      * exists [url]. split; [cbn [length]; lia|]. split; [reflexivity|].
      cbn [zip_with]. destruct later; reflexivity.
    + exists [url]. split; [cbn [length]; lia|]. split; [reflexivity|].
      cbn [zip_with]. destruct later; reflexivity.
Qed.

Lemma login_requests_of_loop email password auth_code w :
  requests_of (trace (login email password auth_code w))
  = requests_of (trace (login_attempts email password auth_code _guid [1; 2; 3; 4]
                          None None false w)).
Proof.
  unfold login. rewrite trace_bind, requests_of_app.
  set (loop := login_attempts email password auth_code _guid [1; 2; 3; 4] None None false w).
  clearbody loop.
  assert (forall t : list Event, requests_of t = [] ->
            (requests_of (trace loop) ++ requests_of t)%list = requests_of (trace loop)) as Hdone.
  { intros t ->. apply app_nil_r. }
  apply Hdone.
  destruct (result loop) as [[last retry]|e]; [|reflexivity].
  destruct last as [last|]; [|reflexivity].
  destruct retry; [reflexivity|].
  destruct (get_header last HTTP_HEADER_STOREFRONT) as [sf|e]; [|reflexivity].
  rewrite trace_bind. cbn [lift trace result final List.app].
  destruct (account_of_result last email password sf) as [account|e]; [|reflexivity].
  rewrite trace_bind. unfold _persist_account.
  destruct (json_dumps _); reflexivity.
Qed.

End MoreLoginFacts.

(** ** Purchasing *)

Section PurchaseFacts.
Context `{Constants} `{Library}.

Lemma _purchase_with_params_requests account app guid pricing w :
  requests_of (trace (_purchase_with_params account app guid pricing w))
  = [wire_request (purchase_request account app guid pricing)].
Proof.
  unfold _purchase_with_params. rewrite trace_bind, requests_of_app, _send_request_requests.
  destruct (result (_send_request _ w)) as [res|e]; [|reflexivity].
  cbn [lift trace]. reflexivity.
Qed.

(** What one purchase request can end in, read off the answer it got. *)
Lemma _purchase_with_params_answered account app guid pricing w r rest d :
  network w = NetResponse r :: rest ->
  parsed_payload r ResponseFormatXML = Ok (VDict d) ->
  let failure_type := dict_get d "failureType" (VStr "") in
  let customer_message := dict_get d "customerMessage" (VStr "") in
  let meta := MetaValue (VDict d) in
  let run := _purchase_with_params account app guid pricing w in
  final run = answered r rest w
  /\ result run =
     if eq_str failure_type FAILURE_TEMPORARILY_UNAVAILABLE then
       Raise (error TemporarilyUnavailableError "item temporarily unavailable" meta)
     else if eq_str customer_message CUSTOMER_MESSAGE_SUBSCRIPTION_REQUIRED then
       Raise (error SubscriptionRequiredError "subscription required" meta)
     else if eq_str failure_type FAILURE_PASSWORD_TOKEN_EXPIRED then
       Raise (error PasswordTokenExpiredError "password token expired" meta)
     else if truthy failure_type then
       Raise (error AppStoreError (to_str (py_or customer_message (VStr "purchase failed"))) meta)
     else if resp_status r =? 500 then
       Raise (error AppStoreError "license already exists" meta)
     else if negb (eq_str (dict_get d "jingleDocType" VNone) "purchaseSuccess")
             || negb (eq_zero (dict_get d "status" VNone)) then
       Raise (error AppStoreError "failed to complete purchase" meta)
     else Ok tt.
Proof.
  intros Hnet Hparse failure_type customer_message meta run. subst run.
  unfold _purchase_with_params.
  rewrite final_bind, result_bind, (_send_request_answered _ _ _ _ Hnet).
  cbn [response_format purchase_request result final]. rewrite Hparse.
  cbn [lift final result result_of data status_code py_get mbind outcome_bind].
  split; [reflexivity|].
  fold failure_type customer_message meta.
  repeat match goal with |- context [if ?b then _ else _] => destruct b end; reflexivity.
Qed.

(** A purchase request that was not answered by a parsed dict ends in an
    error; a plain [AppStoreError] when the transport or the decoder failed. *)
Lemma _purchase_with_params_unparsed account app guid pricing w :
  (forall r rest d, network w = NetResponse r :: rest ->
                    parsed_payload r ResponseFormatXML <> Ok (VDict d)) ->
  exists e, result (_purchase_with_params account app guid pricing w) = Raise e
            /\ err_class e <> TemporarilyUnavailableError.
Proof.
  intros Hno. unfold _purchase_with_params. rewrite result_bind.
  destruct (network w) as [|[r|reason] rest] eqn:Hnet.
  - rewrite _send_request_unanswered by (intros; congruence). cbn. eexists. split; [reflexivity|].
    discriminate.
  - rewrite (_send_request_answered _ _ _ _ Hnet).
    cbn [response_format purchase_request result final].
    destruct (parsed_payload r ResponseFormatXML) as [v|e] eqn:Hparse.
    + destruct v; try (cbn; eexists; split; [reflexivity|discriminate]).
      exfalso. eapply Hno; eauto.
    + cbn. eexists. split; [reflexivity|]. discriminate.
  - rewrite _send_request_unanswered by (intros; congruence). cbn. eexists. split; [reflexivity|].
    discriminate.
Qed.

Lemma _purchase_with_params_store account app guid pricing w :
  let run := _purchase_with_params account app guid pricing w in
  keychain_data (final run) = keychain_data w
  /\ keychain_file (final run) = keychain_file w
  /\ files (final run) = files w.
Proof.
  cbv zeta. unfold _purchase_with_params. rewrite final_bind.
  destruct (result (_send_request _ w)) as [res|e]; cbn [lift final];
    apply _send_request_store.
Qed.

Lemma purchase_paid account app w :
  truthy (VFloat (App.price app)) && SFltb float_zero (App.price app) = true ->
  purchase account app w
  = mkRun [] w (Raise (error AppStoreError "purchasing paid apps is not supported" NoMetadata)).
Proof. intros Hpaid. unfold purchase. rewrite Hpaid. reflexivity. Qed.

Lemma purchase_unpaid account app w :
  truthy (VFloat (App.price app)) && SFltb float_zero (App.price app) = false ->
  purchase account app w
  = try_except (_purchase_with_params account app _guid PRICING_PARAM_APPSTORE)
      (fun c => issubclass c TemporarilyUnavailableError)
      (fun _ => _purchase_with_params account app _guid PRICING_PARAM_ARCADE) w.
Proof. intros Hpaid. unfold purchase. rewrite Hpaid. reflexivity. Qed.

(** Only an answer that names the failure makes a purchase request end in
    [TemporarilyUnavailableError]. *)
Lemma _purchase_with_params_unavailable account app guid pricing w e :
  result (_purchase_with_params account app guid pricing w) = Raise e ->
  err_class e = TemporarilyUnavailableError ->
  exists r rest d,
    network w = NetResponse r :: rest
    /\ parsed_payload r ResponseFormatXML = Ok (VDict d)
    /\ eq_str (dict_get d "failureType" (VStr "")) FAILURE_TEMPORARILY_UNAVAILABLE = true.
Proof.
  intros Hres Hclass.
  assert ((exists r rest d, network w = NetResponse r :: rest
                            /\ parsed_payload r ResponseFormatXML = Ok (VDict d))
          \/ (forall r rest d, network w = NetResponse r :: rest ->
                               parsed_payload r ResponseFormatXML <> Ok (VDict d))) as [Hyes|Hno].
  { destruct (network w) as [|[r|reason] rest]; [right; intros; congruence| |right; intros; congruence].
    destruct (parsed_payload r ResponseFormatXML) as [v|perr] eqn:Hparse;
      [|right; intros r' rest' d' [= <- <-]; congruence].
    destruct v; try (right; intros r' rest' d' [= <- <-]; congruence).
    left. eauto. }
  - destruct Hyes as (r & rest & d & Hnet & Hparse).
    exists r, rest, d. split; [exact Hnet|]. split; [exact Hparse|].
    destruct (_purchase_with_params_answered account app guid pricing w r rest d Hnet Hparse)
      as [_ Hr].
    rewrite Hres in Hr.
    destruct (eq_str (dict_get d "failureType" (VStr "")) FAILURE_TEMPORARILY_UNAVAILABLE);
      [reflexivity|].
    destruct (eq_str (dict_get d "customerMessage" (VStr ""))
                CUSTOMER_MESSAGE_SUBSCRIPTION_REQUIRED);
      [injection Hr as ->; discriminate Hclass|].
    destruct (eq_str (dict_get d "failureType" (VStr "")) FAILURE_PASSWORD_TOKEN_EXPIRED);
      [injection Hr as ->; discriminate Hclass|].
    destruct (truthy (dict_get d "failureType" (VStr "")));
      [injection Hr as ->; discriminate Hclass|].
    destruct (resp_status r =? 500); [injection Hr as ->; discriminate Hclass|].
    destruct (negb (eq_str (dict_get d "jingleDocType" VNone) "purchaseSuccess")
              || negb (eq_zero (dict_get d "status" VNone)));
      [injection Hr as ->; discriminate Hclass|discriminate Hr].
  - destruct (_purchase_with_params_unparsed account app guid pricing w Hno) as (e' & He' & Hne).
    rewrite Hres in He'. injection He' as <-. contradiction.
Qed.

Lemma issubclass_unavailable (c : ErrorClass) :
  issubclass c TemporarilyUnavailableError = true <-> c = TemporarilyUnavailableError.
Proof. destruct c; cbn; split; congruence. Qed.

Lemma eq_str_true (v : Value) (s : string) : eq_str v s = true <-> v = VStr s.
Proof.
  destruct v; cbn; try (split; [discriminate|congruence]).
  rewrite String.eqb_eq. split; congruence.
Qed.

(** A purchase request succeeds on one kind of answer only. *)
Lemma _purchase_with_params_ok account app guid pricing w :
  result (_purchase_with_params account app guid pricing w) = Ok tt ->
  exists r rest d,
    network w = NetResponse r :: rest
    /\ final (_purchase_with_params account app guid pricing w) = answered r rest w
    /\ parsed_payload r ResponseFormatXML = Ok (VDict d)
    /\ truthy (dict_get d "failureType" (VStr "")) = false
    /\ resp_status r <> 500
    /\ dict_get d "jingleDocType" VNone = VStr "purchaseSuccess"
    /\ eq_zero (dict_get d "status" VNone) = true.
Proof.
  intros Hres.
  assert ((exists r rest d, network w = NetResponse r :: rest
                            /\ parsed_payload r ResponseFormatXML = Ok (VDict d))
          \/ (forall r rest d, network w = NetResponse r :: rest ->
                               parsed_payload r ResponseFormatXML <> Ok (VDict d))) as [Hyes|Hno].
  { destruct (network w) as [|[r|reason] rest]; [right; intros; congruence| |right; intros; congruence].
    destruct (parsed_payload r ResponseFormatXML) as [v|perr] eqn:Hparse;
      [|right; intros r' rest' d' [= <- <-]; congruence].
    destruct v; try (right; intros r' rest' d' [= <- <-]; congruence).
    left. eauto. }
  - destruct Hyes as (r & rest & d & Hnet & Hparse).
    exists r, rest, d.
    destruct (_purchase_with_params_answered account app guid pricing w r rest d Hnet Hparse)
      as [Hfinal Hr].
    rewrite Hres in Hr.
    split; [exact Hnet|]. split; [exact Hfinal|]. split; [exact Hparse|].
    destruct (eq_str (dict_get d "failureType" (VStr "")) FAILURE_TEMPORARILY_UNAVAILABLE);
      [discriminate Hr|].
    destruct (eq_str (dict_get d "customerMessage" (VStr ""))
                CUSTOMER_MESSAGE_SUBSCRIPTION_REQUIRED); [discriminate Hr|].
    destruct (eq_str (dict_get d "failureType" (VStr "")) FAILURE_PASSWORD_TOKEN_EXPIRED);
      [discriminate Hr|].
    destruct (truthy (dict_get d "failureType" (VStr ""))); [discriminate Hr|].
    destruct (resp_status r =? 500) eqn:Hstatus; [discriminate Hr|].
    destruct (eq_str (dict_get d "jingleDocType" VNone) "purchaseSuccess") eqn:Hdoc;
      [|discriminate Hr].
    destruct (eq_zero (dict_get d "status" VNone)); [|discriminate Hr].
    split; [reflexivity|]. split; [lia|]. split; [|reflexivity].
    apply eq_str_true. exact Hdoc.
  - destruct (_purchase_with_params_unparsed account app guid pricing w Hno) as (e' & He' & Hne).
    rewrite Hres in He'. discriminate He'.
Qed.

(** X12. [purchase] returns normally only if the app has no positive price and
    the last answer it read, the first or the second of the network's, is a
    dict without a failure type, with a status code other than 500, with
    [jingleDocType] equal to "purchaseSuccess" and [status] equal to 0.
    Every other exchange ends in an error. *)
Theorem purchase_succeeds_only_on_confirmation (account : Account.t) (app : App.t) (w : World) :
  result (purchase account app w) = Ok tt ->
  truthy (VFloat (App.price app)) && SFltb float_zero (App.price app) = false
  /\ exists earlier r rest d,
       network w = (earlier ++ NetResponse r :: rest)%list
       /\ (length earlier <= 1)%nat
       /\ network (final (purchase account app w)) = rest
       /\ parsed_payload r ResponseFormatXML = Ok (VDict d)
       /\ truthy (dict_get d "failureType" (VStr "")) = false
       /\ resp_status r <> 500
       /\ dict_get d "jingleDocType" VNone = VStr "purchaseSuccess"
       /\ eq_zero (dict_get d "status" VNone) = true.
Proof.
  destruct (truthy (VFloat (App.price app)) && SFltb float_zero (App.price app)) eqn:Hpaid.
  { rewrite (purchase_paid account app w Hpaid). discriminate. }
  rewrite (purchase_unpaid account app w Hpaid). intros Hres. split; [reflexivity|].
  revert Hres. unfold try_except. cbv zeta.
  pose proof (_purchase_with_params_ok account app _guid PRICING_PARAM_APPSTORE w) as Hok1.
  pose proof (_purchase_with_params_unavailable account app _guid PRICING_PARAM_APPSTORE w)
    as Hun1.
  pose proof (_purchase_with_params_answered account app _guid PRICING_PARAM_APPSTORE w)
    as Hans1.
  cbv zeta in Hans1.
  generalize dependent (_purchase_with_params account app _guid PRICING_PARAM_APPSTORE w).
  intros run1 Hok1 Hun1 Hans1.
  destruct (result run1) as [[]|e] eqn:Hres1.
  - intros _. destruct (Hok1 eq_refl) as (r & rest & d & Hnet & Hfinal & Hrest).
    exists [], r, rest, d. split; [exact Hnet|]. split; [cbn; lia|].
    split; [rewrite Hfinal; reflexivity|exact Hrest].
  - destruct (issubclass (err_class e) TemporarilyUnavailableError) eqn:Hclass;
      [|intros Hbad; rewrite Hres1 in Hbad; discriminate Hbad].
    apply issubclass_unavailable in Hclass. cbn [result final].
    destruct (Hun1 e eq_refl Hclass) as (r1 & rest1 & d1 & Hnet1 & Hparse1 & _).
    destruct (Hans1 r1 rest1 d1 Hnet1 Hparse1) as [Hfinal1 _].
    intros Hres2.
    destruct (_purchase_with_params_ok account app _guid PRICING_PARAM_ARCADE (final run1) Hres2)
      as (r & rest & d & Hnet & Hfinal & Hrest).
    exists [NetResponse r1], r, rest, d.
    split; [rewrite Hnet1; rewrite Hfinal1 in Hnet; cbn in Hnet; rewrite Hnet; reflexivity|].
    split; [cbn; lia|]. split; [rewrite Hfinal; reflexivity|exact Hrest].
Qed.
End PurchaseFacts.

(** ** App discovery *)

Lemma map_outcome_Forall2 {A B} (f : A -> outcome B) (l : list A) (l' : list B) :
  map_outcome f l = Ok l' -> Forall2 (fun x y => f x = Ok y) l l'.
Proof.
  revert l'. induction l as [|x rest IH]; intros l'; cbn.
  - intros [= <-]. constructor.
  - destruct (f x) as [y|e] eqn:Hx; cbn; [|discriminate].
    destruct (map_outcome f rest) as [ys|e]; cbn; [|discriminate].
    intros [= <-]. constructor; [exact Hx|]. apply IH. reflexivity.
Qed.

Section CatalogFacts.
Context `{Constants} `{Library}.

(** A call of [_send_request] that returns has read one answer, and the
    result is that answer, parsed. *)
Lemma _send_request_ok request w res :
  result (_send_request request w) = Ok res ->
  exists r rest parsed,
    network w = NetResponse r :: rest
    /\ parsed_payload r (response_format request) = Ok parsed
    /\ res = result_of r parsed
    /\ final (_send_request request w) = answered r rest w.
Proof.
  destruct (network w) as [|[r|reason] rest] eqn:Hnet.
  - rewrite _send_request_unanswered by (intros; congruence). discriminate.
  - rewrite (_send_request_answered _ _ _ _ Hnet). cbn [result final].
    destruct (parsed_payload r (response_format request)) as [parsed|e] eqn:Hparse;
      [|discriminate].
    intros [= <-]. exists r, rest, parsed. split; [reflexivity|]. split; [exact Hparse|]. split; reflexivity.
  - rewrite _send_request_unanswered by (intros; congruence). discriminate.
Qed.

Lemma unknown_prefix (s : string) :
  (forall code, ~ In (code, hd "" (split_on "-" s)) STORE_FRONTS) ->
  _country_code_from_storefront (VStr s)
  = Raise (error AppStoreError ("unknown storefront: " ++ s) NoMetadata).
Proof.
  intros Hno. unfold _country_code_from_storefront.
  destruct (find _ STORE_FRONTS) as [[code value]|] eqn:Hfind; [|reflexivity].
  apply find_some in Hfind. destruct Hfind as [Hin Heq]. cbn in Heq.
  apply String.eqb_eq in Heq. subst value. exfalso. exact (Hno code Hin).
Qed.

(** X13. An account whose storefront starts with a number the table of store
    fronts does not have cannot search or look up: both calls fail with
    "unknown storefront: ..." and nothing is sent. *)
Theorem unknown_storefront_sends_nothing (account : Account.t) (s : string)
    (term bundle_id : string) (limit : Z) (include_tvos : bool) (w : World) :
  Account.store_front account = VStr s ->
  (forall code, ~ In (code, hd "" (split_on "-" s)) STORE_FRONTS) ->
  let failure := error AppStoreError ("unknown storefront: " ++ s) NoMetadata in
  search account term limit include_tvos w = mkRun [] w (Raise failure)
  /\ lookup account bundle_id w = mkRun [] w (Raise failure).
Proof.
  intros Hsf Hno failure. unfold search, lookup. rewrite Hsf, (unknown_prefix s Hno).
  split; reflexivity.
Qed.

(** X14. [lookup] with a known storefront sends one GET request for the bundle
    identifier. An answer without results, or with an empty list of them,
    is "app not found"; otherwise the app is made from the first result and
    the others are not looked at. *)
Theorem lookup_takes_first_result (account : Account.t) (bundle_id country : string)
    (w : World) (r : Response) (rest : list NetOutcome) (d : list (string * Value)) :
  _country_code_from_storefront (Account.store_front account) = Ok country ->
  network w = NetResponse r :: rest ->
  parsed_payload r ResponseFormatJSON = Ok (VDict d) ->
  let run := lookup account bundle_id w in
  let request := catalog_request ITUNES_API_LOOKUP_PATH (lookup_params bundle_id country) in
  requests_of (trace run) = [wire_request request]
  /\ w_method (wire_request request) = "GET"
  /\ (truthy (dict_get d "results" (VList [])) = false ->
      result run = Raise (error AppStoreError "app not found" (MetaValue (VDict d))))
  /\ (forall item more, dict_get d "results" (VList []) = VList (item :: more) ->
      result run = App.from_value item).
Proof.
  intros Hcountry Hnet Hparse run request. subst run request.
  unfold lookup. rewrite Hcountry.
  assert (forall k : HTTPResult -> M App.t,
            (country0 ← lift (Ok country);
             result ← _send_request
                        (catalog_request ITUNES_API_LOOKUP_PATH
                           (lookup_params bundle_id country0)); k result) w
            = (_send_request (catalog_request ITUNES_API_LOOKUP_PATH
                                (lookup_params bundle_id country)) ≫= k) w) as Hstart.
  { intros k. unfold mbind at 1. unfold M_bind at 1. cbn [lift trace final result List.app].
    destruct ((_send_request _ ≫= k) w); reflexivity. }
  rewrite Hstart. clear Hstart.
  rewrite trace_bind, result_bind, (_send_request_answered _ _ _ _ Hnet).
  cbn [response_format catalog_request trace result final]. rewrite Hparse.
  cbn [result_of data py_get]. rewrite trace_bind, result_bind.
  cbn [lift trace result final List.app].
  split; [|split; [reflexivity|split]].
  - destruct (truthy (dict_get d "results" (VList []))); cbn [negb];
      [|reflexivity].
    cbn [lift trace]. reflexivity.
  - intros ->. reflexivity.
  - intros item more ->. cbn [truthy negb]. reflexivity.
Qed.

(** X15. When [search] returns, it has read one answer: a dict whose "results"
    yield the items it converted, one app for each item and in the same
    order, and whose count is the declared "resultCount", or the number of
    apps when none is declared. *)
Theorem search_lists_every_result (account : Account.t) (term : string) (limit : Z)
    (include_tvos : bool) (w : World) (out : SearchOutput) :
  result (search account term limit include_tvos w) = Ok out ->
  exists r rest d items,
    network w = NetResponse r :: rest
    /\ parsed_payload r ResponseFormatJSON = Ok (VDict d)
    /\ iterate (dict_get d "results" (VList [])) = Ok items
    /\ Forall2 (fun item app => App.from_value item = Ok app) items (results out)
    /\ py_int (dict_get d "resultCount" (VInt (Z.of_nat (length (results out)))))
       = Ok (count out).
Proof.
  unfold search. rewrite result_bind.
  destruct (_country_code_from_storefront (Account.store_front account)) as [country|e];
    cbn [lift result final]; [|discriminate].
  rewrite result_bind.
  destruct (result (_send_request _ w)) as [res|e] eqn:Hsend; [|discriminate].
  destruct (_send_request_ok _ _ _ Hsend) as (r & rest & parsed & Hnet & Hparse & -> & _).
  cbn [response_format catalog_request] in Hparse.
  cbn [lift result result_of data].
  destruct parsed as [| | | | | | | |d]; try (intros Hbad; cbn in Hbad; discriminate Hbad).
  cbn [py_get]. unfold mbind, outcome_bind, mret, outcome_ret.
  destruct (iterate (dict_get d "results" (VList []))) as [items|e] eqn:Hitems; [|discriminate].
  destruct (map_outcome App.from_value items) as [apps|e] eqn:Happs; [|discriminate].
  destruct (py_int (dict_get d "resultCount" (VInt (Z.of_nat (length apps))))) as [n|e] eqn:Hn;
    [|discriminate].
  intros [= <-]. exists r, rest, d, items. cbn [results count].
  split; [exact Hnet|]. split; [exact Hparse|]. split; [exact Hitems|].
  split; [apply map_outcome_Forall2; exact Happs|exact Hn].
Qed.
End CatalogFacts.

(** ** The archive transform, further *)

Lemma same_outside_files_refl (w : World) : same_outside_files w w.
Proof. unfold same_outside_files. auto. Qed.

Lemma same_outside_files_trans (w1 w2 w3 : World) :
  same_outside_files w1 w2 -> same_outside_files w2 w3 -> same_outside_files w1 w3.
Proof.
  unfold same_outside_files. intros (-> & -> & -> & -> & ->) (-> & -> & -> & -> & ->). auto.
Qed.

Lemma file_events_no_requests (t : list Event) :
  forallb is_file_event t = true -> requests_of t = [].
Proof.
  induction t as [|e t IH]; [reflexivity|].
  cbn [forallb]. intros Hall. apply andb_prop in Hall as [He Ht].
  destruct e; try discriminate He. cbn. apply IH. exact Ht.
Qed.

Section Offline.
Context {A B : Type}.

Lemma offline_ret (a : A) : offline (mret a : M A).
Proof. intros w. split; [apply same_outside_files_refl|reflexivity]. Qed.

Lemma offline_lift (o : outcome A) : offline (lift o).
Proof. intros w. split; [apply same_outside_files_refl|reflexivity]. Qed.

Lemma offline_raise (e : Error) : offline (raise e : M A).
Proof. intros w. split; [apply same_outside_files_refl|reflexivity]. Qed.

Lemma offline_bind (m : M A) (f : A -> M B) :
  offline m -> (forall a, offline (f a)) -> offline (m ≫= f).
Proof.
  intros Hm Hf w. destruct (Hm w) as [Hsame Hevents].
  rewrite final_bind, trace_bind.
  destruct (result (m w)) as [a|e].
  - destruct (Hf a (final (m w))) as [Hsame' Hevents'].
    split; [eapply same_outside_files_trans; eauto|].
    rewrite forallb_app, Hevents, Hevents'. reflexivity.
  - split; [exact Hsame|]. rewrite app_nil_r. exact Hevents.
Qed.

Lemma appends_ret (dst : string) (a : A) : appends_at dst (mret a : M A).
Proof. intros w. exists []. cbn. now rewrite app_nil_r. Qed.

Lemma appends_lift (dst : string) (o : outcome A) : appends_at dst (lift o).
Proof. intros w. exists []. cbn. now rewrite app_nil_r. Qed.

Lemma appends_raise (dst : string) (e : Error) : appends_at dst (raise e : M A).
Proof. intros w. exists []. cbn. now rewrite app_nil_r. Qed.

Lemma appends_bind (dst : string) (m : M A) (f : A -> M B) :
  appends_at dst m -> (forall a, appends_at dst (f a)) -> appends_at dst (m ≫= f).
Proof.
  intros Hm Hf w. destruct (Hm w) as [extra Hextra]. rewrite final_bind.
  destruct (result (m w)) as [a|e].
  - destruct (Hf a (final (m w))) as [extra' Hextra'].
    exists (extra ++ extra')%list. rewrite Hextra', Hextra, app_assoc. reflexivity.
  - exists extra. exact Hextra.
Qed.
End Offline.

Lemma offline_writestr (dst : string) (zi : ZipInfo) (bytes : string) :
  offline (writestr dst zi bytes).
Proof. intros w. split; [unfold same_outside_files; cbn; auto|reflexivity]. Qed.

Lemma appends_writestr (dst : string) (zi : ZipInfo) (bytes : string) :
  appends_at dst (writestr dst zi bytes).
Proof. intros w. eexists. apply written_writestr. Qed.

Lemma offline_for_each {A} (l : list A) (body : A -> M unit) :
  (forall x, offline (body x)) -> offline (for_each l body).
Proof.
  intros Hbody. induction l as [|x l IH]; cbn [for_each].
  - apply offline_ret.
  - apply offline_bind; [apply Hbody | intros _; exact IH].
Qed.

Lemma appends_for_each {A} (dst : string) (l : list A) (body : A -> M unit) :
  (forall x, appends_at dst (body x)) -> appends_at dst (for_each l body).
Proof.
  intros Hbody. induction l as [|x l IH]; cbn [for_each].
  - apply appends_ret.
  - apply appends_bind; [apply Hbody | intros _; exact IH].
Qed.

(** *** The name of the bundle *)

Lemma split_on_nonempty (c : ascii) (s : string) : split_on c s <> [].
Proof.
  induction s as [|c' s IH]; cbn; [discriminate|].
  destruct (Ascii.eqb c' c); [discriminate|].
  destruct (split_on c s); discriminate.
Qed.

Lemma split_on_join (c : ascii) (a b : string) :
  split_on c (a ++ String c b) = (split_on c a ++ split_on c b)%list.
Proof.
  induction a as [|c' a IH].
  - change (split_on c (String c b) = ([EmptyString] ++ split_on c b)%list).
    cbn. rewrite Ascii.eqb_refl. reflexivity.
  - change (split_on c (String c' (a ++ String c b))
            = (split_on c (String c' a) ++ split_on c b)%list).
    cbn [split_on]. destruct (Ascii.eqb c' c); [rewrite IH; reflexivity|].
    rewrite IH. destruct (split_on c a) as [|piece pieces] eqn:Hsplit.
    + exfalso. exact (split_on_nonempty c a Hsplit).
    + reflexivity.
Qed.

Lemma split_on_plain (c : ascii) (s : string) :
  remove_char c s = s -> split_on c s = [s].
Proof.
  induction s as [|c' s IH]; [reflexivity|].
  cbn. destruct (Ascii.eqb c' c) eqn:Hc.
  - intros Heq. exfalso. apply (f_equal String.length) in Heq. cbn in Heq.
    assert (forall t, (String.length (remove_char c t) <= String.length t)%nat) as Hle.
    { induction t as [|x t IHt]; cbn; [lia|]. destruct (Ascii.eqb x c); cbn; lia. }
    specialize (Hle s). lia.
  - intros [= Heq]. rewrite (IH Heq). reflexivity.
Qed.

(** The last piece of a split ends with what the text ends with, when that
    has no separator. *)
Lemma split_on_last (c : ascii) (pre suffix : string) :
  remove_char c suffix = suffix ->
  exists init stem, split_on c (pre ++ suffix) = (init ++ [(stem ++ suffix)%string])%list.
Proof.
  intros Hplain. induction pre as [|c' pre IH].
  - exists [], "". change (split_on c suffix = [suffix]). apply split_on_plain. exact Hplain.
  - destruct IH as (init & stem & IH).
    change (exists init0 stem0,
              split_on c (String c' (pre ++ suffix)) = (init0 ++ [(stem0 ++ suffix)%string])%list).
    cbn [split_on]. rewrite IH. destruct (Ascii.eqb c' c).
    + exists (EmptyString :: init), stem. reflexivity.
    + destruct init as [|piece pieces].
      * exists [], (String c' stem). reflexivity.
      * exists (String c' piece :: pieces), stem. reflexivity.
Qed.

Lemma endswith_suffix (s suffix : string) :
  endswith s suffix = true -> exists pre, s = pre ++ suffix.
Proof.
  induction s as [|c s IH]; cbn [endswith].
  - rewrite orb_false_r. intros Heq. apply String.eqb_eq in Heq. exists "". exact Heq.
  - intros Hor. apply orb_prop in Hor as [Heq|Hlater].
    + apply String.eqb_eq in Heq. exists "". exact Heq.
    + destruct (IH Hlater) as [pre ->]. exists (String c pre). reflexivity.
Qed.

Lemma endswith_append (pre suffix : string) : endswith (pre ++ suffix) suffix = true.
Proof.
  induction pre as [|c pre IH].
  - change (endswith suffix suffix = true).
    destruct suffix; cbn [endswith]; rewrite String.eqb_refl; reflexivity.
  - change (endswith (String c (pre ++ suffix)) suffix = true).
    cbn [endswith]. rewrite IH. apply orb_true_r.
Qed.

Lemma append_assoc (a b c : string) : (a ++ b) ++ c = a ++ (b ++ c).
Proof.
  induction a as [|x a IH]; [reflexivity|].
  change (String x ((a ++ b) ++ c) = String x (a ++ (b ++ c))). now rewrite IH.
Qed.

(** The parent of a member named [....app/Info.plist] is the directory
    whose name ends in [.app]. *)
Lemma parent_name_of_info_plist (fname : string) :
  endswith fname ".app/Info.plist" = true ->
  exists stem, parent_name fname = stem ++ ".app".
Proof.
  intros Hends. destruct (endswith_suffix _ _ Hends) as [pre ->].
  destruct (split_on_last "/" pre ".app" eq_refl) as (init & stem & Hsplit).
  assert (split_on "/" (pre ++ ".app/Info.plist")
          = (init ++ [(stem ++ ".app")%string; "Info.plist"])%list) as Hpieces.
  { change (pre ++ ".app/Info.plist") with (pre ++ (".app" ++ String "/" "Info.plist")).
    rewrite <- append_assoc, split_on_join, Hsplit, <- app_assoc. reflexivity. }
  exists stem. unfold parent_name, path_parts.
  rewrite Hpieces, List.filter_app, rev_app_distr.
  assert (String.eqb (stem ++ ".app") "" || String.eqb (stem ++ ".app") "." = false) as Hkept.
  { assert (forall t, (String.length t < 4)%nat -> String.eqb (stem ++ ".app") t = false)
      as Hshort.
    { intros t Ht. apply String.eqb_neq. intros Heq. apply (f_equal String.length) in Heq.
      rewrite string_length_append in Heq. cbn in Heq. lia. }
    rewrite !Hshort by (cbn; lia). reflexivity. }
  cbn [List.filter]. rewrite Hkept. reflexivity.
Qed.

Section MoreRepackagerFacts.
Context `{Library}.

(** X16. The bundle name [_read_bundle_name] returns is the name of the [.app]
    directory, suffix and all. The members [_replicate_sinf_from_manifest]
    and [_replicate_sinf_from_info] write under
    [Payload/{bundle_name}.app/] are therefore under a directory whose name
    ends in [.app.app]. *)
Theorem bundle_name_keeps_suffix (zip_file : list ZipEntry) (bundle_name : string) :
  _read_bundle_name zip_file = Ok bundle_name ->
  exists stem,
    bundle_name = stem ++ ".app"
    /\ (forall pair,
          filename (zinfo (sinf_member bundle_name pair))
          = "Payload/" ++ stem ++ ".app.app/" ++ to_str (snd pair))
    /\ (forall executable first,
          filename (zinfo (info_member bundle_name executable first))
          = "Payload/" ++ stem ++ ".app.app/SC_Info/" ++ to_str executable ++ ".sinf").
Proof.
  unfold _read_bundle_name.
  destruct (find _ (infolist zip_file)) as [zi|] eqn:Hfind; [|discriminate].
  intros [= <-]. apply find_some in Hfind as [_ Hname].
  unfold is_info_plist_name in Hname. apply andb_prop in Hname as [Hends _].
  destruct (parent_name_of_info_plist _ Hends) as [stem Hstem].
  exists stem. split; [exact Hstem|]. rewrite Hstem. split.
  - intros pair. unfold sinf_member, sinf_info. cbn [zinfo filename].
    rewrite !append_assoc. reflexivity.
  - intros executable first. unfold info_member, sinf_info. cbn [zinfo filename].
    rewrite !append_assoc. reflexivity.
Qed.

Lemma offline__replicate_zip src_zip dst : offline (_replicate_zip src_zip dst).
Proof.
  unfold _replicate_zip. apply offline_for_each. intros zi.
  destruct (zip_read src_zip (filename zi)); [apply offline_writestr | apply offline_raise].
Qed.

Lemma offline__replicate_sinf_from_manifest dst manifest sinfs bundle_name :
  offline (_replicate_sinf_from_manifest dst manifest sinfs bundle_name).
Proof.
  unfold _replicate_sinf_from_manifest.
  apply offline_bind; [apply offline_lift|]. intros listed.
  apply offline_bind; [apply offline_lift|]. intros paths.
  apply offline_for_each. intros [sinf relative_path]. apply offline_writestr.
Qed.

Lemma appends__replicate_sinf_from_manifest dst manifest sinfs bundle_name :
  appends_at dst (_replicate_sinf_from_manifest dst manifest sinfs bundle_name).
Proof.
  unfold _replicate_sinf_from_manifest.
  apply appends_bind; [apply appends_lift|]. intros listed.
  apply appends_bind; [apply appends_lift|]. intros paths.
  apply appends_for_each. intros [sinf relative_path]. apply appends_writestr.
Qed.

Lemma offline__replicate_sinf_from_info dst info_plist sinfs bundle_name :
  offline (_replicate_sinf_from_info dst info_plist sinfs bundle_name).
Proof.
  unfold _replicate_sinf_from_info. destruct sinfs as [|first others]; [apply offline_raise|].
  apply offline_bind; [apply offline_lift|]. intros executable.
  destruct (negb (truthy executable)); [apply offline_raise | apply offline_writestr].
Qed.

Lemma appends__replicate_sinf_from_info dst info_plist sinfs bundle_name :
  appends_at dst (_replicate_sinf_from_info dst info_plist sinfs bundle_name).
Proof.
  unfold _replicate_sinf_from_info. destruct sinfs as [|first others]; [apply appends_raise|].
  apply appends_bind; [apply appends_lift|]. intros executable.
  destruct (negb (truthy executable)); [apply appends_raise | apply appends_writestr].
Qed.

Lemma offline_replicate_into src_zip dst sinfs : offline (replicate_into src_zip dst sinfs).
Proof.
  unfold replicate_into.
  apply offline_bind; [apply offline__replicate_zip|]. intros _.
  apply offline_bind; [apply offline_lift|]. intros bundle_name.
  apply offline_bind; [apply offline_lift|]. intros manifest.
  apply offline_bind; [apply offline_lift|]. intros info_plist.
  destruct (truthy manifest); [apply offline__replicate_sinf_from_manifest|].
  destruct (truthy info_plist); [apply offline__replicate_sinf_from_info | apply offline_raise].
Qed.

(** Whatever [replicate_into] ends in, the archive it writes starts with the
    replicas of all the members of the source. *)
Lemma replicate_into_starts_with_replicas src_zip dst sinfs w :
  exists extra,
    written dst (final (replicate_into src_zip dst sinfs w))
    = (written dst w ++ map (read_replica src_zip) (infolist src_zip) ++ extra)%list.
Proof.
  unfold replicate_into. rewrite final_bind.
  destruct (_replicate_zip_written src_zip dst w) as [Hres Hwr]. rewrite Hres.
  assert (appends_at dst
            (bundle_name ← lift (_read_bundle_name src_zip);
             manifest ← lift (_read_manifest_plist src_zip);
             info_plist ← lift (_read_info_plist src_zip);
             if truthy manifest then
               _replicate_sinf_from_manifest dst manifest sinfs bundle_name
             else if truthy info_plist then
               _replicate_sinf_from_info dst info_plist sinfs bundle_name
             else raise (error AppStoreError "failed to find manifest or info plist"
                           NoMetadata))) as Hrest.
  { apply appends_bind; [apply appends_lift|]. intros bundle_name.
    apply appends_bind; [apply appends_lift|]. intros manifest.
    apply appends_bind; [apply appends_lift|]. intros info_plist.
    destruct (truthy manifest); [apply appends__replicate_sinf_from_manifest|].
    destruct (truthy info_plist); [apply appends__replicate_sinf_from_info
                                  | apply appends_raise]. }
  destruct (Hrest (final (_replicate_zip src_zip dst w))) as [extra Hextra].
  exists extra. rewrite Hextra, Hwr, <- app_assoc. reflexivity.
Qed.

(** X17. [replicate_sinf] works on files alone and on two paths: it sends
    nothing, leaves the cookies and the keychain as they are, and touches
    no file but the package and the temporary file beside it. *)
Theorem replicate_sinf_stays_local (package_path : string) (sinfs : list Sinf) (w : World) :
  let run := replicate_sinf package_path sinfs w in
  requests_of (trace run) = []
  /\ same_outside_files w (final run)
  /\ forall p, p <> package_path -> p <> temp_path package_path ->
               files (final run) !! p = files w !! p /\ changes_of p (trace run) = [].
Proof.
  cbv zeta. destruct (files w !! package_path) as [[src_zip|bytes]|] eqn:Hsrc.
  - rewrite (replicate_sinf_archive package_path sinfs w src_zip Hsrc). cbv zeta.
    set (temp := temp_path package_path).
    set (opened := set_files (<[temp := FileZip []]> (files w)) w).
    destruct (offline_replicate_into src_zip temp sinfs opened) as [Hsame Hevents].
    destruct (writes_replicate_into src_zip temp sinfs opened) as (_ & Hfiles & Hchanges).
    { eexists. cbn. apply lookup_insert_eq. }
    assert (same_outside_files w (final (replicate_into src_zip temp sinfs opened))) as Hsame'.
    { eapply same_outside_files_trans; [|exact Hsame].
      unfold same_outside_files, opened. cbn. auto. }
    pose proof (file_events_no_requests _ Hevents) as Hnone.
    generalize dependent (replicate_into src_zip temp sinfs opened). intros body.
    intros Hsame Hevents Hfiles Hchanges Hsame' Hnone.
    destruct (result body) as [[]|e]; cbn [trace final result].
    + split; [|split].
      * change (EvFile temp (Some (FileZip [])) :: (trace body ++ ?t)%list)
          with ([EvFile temp (Some (FileZip []))] ++ (trace body ++ t))%list.
        rewrite !requests_of_app, Hnone. reflexivity.
      * unfold same_outside_files in *. cbn. exact Hsame'.
      * intros p Hp Htemp. split.
        -- cbn [set_files files]. rewrite lookup_insert_ne by congruence.
           rewrite !lookup_delete_ne by congruence.
           rewrite Hfiles by exact Htemp. unfold opened. cbn [set_files files].
           apply lookup_insert_ne. congruence.
        -- change (EvFile temp (Some (FileZip [])) :: (trace body ++ ?t)%list)
             with ([EvFile temp (Some (FileZip []))] ++ (trace body ++ t))%list.
           rewrite !changes_of_app, Hchanges by exact Htemp.
           rewrite changes_of_other by congruence. cbn.
           destruct (String.eqb_spec package_path p); [congruence|].
           destruct (String.eqb_spec temp p); [congruence|]. reflexivity.
    + split; [|split].
      * change (EvFile temp (Some (FileZip [])) :: trace body)
          with ([EvFile temp (Some (FileZip []))] ++ trace body)%list.
        rewrite requests_of_app, Hnone. reflexivity.
      * exact Hsame'.
      * intros p Hp Htemp. split.
        -- rewrite Hfiles by exact Htemp. unfold opened. cbn [set_files files].
           apply lookup_insert_ne. congruence.
        -- change (EvFile temp (Some (FileZip [])) :: trace body)
             with ([EvFile temp (Some (FileZip []))] ++ trace body)%list.
           rewrite changes_of_app, Hchanges by exact Htemp.
           rewrite changes_of_other by congruence. reflexivity.
  - unfold replicate_sinf, mbind, M_bind, read_file. cbn [result final trace]. rewrite Hsrc.
    cbn. split; [reflexivity|]. split; [apply same_outside_files_refl|auto].
  - unfold replicate_sinf, mbind, M_bind, read_file. cbn [result final trace]. rewrite Hsrc.
    cbn. split; [reflexivity|]. split; [apply same_outside_files_refl|auto].
Qed.


Lemma _replicate_sinf_from_info_written dst info_plist first others bundle_name w :
  truthy (dict_get info_plist "CFBundleExecutable" VNone) = true ->
  let run := _replicate_sinf_from_info dst (VDict info_plist) (first :: others) bundle_name w in
  result run = Ok tt
  /\ written dst (final run)
     = (written dst w
        ++ [info_member bundle_name (dict_get info_plist "CFBundleExecutable" VNone) first])%list.
Proof.
  intros Hexe run. subst run. unfold _replicate_sinf_from_info.
  rewrite result_bind, final_bind. cbn [py_get lift result final].
  rewrite Hexe. cbn [negb].
  destruct (written_writestr dst
              (sinf_info ("Payload/" ++ bundle_name ++ ".app/SC_Info/"
                          ++ to_str (dict_get info_plist "CFBundleExecutable" VNone) ++ ".sinf"))
              (sinf_data first) w) as [Hres Hwr].
  split; [exact Hres | exact Hwr].
Qed.

End MoreRepackagerFacts.

(** ** The keychain and the stored account *)

Section AccountFacts.
Context `{Constants} `{Library} `{Decoders}.

Lemma keychain_get_run (key : string) (w : World) :
  Keychain.get key w
  = mkRun [] w (match keychain_data w !! key with
                | None => Raise (error KeyError key NoMetadata)
                | Some encoded => b64decode encoded
                end).
Proof. unfold Keychain.get. destruct (keychain_data w !! key); reflexivity. Qed.

Lemma keychain_remove_run (key : string) (w : World) :
  FileKeychain.remove key w
  = match keychain_data w !! key with
    | Some _ =>
        let left := delete key (keychain_data w) in
        mkRun [EvKeychainPersist left] (set_keychain left (Some left) w) (Ok tt)
    | None => mkRun [] w (Ok tt)
    end.
Proof. unfold FileKeychain.remove. destruct (keychain_data w !! key); reflexivity. Qed.

(** X20. What is stored under a key is what [get] decodes, until the key is set
    again or removed; a removed key is a [KeyError]; the other keys are not
    affected by either; and after a [set], and after a [remove], the file
    holds the dict of the keychain. *)
Theorem keychain_get_after_set (key other : string) (bytes : string) (w : World) :
  let w' := final (FileKeychain.set key bytes w) in
  let w'' := final (FileKeychain.remove key w') in
  Keychain.get key w' = mkRun [] w' (b64decode (b64encode bytes))
  /\ keychain_file w' = Some (keychain_data w')
  /\ Keychain.get key w''
     = mkRun [] w'' (Raise (error KeyError key NoMetadata))
  /\ keychain_file w'' = Some (keychain_data w'')
  /\ (other <> key ->
      result (Keychain.get other w') = result (Keychain.get other w)
      /\ result (Keychain.get other w'') = result (Keychain.get other w)).
Proof.
  cbv zeta. rewrite keychain_set_run. cbv zeta. cbn [final].
  rewrite keychain_remove_run. cbn [keychain_data set_keychain].
  rewrite lookup_insert_eq. cbv zeta. cbn [final].
  rewrite !keychain_get_run. cbn [keychain_data keychain_file set_keychain result].
  rewrite lookup_insert_eq, lookup_delete_eq.
  split; [reflexivity|]. split; [reflexivity|]. split; [reflexivity|]. split; [reflexivity|].
  intros Hother.
  rewrite lookup_delete_ne by congruence. rewrite lookup_insert_ne by congruence.
  split; reflexivity.
Qed.

Lemma account_info_none (w : World) :
  keychain_data w !! "account" = None ->
  account_info w = mkRun [] w (Raise (error AppStoreError "no active account" NoMetadata)).
Proof.
  intros Hnone. unfold account_info, mbind, M_bind, try_except.
  rewrite keychain_get_run, Hnone. reflexivity.
Qed.

(** X21. Without a stored account, [account_info] fails with "no active
    account" and does nothing else. That is so on a keychain that never had
    one and after every [revoke]. *)
Theorem account_info_without_account (w : World) :
  let failure := error AppStoreError "no active account" NoMetadata in
  (keychain_data w !! "account" = None -> account_info w = mkRun [] w (Raise failure))
  /\ account_info (final (revoke w)) = mkRun [] (final (revoke w)) (Raise failure).
Proof.
  cbv zeta. split; [apply account_info_none|].
  apply account_info_none. unfold revoke. rewrite keychain_remove_run.
  destruct (keychain_data w !! "account") eqn:Hk; cbn; [apply lookup_delete_eq|exact Hk].
Qed.

Lemma account_info_stored (w : World) (payload : string) (a : Account.t) :
  keychain_data w !! "account" = Some (b64encode payload) ->
  b64decode (b64encode payload) = Ok payload ->
  json_loads_bytes payload = Ok (VDict (Account.to_dict a)) ->
  account_info w = mkRun [] w (Ok a).
Proof.
  intros Hstored Hb64 Hjson. unfold account_info, mbind, M_bind, try_except.
  rewrite keychain_get_run, Hstored, Hb64. cbn. rewrite Hjson. cbn.
  destruct a. reflexivity.
Qed.

(** X22. With decoders that undo the encoders on the stored text,
    [account_info] after a successful [login] returns the account [login]
    returned, password included, and nothing is sent or changed for it. *)
Theorem account_info_after_login (email password : string) (auth_code : option string)
    (w : World) (account : Account.t) :
  result (login email password auth_code w) = Ok account ->
  (forall payload, json_dumps (VDict (Account.to_dict account)) = Some payload ->
                   b64decode (b64encode payload) = Ok payload
                   /\ json_loads_bytes payload = Ok (VDict (Account.to_dict account))) ->
  let w' := final (login email password auth_code w) in
  account_info w' = mkRun [] w' (Ok account)
  /\ Account.password account = VStr password.
Proof.
  intros Hlogin Hcodec w'. subst w'.
  destruct (login_keychain email password auth_code w) as [_ Hstore].
  rewrite Hlogin in Hstore. destruct Hstore as (payload & Hdump & Hdata & _ & Hpassword).
  destruct (Hcodec payload Hdump) as [Hb64 Hjson].
  split; [|exact Hpassword].
  apply (account_info_stored _ payload); [|exact Hb64|exact Hjson].
  rewrite Hdata. apply lookup_insert_eq.
Qed.
End AccountFacts.

(** ** Listing versions *)

Section VersionFacts.
Context `{Constants} `{Library} `{Decoders}.

Lemma _validate_download_result_ok (result : HTTPResult) :
  _validate_download_result result = Ok tt ->
  exists d, data result = VDict d /\ truthy (dict_get d "failureType" (VStr "")) = false.
Proof.
  unfold _validate_download_result.
  destruct (data result) as [| | | | | | | |d]; try discriminate.
  cbn [py_get mbind outcome_bind]. intros Hok. exists d. split; [reflexivity|].
  destruct (eq_str _ FAILURE_PASSWORD_TOKEN_EXPIRED); [discriminate|].
  destruct (eq_str _ FAILURE_LICENSE_NOT_FOUND); [discriminate|].
  destruct (truthy (dict_get d "failureType" (VStr ""))); [|reflexivity].
  destruct (truthy (dict_get d "customerMessage" (VStr ""))); discriminate.
Qed.

End VersionFacts.

(** ** Patching a downloaded archive *)

Lemma dict_find_set (d : list (string * Value)) (k : string) (v : Value) :
  dict_find (dict_set d k v) k = Some v.
Proof.
  induction d as [|[k' v'] d IH]; cbn.
  - rewrite String.eqb_refl. reflexivity.
  - destruct (String.eqb k' k) eqn:Hk; cbn.
    + rewrite String.eqb_refl. reflexivity.
    + rewrite Hk. exact IH.
Qed.

Lemma dict_find_set_other (d : list (string * Value)) (k k' : string) (v : Value) :
  k' <> k -> dict_find (dict_set d k v) k' = dict_find d k'.
Proof.
  intros Hne. induction d as [|[k0 v0] d IH]; cbn.
  - destruct (String.eqb_spec k k'); [congruence|reflexivity].
  - destruct (String.eqb_spec k0 k) as [->|Hk0]; cbn.
    + destruct (String.eqb_spec k k'); [congruence|reflexivity].
    + rewrite IH. reflexivity.
Qed.

Section PatchFacts.
Context `{Constants} `{Library} `{Decoders}.

Lemma writes__write_metadata dst metadata account :
  writes_zip_at dst (_write_metadata dst metadata account).
Proof.
  unfold _write_metadata. apply writes_bind; [apply writes_lift|]. intros bytes.
  apply writes_writestr.
Qed.

(** [_apply_patches] on an archive, in terms of the run of its [with] body. *)
Lemma _apply_patches_archive source_path destination_path metadata account w src_zip :
  source_path <> destination_path ->
  files w !! source_path = Some (FileZip src_zip) ->
  let opened :=
    set_files (<[destination_path := FileZip []]>
                 (<[destination_path := FileBytes ""]> (files w))) w in
  let body := (_replicate_zip src_zip destination_path
               ≫= fun _ => _write_metadata destination_path metadata account) opened in
  _apply_patches source_path destination_path metadata account w
  = mkRun (EvFile destination_path (Some (FileBytes ""))
           :: EvFile destination_path (Some (FileZip [])) :: trace body)
          (final body) (result body).
Proof.
  intros Hne Hsrc opened body.
  assert (<[destination_path := FileBytes ""]> (files w) !! source_path
          = Some (FileZip src_zip)) as Hsrc'.
  { rewrite lookup_insert_ne by congruence. exact Hsrc. }
  unfold _apply_patches. apply run_ext.
  - rewrite trace_bind. cbn [read_file trace result final]. rewrite Hsrc.
    rewrite trace_bind. cbn [write_file trace result final].
    rewrite trace_bind. cbn [read_file trace result final set_files files]. rewrite Hsrc'.
    rewrite trace_bind. cbn [write_file trace result final set_files files List.app].
    reflexivity.
  - rewrite final_bind. cbn [read_file trace result final]. rewrite Hsrc.
    rewrite final_bind. cbn [write_file trace result final].
    rewrite final_bind. cbn [read_file trace result final set_files files]. rewrite Hsrc'.
    rewrite final_bind. cbn [write_file trace result final set_files files].
    reflexivity.
  - rewrite result_bind. cbn [read_file trace result final]. rewrite Hsrc.
    rewrite result_bind. cbn [write_file trace result final].
    rewrite result_bind. cbn [read_file trace result final set_files files]. rewrite Hsrc'.
    rewrite result_bind. cbn [write_file trace result final set_files files].
    reflexivity.
Qed.


End PatchFacts.

(** ** machine.py: the address of the machine *)

Lemma hex_digit_hex (d : N) : is_hex (Machine.hex_digit d) = true.
Proof.
  destruct (N.lt_ge_cases d 15) as [Hlt|Hge].
  - assert (d = 0 \/ d = 1 \/ d = 2 \/ d = 3 \/ d = 4 \/ d = 5 \/ d = 6 \/ d = 7 \/ d = 8
            \/ d = 9 \/ d = 10 \/ d = 11 \/ d = 12 \/ d = 13 \/ d = 14)%N as Hd by lia.
    repeat (destruct Hd as [->|Hd]; [reflexivity|]). subst d. reflexivity.
  - destruct d as [|p]; [lia|].
    do 4 (destruct p as [p|p|]; try lia; try reflexivity).
Qed.

Lemma hex_digits_hex (fuel : nat) :
  forall n acc, string_forall is_hex acc = true ->
                string_forall is_hex (Machine.hex_digits fuel n acc) = true.
Proof.
  induction fuel as [|fuel IH]; intros n acc Hacc; cbn [Machine.hex_digits]; [exact Hacc|].
  destruct (n =? 0)%N; [exact Hacc|].
  apply IH. cbn [string_forall]. rewrite hex_digit_hex, Hacc. reflexivity.
Qed.

Lemma format_x_hex (n : N) : string_forall is_hex (Machine.format_x n) = true.
Proof.
  unfold Machine.format_x. destruct (n =? 0)%N; [reflexivity|].
  apply hex_digits_hex. reflexivity.
Qed.

Lemma zfill_hex (width : nat) (s : string) :
  string_forall is_hex s = true -> string_forall is_hex (Machine.zfill width s) = true.
Proof.
  intros Hs. unfold Machine.zfill. induction (width - String.length s)%nat as [|k IH].
  - exact Hs.
  - change (string_forall is_hex
              (String "0" (string_of_list_ascii (repeat "0"%char k) ++ s)) = true).
    cbn [string_forall]. rewrite IH. reflexivity.
Qed.

Lemma zfill_length (width : nat) (s : string) :
  (width <= String.length (Machine.zfill width s))%nat.
Proof.
  unfold Machine.zfill. rewrite string_length_append.
  assert (forall k, String.length (string_of_list_ascii (repeat "0"%char k)) = k) as Hk.
  { induction k as [|k IH]; cbn; [reflexivity|]. now rewrite IH. }
  rewrite Hk. lia.
Qed.

Lemma upper_hex (c : ascii) : is_hex c = true -> is_upper_hex (ascii_upper c) = true.
Proof.
  unfold is_hex. cbn [list_ascii_of_string existsb].
  repeat match goal with
         | |- (Ascii.eqb c ?x || _ = true) -> _ =>
             destruct (Ascii.eqb_spec c x) as [->|_]; [reflexivity|cbn [orb]]
         end.
  discriminate.
Qed.

Lemma upper_hex_stays (c : ascii) : is_upper_hex c = true -> ascii_upper c = c /\ c <> ":"%char.
Proof.
  unfold is_upper_hex. cbn [list_ascii_of_string existsb].
  repeat match goal with
         | |- (Ascii.eqb c ?x || _ = true) -> _ =>
             destruct (Ascii.eqb_spec c x) as [->|_];
             [split; [reflexivity|discriminate]|cbn [orb]]
         end.
  discriminate.
Qed.

Lemma remove_colon_keep (c : ascii) (s : string) :
  is_upper_hex c = true -> remove_char ":" (String c s) = String c (remove_char ":" s).
Proof.
  intros Hc. destruct (upper_hex_stays c Hc) as [_ Hne].
  cbn [remove_char]. apply Ascii.eqb_neq in Hne. rewrite Hne. reflexivity.
Qed.

Lemma remove_colon_drop (s : string) : remove_char ":" (String ":" s) = remove_char ":" s.
Proof. reflexivity. Qed.

Lemma upper_keep (c : ascii) (s : string) :
  is_upper_hex c = true -> upper (String c s) = String c (upper s).
Proof.
  intros Hc. destruct (upper_hex_stays c Hc) as [Hup _].
  unfold upper. cbn [string_map]. rewrite Hup. reflexivity.
Qed.

(** X26. The address is six pairs of uppercase hexadecimal digits with colons
    between them, whatever the node number: 17 characters, a colon at every
    third place. Without the colons, and in upper case, as [_guid] takes it,
    it is 12 uppercase hexadecimal digits. *)
Theorem mac_address_shape (node : N) :
  String.length (Machine.mac_address node) = 17%nat
  /\ (forall i c, String.get i (Machine.mac_address node) = Some c ->
                  if (i mod 3 =? 2)%nat then c = ":"%char else is_upper_hex c = true)
  /\ String.length (upper (remove_char ":" (Machine.mac_address node))) = 12%nat
  /\ string_forall is_upper_hex (upper (remove_char ":" (Machine.mac_address node))) = true.
Proof.
  unfold Machine.mac_address. cbv zeta.
  pose proof (zfill_length 12 (Machine.format_x node)) as Hlen.
  pose proof (zfill_hex 12 _ (format_x_hex node)) as Hhex.
  destruct (Machine.zfill 12 (Machine.format_x node)) as [|c0 mac]; [cbn in Hlen; lia|].
  destruct mac as [|c1 mac]; [cbn in Hlen; lia|].
  destruct mac as [|c2 mac]; [cbn in Hlen; lia|].
  destruct mac as [|c3 mac]; [cbn in Hlen; lia|].
  destruct mac as [|c4 mac]; [cbn in Hlen; lia|].
  destruct mac as [|c5 mac]; [cbn in Hlen; lia|].
  destruct mac as [|c6 mac]; [cbn in Hlen; lia|].
  destruct mac as [|c7 mac]; [cbn in Hlen; lia|].
  destruct mac as [|c8 mac]; [cbn in Hlen; lia|].
  destruct mac as [|c9 mac]; [cbn in Hlen; lia|].
  destruct mac as [|c10 mac]; [cbn in Hlen; lia|].
  destruct mac as [|c11 mac]; [cbn in Hlen; lia|].
  clear Hlen. cbn [string_forall] in Hhex.
  repeat match type of Hhex with
         | (_ && _ = true) => apply andb_prop in Hhex as [?H Hhex]
         end.
  repeat match goal with
         | Hc : is_hex ?c = true |- _ => apply upper_hex in Hc
         end.
  assert (upper (join ":" (map (fun i => substring i 2
            (String c0 (String c1 (String c2 (String c3 (String c4 (String c5 (String c6
            (String c7 (String c8 (String c9 (String c10 (String c11 mac)))))))))))))
            [0; 2; 4; 6; 8; 10]%nat))
          = String (ascii_upper c0) (String (ascii_upper c1) (String ":" (String (ascii_upper c2)
         (String (ascii_upper c3) (String ":" (String (ascii_upper c4) (String (ascii_upper c5)
         (String ":" (String (ascii_upper c6) (String (ascii_upper c7) (String ":" (String
         (ascii_upper c8) (String (ascii_upper c9) (String ":" (String (ascii_upper c10) (String
         (ascii_upper c11) ""))))))))))))))))) as Hmac
    by (destruct mac; reflexivity).
  rewrite Hmac. clear Hmac.
  split; [reflexivity|]. split.
  - intros i c.
    do 17 (destruct i as [|i];
           [cbn; intros Hget; injection Hget as <-; solve [reflexivity | assumption] | idtac]).
    cbn. discriminate.
  - repeat first [rewrite remove_colon_keep by assumption | rewrite remove_colon_drop].
    change (remove_char ":" "") with "".
    repeat rewrite upper_keep by assumption.
    change (upper "") with "".
    split; [reflexivity|]. cbn [string_forall].
    repeat match goal with
           | Hc : is_upper_hex ?c = true |- _ => rewrite Hc; clear Hc
           end.
    reflexivity.
Qed.

(** ** models.py: the dict of an app and back *)

Lemma SFeqb_zero (p : spec_float) :
  SFeqb p float_zero = true <-> exists s, p = S754_zero s.
Proof.
  destruct p as [s|s| |s m e]; cbn.
  - split; [eauto|reflexivity].
  - split; [destruct s; discriminate|intros [s' Hs]; discriminate Hs].
  - split; [discriminate|intros [s' Hs]; discriminate Hs].
  - split; [destruct s; discriminate|intros [s' Hs]; discriminate Hs].
Qed.

Section AppFacts.
Context `{Library}.

(** X27. An app made from the dict of an app is the same app, with one exception:
    a price that is a zero comes back as the positive zero, so an app whose
    price is the negative zero does not come back as it was. This is for
    [int] and [float] that return an [int] and a [float] as they are. *)
Theorem app_dict_roundtrip (a : App.t) :
  py_int (VInt (App.id a)) = Ok (App.id a) ->
  py_float (VFloat (App.price a)) = Ok (App.price a) ->
  py_float (VFloat float_zero) = Ok float_zero ->
  App.from_dict (App_to_dict a)
  = Ok (if SFeqb (App.price a) float_zero then with_price a float_zero else a)
  /\ (App.from_dict (App_to_dict a) = Ok a <-> App.price a <> S754_zero true).
Proof.
  intros Hint Hfloat Hzero.
  assert (App.from_dict (App_to_dict a)
          = Ok (if SFeqb (App.price a) float_zero then with_price a float_zero else a)) as Hrun.
  { unfold App.from_dict, App_to_dict. cbn [dict_get dict_find String.eqb Ascii.eqb Bool.eqb].
    unfold py_or. cbn [truthy].
    assert (py_int (if negb (App.id a =? 0) then VInt (App.id a) else VInt 0)
            = Ok (App.id a)) as ->.
    { destruct (Z.eqb_spec (App.id a) 0) as [Hz|_]; cbn [negb]; [|exact Hint].
      rewrite <- Hz. exact Hint. }
    cbn [mbind outcome_bind].
    destruct (SFeqb (App.price a) float_zero); cbn [negb].
    - rewrite Hzero. reflexivity.
    - rewrite Hfloat. destruct a. reflexivity. }
  split; [exact Hrun|]. rewrite Hrun.
  destruct (SFeqb (App.price a) float_zero) eqn:Hp.
  - apply SFeqb_zero in Hp as [s Hs]. destruct a as [i b n v p]. cbn in *. subst p.
    unfold with_price. cbn. split.
    + intros [= Heq]. destruct s; [discriminate Heq|discriminate].
    + intros Hne. destruct s; [contradiction|reflexivity].
  - split; [|reflexivity]. intros _ Hneg. rewrite Hneg in Hp. discriminate Hp.
Qed.
End AppFacts.

(** ** The download route *)

Section RouteFacts.
Context `{Constants} `{Library}.
Variable fetch_and_patch :
  Account.t -> App.t -> option string -> HTTPResult -> M DownloadOutput.
Variable login_values : Value -> Value -> M Account.t.

Lemma bind_raises {A B} (m : M A) (f : A -> M B) (w : World) (e : Error) :
  result (m w) = Raise e -> (m ≫= f) w = mkRun (trace (m w)) (final (m w)) (Raise e).
Proof. intros Hm. unfold mbind, M_bind. rewrite Hm. reflexivity. Qed.

Lemma bind_returns {A B} (m : M A) (f : A -> M B) (w : World) (a : A) :
  result (m w) = Ok a ->
  (m ≫= f) w
  = mkRun (trace (m w) ++ trace (f a (final (m w))))%list
          (final (f a (final (m w)))) (result (f a (final (m w)))).
Proof. intros Hm. unfold mbind, M_bind. rewrite Hm. reflexivity. Qed.

(** A turn that found nothing is followed by the turns that are left. *)
Lemma download_attempts_next (tries : nat) account app output_path external_version_id
    auto_purchase w account' :
  let turn := download_try fetch_and_patch login_values account app output_path
                external_version_id auto_purchase w in
  result turn = Ok (None, account') ->
  download_attempts fetch_and_patch login_values (S tries) account app output_path
    external_version_id auto_purchase w
  = let later := download_attempts fetch_and_patch login_values tries account' app output_path
                   external_version_id auto_purchase (final turn) in
    mkRun (trace turn ++ trace later)%list (final later) (result later).
Proof.
  intros turn Hturn. subst turn. cbn [download_attempts].
  rewrite (bind_returns
             (download_try fetch_and_patch login_values account app output_path
                external_version_id auto_purchase) _ w (None, account') Hturn).
  reflexivity.
Qed.

(** An error of the download that the turn does not recover from ends the
    turn as the download ended. *)
Lemma download_try_raises account app output_path external_version_id auto_purchase w e :
  let attempt := download fetch_and_patch account app output_path external_version_id w in
  result attempt = Raise e ->
  (if issubclass (err_class e) PasswordTokenExpiredError
   then negb (truthy (Account.password account))
   else if issubclass (err_class e) LicenseRequiredError then negb auto_purchase else true)
  = true ->
  download_try fetch_and_patch login_values account app output_path external_version_id
    auto_purchase w
  = mkRun (trace attempt) (final attempt) (Raise e).
Proof.
  intros attempt Hres Hoff. unfold download_try, try_except.
  rewrite (bind_raises _ _ _ e Hres). cbn [result trace final]. fold attempt.
  destruct (issubclass (err_class e) PasswordTokenExpiredError) eqn:Hpte; cbn [orb].
  - rewrite Hoff. cbn. rewrite app_nil_r. reflexivity.
  - destruct (issubclass (err_class e) LicenseRequiredError) eqn:Hlic; [|reflexivity].
    rewrite Hoff. cbn. rewrite app_nil_r. reflexivity.
Qed.

(** X28. The route recovers from two errors of the download only, and from each
    only when it has the means: from an expired token with the password of
    the stored account, from a missing licence when the request asks to
    purchase. Every other failure of the first download is the failure of the
    route, and the route has done nothing but that download: no login, no
    purchase, no change to the package. *)
Theorem download_route_passes_errors_through (account : Account.t) (app : App.t)
    (output_path external_version_id : option string) (auto_purchase : bool)
    (w : World) (e : Error) :
  let attempt := download fetch_and_patch account app output_path external_version_id w in
  result attempt = Raise e ->
  (if issubclass (err_class e) PasswordTokenExpiredError
   then negb (truthy (Account.password account))
   else if issubclass (err_class e) LicenseRequiredError then negb auto_purchase else true)
  = true ->
  download_route fetch_and_patch login_values account app output_path external_version_id
    auto_purchase w
  = mkRun (trace attempt) (final attempt) (Raise e).
Proof.
  intros attempt Hres Hoff.
  pose proof (download_try_raises account app output_path external_version_id auto_purchase
                w e Hres Hoff) as Htry.
  assert (download_attempts fetch_and_patch login_values 3 account app output_path
            external_version_id auto_purchase w
          = mkRun (trace attempt) (final attempt) (Raise e)) as Hloop.
  { cbn [download_attempts]. rewrite (bind_raises _ _ w e); rewrite Htry; reflexivity. }
  unfold download_route. rewrite (bind_raises _ _ w e); rewrite Hloop; reflexivity.
Qed.

(** A download the store refuses: the request is answered by a dict that
    does not pass [_validate_download_result]. *)
Lemma download_refused account app output_path external_version_id w r rest d e :
  network w = NetResponse r :: rest ->
  parsed_payload r ResponseFormatXML = Ok (VDict d) ->
  _validate_download_result (result_of r (VDict d)) = Raise e ->
  download fetch_and_patch account app output_path external_version_id w
  = mkRun [EvRequest (wire_request (download_request account app _guid external_version_id));
           EvCookieSave (resp_cookies r ++ session_cookies w)%list]
          (answered r rest w) (Raise e).
Proof.
  intros Hnet Hparse Hvalid. unfold download, _send_download_request.
  unfold mbind at 1. unfold M_bind at 1.
  rewrite (_send_request_answered _ _ _ _ Hnet).
  cbn [response_format download_request result final trace]. rewrite Hparse.
  unfold mbind, M_bind. cbn [lift result final trace]. rewrite Hvalid. reflexivity.
Qed.

Lemma purchase_accepted account app w r rest :
  truthy (VFloat (App.price app)) && SFltb float_zero (App.price app) = false ->
  network w = NetResponse r :: rest ->
  confirms_purchase r ->
  let run := purchase account app w in
  result run = Ok tt
  /\ final run = answered r rest w
  /\ requests_of (trace run)
     = [wire_request (purchase_request account app _guid PRICING_PARAM_APPSTORE)].
Proof.
  intros Hfree Hnet (d & Hparse & Hun & Hmsg & Hexp & Hfalsy & Hstatus & Hdoc & Hzero) run.
  subst run. rewrite (purchase_unpaid account app w Hfree). unfold try_except.
  destruct (_purchase_with_params_answered account app _guid PRICING_PARAM_APPSTORE
              w r rest d Hnet Hparse) as [Hfinal Hres].
  rewrite Hun, Hmsg, Hexp, Hfalsy, Hdoc, Hzero in Hres.
  destruct (Z.eqb_spec (resp_status r) 500) as [|_]; [contradiction|].
  cbn in Hres. rewrite Hres.
  split; [exact Hres|]. split; [exact Hfinal|]. apply _purchase_with_params_requests.
Qed.

(** A turn of the loop in which the download is refused for want of a
    licence and the purchase that follows is confirmed. *)
Lemma download_try_buys account app output_path external_version_id w r1 r2 rest :
  truthy (VFloat (App.price app)) && SFltb float_zero (App.price app) = false ->
  network w = NetResponse r1 :: NetResponse r2 :: rest ->
  refuses_for_licence r1 ->
  confirms_purchase r2 ->
  let run := download_try fetch_and_patch login_values account app output_path
               external_version_id true w in
  result run = Ok (None, account)
  /\ final run = answered r2 rest (answered r1 (NetResponse r2 :: rest) w)
  /\ requests_of (trace run)
     = [wire_request (download_request account app _guid external_version_id);
        wire_request (purchase_request account app _guid PRICING_PARAM_APPSTORE)].
Proof.
  intros Hfree Hnet (d & Hparse & Hexp & Hlic) Hbuy run. subst run.
  assert (_validate_download_result (result_of r1 (VDict d))
          = Raise (error LicenseRequiredError "license required" (MetaValue (VDict d))))
    as Hvalid.
  { unfold _validate_download_result. cbn [result_of data py_get mbind outcome_bind].
    rewrite Hexp, Hlic. reflexivity. }
  pose proof (download_refused account app output_path external_version_id w r1 _ d _
                Hnet Hparse Hvalid) as Hdown.
  destruct (purchase_accepted account app (answered r1 (NetResponse r2 :: rest) w) r2 rest
              Hfree eq_refl Hbuy) as (Hres & Hfinal & Hreq).
  unfold download_try, try_except.
  erewrite bind_raises by (rewrite Hdown; reflexivity).
  rewrite Hdown. cbn [result trace final err_class error orb issubclass ErrorClass_eqb negb].
  rewrite result_bind, final_bind, trace_bind, Hres. cbn [result final trace].
  rewrite Hfinal. split; [reflexivity|]. split; [reflexivity|].
  rewrite app_nil_r.
  change (requests_of ([EvRequest (wire_request
                          (download_request account app _guid external_version_id));
                        EvCookieSave (resp_cookies r1 ++ session_cookies w)%list]
                       ++ trace (purchase account app
                                   (answered r1 (NetResponse r2 :: rest) w)))%list
          = [wire_request (download_request account app _guid external_version_id);
             wire_request (purchase_request account app _guid PRICING_PARAM_APPSTORE)]).
  rewrite requests_of_app, Hreq. reflexivity.
Qed.

End RouteFacts.

(** * Examples for the further properties *)

Section MoreExamples.
Import Sample2.

Example guid_of_the_machine : _guid = "AABBCC001122".
Proof. vm_compute. reflexivity. Qed.

(** A node number of more than 48 bits has 13 digits; the address is made of
    the first 12. *)
Example addresses_of_nodes :
  Machine.mac_address 0 = "00:00:00:00:00:00"
  /\ Machine.mac_address 187723558162722 = "AA:BB:CC:00:11:22"
  /\ Machine.mac_address 281474976710656 = "10:00:00:00:00:00".
Proof. vm_compute. repeat split; reflexivity. Qed.

(** The first header of a name wins, whatever the case of the name. *)
Example first_header_wins :
  get_header {| status_code := 200;
                headers := [("X-Set-Apple-Store-Front", "143441"); ("x-set-apple-store-front", "143444")];
                data := VNone |} "x-SET-apple-store-FRONT"
  = Ok "143441".
Proof. reflexivity. Qed.

(** An item that is temporarily unavailable is asked for a second time, with
    the Arcade pricing parameter; the second answer decides. *)
Example arcade_is_tried :
  let w := Sample.world [NetResponse (answer "unavailable"); NetResponse (answer "purchase")] in
  requests_of (trace (purchase Sample.account foo w))
  = [wire_request (purchase_request Sample.account foo _guid PRICING_PARAM_APPSTORE);
     wire_request (purchase_request Sample.account foo _guid PRICING_PARAM_ARCADE)]
  /\ result (purchase Sample.account foo w) = Ok tt.
Proof. vm_compute. split; reflexivity. Qed.

Example versions_of_the_sample :
  result (list_versions Sample.account foo None (Sample.world [NetResponse (answer "versions")]))
  = Ok {| external_version_identifiers := ["801"; "802"];
          latest_external_version_id := "802" |}.
Proof. vm_compute. reflexivity. Qed.

(** The price of an app that costs minus zero comes back as zero. *)
Example negative_zero_price :
  App.from_dict (App_to_dict (with_price foo (S754_zero true))) = Ok foo.
Proof. reflexivity. Qed.

(** Patching an archive onto itself empties it. *)
Example patch_in_place :
  let run := _apply_patches Sample.package Sample.package descriptor_metadata Sample.account
               (Sample.on_disk Sample.plain_archive) in
  result run = Raise (error BadZipFile "File is not a zip file" NoMetadata)
  /\ files (final run) !! Sample.package = Some (FileBytes "").
Proof. vm_compute. split; reflexivity. Qed.

(** What is stored is read back; after [revoke] there is no account. *)
Example stored_and_revoked :
  let w := final (FileKeychain.set "account" "{}" (Sample.world [])) in
  result (account_info w) = Ok Sample.account
  /\ result (account_info (final (revoke w)))
     = Raise (error AppStoreError "no active account" NoMetadata).
Proof. vm_compute. split; reflexivity. Qed.

Lemma guid_is_bare_witness : "A"%char <> ":"%char /\ ascii_upper "A" = "A"%char.
Proof. apply (guid_is_bare "A"). vm_compute. left. reflexivity. Defined.


Lemma login_asks_for_auth_code_witness :
  let w := Sample.world [NetResponse (answer "bad-login"); NetResponse Sample.login_success] in
  let run := login "ada@example.com" "secret" None w in
  result run
  = Raise (error AuthCodeRequiredError "two-factor auth code required"
             (MetaValue (VDict bad_login_payload)))
  /\ requests_of (trace run)
     = [wire_request (login_request "ada@example.com" "secret" None _guid 1 None)]
  /\ network (final run) = [NetResponse Sample.login_success]
  /\ keychain_data (final run) = ∅.
Proof.
  apply (login_asks_for_auth_code "ada@example.com" "secret" None
           (Sample.world [NetResponse (answer "bad-login"); NetResponse Sample.login_success])
           (answer "bad-login") [NetResponse Sample.login_success] bad_login_payload).
  - reflexivity.
  - reflexivity.
  - unfold is_redirect. cbn. intros Hin. repeat destruct Hin as [Hin|Hin]; try discriminate Hin.
    exact Hin.
  - reflexivity.
  - reflexivity.
  - reflexivity.
  - reflexivity.
Defined.

Lemma login_retries_invalid_credentials_once_witness :
  let w := Sample.world [NetResponse (answer "wrong-password");
                         NetResponse (answer "wrong-password");
                         NetResponse Sample.login_success] in
  let run := login "ada@example.com" "secret" None w in
  result run
  = Raise (error AppStoreError "Your Apple ID or password is incorrect."
             (MetaValue (VDict wrong_password_payload)))
  /\ requests_of (trace run)
     = [wire_request (login_request "ada@example.com" "secret" None _guid 1 None);
        wire_request (login_request "ada@example.com" "secret" None _guid 2 None)]
  /\ network (final run) = [NetResponse Sample.login_success].
Proof.
  apply (login_retries_invalid_credentials_once "ada@example.com" "secret" None
           (Sample.world [NetResponse (answer "wrong-password");
                          NetResponse (answer "wrong-password");
                          NetResponse Sample.login_success])
           (answer "wrong-password") (answer "wrong-password")
           [NetResponse Sample.login_success] wrong_password_payload wrong_password_payload).
  - reflexivity.
  - reflexivity.
  - reflexivity.
  - unfold is_redirect. cbn. intros Hin. repeat destruct Hin as [Hin|Hin]; try discriminate Hin.
    exact Hin.
  - unfold is_redirect. cbn. intros Hin. repeat destruct Hin as [Hin|Hin]; try discriminate Hin.
    exact Hin.
  - reflexivity.
  - reflexivity.
Defined.

Lemma purchase_succeeds_only_on_confirmation_witness :
  let w := Sample.world [NetResponse Sample.purchase_success] in
  truthy (VFloat (App.price foo)) && SFltb float_zero (App.price foo) = false
  /\ exists earlier r rest d,
       network w = (earlier ++ NetResponse r :: rest)%list
       /\ (length earlier <= 1)%nat
       /\ network (final (purchase Sample.account foo w)) = rest
       /\ parsed_payload r ResponseFormatXML = Ok (VDict d)
       /\ truthy (dict_get d "failureType" (VStr "")) = false
       /\ resp_status r <> 500
       /\ dict_get d "jingleDocType" VNone = VStr "purchaseSuccess"
       /\ eq_zero (dict_get d "status" VNone) = true.
Proof.
  apply (purchase_succeeds_only_on_confirmation Sample.account foo
           (Sample.world [NetResponse Sample.purchase_success])).
  vm_compute. reflexivity.
Defined.

Lemma unknown_storefront_sends_nothing_witness :
  let failure := error AppStoreError "unknown storefront: 999999-1,29" NoMetadata in
  let w := Sample.world [NetResponse (answer "lookup")] in
  search stranger "foo" 5 false w = mkRun [] w (Raise failure)
  /\ lookup stranger "com.example.foo" w = mkRun [] w (Raise failure).
Proof.
  apply (unknown_storefront_sends_nothing stranger "999999-1,29" "foo" "com.example.foo" 5 false
           (Sample.world [NetResponse (answer "lookup")])).
  - reflexivity.
  - intros code Hin. vm_compute in Hin.
    repeat destruct Hin as [Hin|Hin]; try discriminate Hin. exact Hin.
Defined.

Lemma lookup_takes_first_result_witness :
  let w := Sample.world [NetResponse (answer "lookup")] in
  let run := lookup Sample.account "com.example.foo" w in
  let request := catalog_request ITUNES_API_LOOKUP_PATH (lookup_params "com.example.foo" "US") in
  requests_of (trace run) = [wire_request request]
  /\ result run = Ok foo.
Proof.
  cbv zeta.
  assert (_country_code_from_storefront (Account.store_front Sample.account) = Ok "US")
    as Hcountry by (vm_compute; reflexivity).
  assert (parsed_payload (answer "lookup") ResponseFormatJSON = Ok (VDict lookup_payload))
    as Hparse by (vm_compute; reflexivity).
  destruct (lookup_takes_first_result Sample.account "com.example.foo" "US"
              (Sample.world [NetResponse (answer "lookup")]) (answer "lookup") []
              lookup_payload Hcountry eq_refl Hparse) as (Hreq & _ & _ & Hfirst).
  split; [exact Hreq|].
  rewrite (Hfirst _ _ eq_refl). vm_compute. reflexivity.
Defined.

Lemma search_lists_every_result_witness :
  let w := Sample.world [NetResponse (answer "lookup")] in
  exists r rest d items,
    network w = NetResponse r :: rest
    /\ parsed_payload r ResponseFormatJSON = Ok (VDict d)
    /\ iterate (dict_get d "results" (VList [])) = Ok items
    /\ Forall2 (fun item app => App.from_value item = Ok app) items (results found)
    /\ py_int (dict_get d "resultCount" (VInt (Z.of_nat (length (results found)))))
       = Ok (count found).
Proof.
  apply (search_lists_every_result Sample.account "foo" 5 false
           (Sample.world [NetResponse (answer "lookup")]) found).
  vm_compute. reflexivity.
Defined.

Lemma bundle_name_keeps_suffix_witness :
  exists stem,
    "Foo.app" = stem ++ ".app"
    /\ (forall pair,
          filename (zinfo (sinf_member "Foo.app" pair))
          = "Payload/" ++ stem ++ ".app.app/" ++ to_str (snd pair))
    /\ (forall executable first,
          filename (zinfo (info_member "Foo.app" executable first))
          = "Payload/" ++ stem ++ ".app.app/SC_Info/" ++ to_str executable ++ ".sinf").
Proof.
  apply (bundle_name_keeps_suffix Sample.plain_archive "Foo.app"). reflexivity.
Defined.



Lemma account_info_after_login_witness :
  let w' := final (login "ada@example.com" "secret" None Sample.three_answers) in
  account_info w' = mkRun [] w' (Ok Sample.account)
  /\ Account.password Sample.account = VStr "secret".
Proof.
  apply (account_info_after_login "ada@example.com" "secret" None Sample.three_answers
           Sample.account).
  - vm_compute. reflexivity.
  - intros payload Hdump. injection Hdump as <-. split; reflexivity.
Defined.


Lemma app_dict_roundtrip_witness :
  App.from_dict (App_to_dict foo) = Ok foo
  /\ (App.from_dict (App_to_dict foo) = Ok foo <-> App.price foo <> S754_zero true).
Proof.
  apply (app_dict_roundtrip foo); reflexivity.
Defined.

Lemma download_route_passes_errors_through_witness :
  let w := Sample.world [NetResponse (answer "licence"); NetResponse (answer "purchase")] in
  let attempt := download no_fetch Sample.account foo None None w in
  download_route no_fetch no_login Sample.account foo None None false w
  = mkRun (trace attempt) (final attempt)
          (Raise (error LicenseRequiredError "license required"
                    (MetaValue (VDict licence_payload)))).
Proof.
  apply (download_route_passes_errors_through no_fetch no_login Sample.account foo None None
           false
           (Sample.world [NetResponse (answer "licence"); NetResponse (answer "purchase")])).
  - vm_compute. reflexivity.
  - reflexivity.
Defined.

End MoreExamples.
